(** * Descriptor-set layout of the Vulkan archiver, and staging-buffer mapping

    A shallow embedding of
    - [Graphics/Archiver/src/Archiver_Vk.cpp]: [ArchiverImpl::PatchShadersVk]
      and [SerializationDeviceImpl::GetPipelineResourceBindingsVk];
    - [Graphics/GraphicsEngineWebGPU/src/BufferWebGPUImpl.cpp]:
      [BufferWebGPUImpl::Map], [BufferWebGPUImpl::Unmap],
      [BufferWebGPUImpl::GetStagingBufferInfo],
      [BufferWebGPUImpl::FindAvailableWriteMemoryBuffer] and
      [BufferWebGPUImpl::FindAvailableReadMemoryBuffer].

    Conventions.
    - [Uint32] values are integers in [Z]; every [++] and [+] on them is
      written with its wrap-around modulo [2^32].
    - Array indices and loop counters are [nat].
    - A [std::array] is a list of its fixed length; a null pointer is [None].
    - Reading an array past its end has no defined result in C++: the model
      gives [Undefined] for the whole computation.
    - [VERIFY], [VERIFY_EXPR], [UNEXPECTED] and [LOG_ERROR] do not change
      control flow; the model records them as diagnostics. *)

From Stdlib Require Import ZArith Lia String.
From stdpp Require Import base decidable option list numbers.

Local Open Scope Z_scope.

(** ** Fixed-width integers *)

Definition Uint32_modulus : Z := 2 ^ 32.

(** [~0u] *)
Definition Uint32_all_ones : Z := Uint32_modulus - 1.

(** [++x] on a [Uint32]. *)
Definition Uint32_incr (x : Z) : Z := (x + 1) mod Uint32_modulus.

(** [x + y] on [Uint32]. *)
Definition Uint32_add (x y : Z) : Z := (x + y) mod Uint32_modulus.

(** [StaticCast<T>(x)] for an unsigned destination type of [bits] bits. *)
Definition StaticCast (bits : Z) (x : Z) : Z := x mod 2 ^ bits.

(** ** Diagnostics *)

Inductive Diagnostic : Type :=
| AssertionFailed (expr : string)
| ErrorMessage (msg : string)
| UnexpectedCode (msg : string).

Definition VERIFY_EXPR (cond : bool) (expr : string) : list Diagnostic :=
  if cond then [] else [AssertionFailed expr].

(** ** Resource signatures *)

Inductive DESCRIPTOR_SET_ID : Type :=
| DESCRIPTOR_SET_ID_STATIC_MUTABLE
| DESCRIPTOR_SET_ID_DYNAMIC.

(** [PipelineResourceDesc]: the fields the binding layout reads. *)
Record PipelineResourceDesc : Type := {
  Name : string;
  ShaderStages : Z;
  ArraySize : Z;
  ResourceType : Z
}.

(** [PipelineResourceSignatureVkImpl::ResourceAttribs]: binding slot and
    signature-relative descriptor set of one resource. *)
Record ResourceAttribs : Type := {
  BindingIndex : Z;
  DescrSet : Z
}.

(** [PipelineResourceSignatureVkImpl], as far as the two functions observe
    it: [GetDesc().BindingIndex], the resources with their attributes
    ([GetTotalResourceCount], [GetResourceDesc], [GetResourceAttribs]) and
    the two descriptor-set sizes, [~0u] for a set the signature lacks. *)
Record PipelineResourceSignatureVkImpl : Type := {
  Desc_BindingIndex : nat;
  Resources : list (PipelineResourceDesc * ResourceAttribs);
  StaticMutableSetSize : Z;
  DynamicSetSize : Z
}.

Definition GetDescriptorSetSize (pSignature : PipelineResourceSignatureVkImpl)
    (SetId : DESCRIPTOR_SET_ID) : Z :=
  match SetId with
  | DESCRIPTOR_SET_ID_STATIC_MUTABLE => StaticMutableSetSize pSignature
  | DESCRIPTOR_SET_ID_DYNAMIC => DynamicSetSize pSignature
  end.

Definition GetTotalResourceCount (pSignature : PipelineResourceSignatureVkImpl) : nat :=
  length (Resources pSignature).

(** [SignatureArray<PipelineResourceSignatureVkImpl>] *)
Abbreviation SignatureArray := (list (option PipelineResourceSignatureVkImpl)).

(** The inner loop shared by both functions:
    [for (auto SetId : {STATIC_MUTABLE, DYNAMIC})
       if (pSignature->GetDescriptorSetSize(SetId) != ~0u) ++DescSetLayoutCount;] *)
Definition count_descriptor_sets (pSignature : PipelineResourceSignatureVkImpl)
    (DescSetLayoutCount : Z) : Z :=
  foldl (λ count SetId,
           if GetDescriptorSetSize pSignature SetId =? Uint32_all_ones
           then count else Uint32_incr count)
        DescSetLayoutCount
        [DESCRIPTOR_SET_ID_STATIC_MUTABLE; DESCRIPTOR_SET_ID_DYNAMIC].

(** ** Results of calls

    A call returns, leaves by an exception, or has no defined result. *)

Inductive Exception : Type :=
| DuplicateBindingIndex (index : nat)
| BindingIndexOutOfRange (index : nat)
| OtherException (what : string).

Inductive Outcome (A : Type) : Type :=
| Returned (a : A)
| Thrown (e : Exception)
| Undefined.
Arguments Returned {A} a.
Arguments Thrown {A} e.
Arguments Undefined {A}.

Definition Outcome_bind {A B : Type} (f : A → Outcome B) (m : Outcome A) : Outcome B :=
  match m with
  | Returned a => f a
  | Thrown e => Thrown e
  | Undefined => Undefined
  end.

#[global] Instance Outcome_mbind : MBind Outcome := @Outcome_bind.
#[global] Instance Outcome_mret : MRet Outcome := @Returned.

(** Counted loops over array indices: [for_each_index body i count s] runs
    [body i], [body (i+1)], ..., [body (i+count-1)] in this order; a step
    that does not return ends the run. *)
Fixpoint for_each_index {St : Type} (body : nat → St → Outcome St)
    (i count : nat) (s : St) : Outcome St :=
  match count with
  | O => Returned s
  | S k => s' ← body i s; for_each_index body (S i) k s'
  end.

(** ** Constants and integer types of the engine

    [MAX_RESOURCE_SIGNATURES], [SHADER_TYPE_UNKNOWN] and the element type
    of [PipelineStateVkImpl::TBindIndexToDescSetIndex] are declared in
    headers that are not part of the two source files; the development is
    parametric in them. *)

Class EngineConstants : Type := {
  MAX_RESOURCE_SIGNATURES : nat;
  SHADER_TYPE_UNKNOWN : Z;
  DescSetIndex_bits : Z
}.

(** ** Signature Sorter *)

(** Modelled from the spec: [SortResourceSignatures] is defined in
    [Archiver_Inc.hpp], which is not among the source files; only its two
    calls are.  Section 4.1: every non-null signature is placed at
    [slot[signature.BindingGroupIndex]] of a slot array of
    [MAX_RESOURCE_SIGNATURES] entries; the count returned is the maximum
    binding-group index used plus one; two signatures with one index, or an
    index above [MAX_RESOURCE_SIGNATURES - 1], are a construction error and
    no slot array is produced. *)
Fixpoint SortResourceSignatures_from `{EngineConstants}
    (ppSrcSignatures : list (option PipelineResourceSignatureVkImpl))
    (SortedSignatures : SignatureArray) (SortedSignaturesCount : nat)
    : Outcome (SignatureArray * nat) :=
  match ppSrcSignatures with
  | [] => Returned (SortedSignatures, SortedSignaturesCount)
  | None :: rest =>
      SortResourceSignatures_from rest SortedSignatures SortedSignaturesCount
  | Some pSignature :: rest =>
      let index := Desc_BindingIndex pSignature in
      if (MAX_RESOURCE_SIGNATURES <=? index)%nat
      then Thrown (BindingIndexOutOfRange index)
      else match SortedSignatures !! index with
           | Some (Some _) => Thrown (DuplicateBindingIndex index)
           | _ =>
               SortResourceSignatures_from rest
                 (<[index := Some pSignature]> SortedSignatures)
                 (Nat.max SortedSignaturesCount (S index))
           end
  end.

(** [SignatureArray<...> Signatures = {}] followed by the call. *)
Definition SortResourceSignatures `{EngineConstants}
    (ppSrcSignatures : list (option PipelineResourceSignatureVkImpl))
    : Outcome (SignatureArray * nat) :=
  SortResourceSignatures_from ppSrcSignatures
    (replicate MAX_RESOURCE_SIGNATURES None) 0%nat.

(** ** Descriptor Layout Assigner: the loop of [PatchShadersVk] *)

Record LayoutState : Type := {
  BindIndexToDescSetIndex : list Z;
  DescSetLayoutCount : Z;
  LayoutDiagnostics : list Diagnostic
}.

(** [TBindIndexToDescSetIndex BindIndexToDescSetIndex = {};
     Uint32 DescSetLayoutCount = 0;] *)
Definition LayoutState_init `{EngineConstants} : LayoutState :=
  {| BindIndexToDescSetIndex := replicate MAX_RESOURCE_SIGNATURES 0;
     DescSetLayoutCount := 0;
     LayoutDiagnostics := [] |}.

(** The body of [for (Uint32 i = 0; i < SignaturesCount; ++i)]. *)
Definition PatchShadersVk_slot `{EngineConstants} (Signatures : SignatureArray)
    (i : nat) (st : LayoutState) : Outcome LayoutState :=
  match Signatures !! i with
  | None => Undefined
  | Some None => Returned st
  | Some (Some pSignature) =>
      Returned
        {| BindIndexToDescSetIndex :=
             <[i := StaticCast DescSetIndex_bits (DescSetLayoutCount st)]>
               (BindIndexToDescSetIndex st);
           DescSetLayoutCount :=
             count_descriptor_sets pSignature (DescSetLayoutCount st);
           LayoutDiagnostics :=
             LayoutDiagnostics st ++
             VERIFY_EXPR (Desc_BindingIndex pSignature =? i)%nat
                         "pSignature->GetDesc().BindingIndex == i" |}
  end.

(** The loop, followed by
    [VERIFY_EXPR(DescSetLayoutCount <= MAX_RESOURCE_SIGNATURES * 2)]. *)
Definition PatchShadersVk_layout `{EngineConstants} (Signatures : SignatureArray)
    (SignaturesCount : nat) : Outcome LayoutState :=
  st ← for_each_index (PatchShadersVk_slot Signatures) 0 SignaturesCount
         LayoutState_init;
  mret
    {| BindIndexToDescSetIndex := BindIndexToDescSetIndex st;
       DescSetLayoutCount := DescSetLayoutCount st;
       LayoutDiagnostics :=
         LayoutDiagnostics st ++
         VERIFY_EXPR (DescSetLayoutCount st <=? Z.of_nat MAX_RESOURCE_SIGNATURES * 2)
                     "DescSetLayoutCount <= MAX_RESOURCE_SIGNATURES * 2" |}.

(** ** Runtime Binding Reporter: [GetPipelineResourceBindingsVk] *)

(** Modelled from the spec: [PipelineResourceBinding] and
    [ResDescToPipelineResBinding] are declared outside the source files.
    Section 3: the record names the resource and carries its stage mask,
    its final binding slot and its final descriptor-set index; the call
    passes these as [(ResDesc, Stages, slot, set)]. *)
Record PipelineResourceBinding : Type := {
  Binding_Name : string;
  Binding_ResourceType : Z;
  Binding_ArraySize : Z;
  Binding_ShaderStages : Z;
  Binding_Slot : Z;
  Binding_DescriptorSet : Z
}.

Definition ResDescToPipelineResBinding (ResDesc : PipelineResourceDesc)
    (Stages : Z) (Slot : Z) (DescriptorSet : Z) : PipelineResourceBinding :=
  {| Binding_Name := Name ResDesc;
     Binding_ResourceType := ResourceType ResDesc;
     Binding_ArraySize := ArraySize ResDesc;
     Binding_ShaderStages := Stages;
     Binding_Slot := Slot;
     Binding_DescriptorSet := DescriptorSet |}.

(** [PipelineResourceBindingAttribs]: [ppResourceSignatures] with its
    [ResourceSignaturesCount] entries, and the stage filter. *)
Record PipelineResourceBindingAttribs : Type := {
  ppResourceSignatures : list (option PipelineResourceSignatureVkImpl);
  Info_ShaderStages : Z
}.

Definition ResourceSignaturesCount (Info : PipelineResourceBindingAttribs) : nat :=
  length (ppResourceSignatures Info).

Record ReporterState : Type := {
  ResourceBindings : list PipelineResourceBinding;
  Reporter_DescSetLayoutCount : Z
}.

(** [for (Uint32 r = 0; r < pSignature->GetTotalResourceCount(); ++r)] *)
Definition report_signature_resources (pSignature : PipelineResourceSignatureVkImpl)
    (ShaderStagesFilter : Z) (DescSetLayoutCount : Z)
    (Bindings : list PipelineResourceBinding) : list PipelineResourceBinding :=
  foldl (λ out '(ResDesc, ResAttr),
           if Z.land (ShaderStages ResDesc) ShaderStagesFilter =? 0
           then out
           else out ++ [ResDescToPipelineResBinding ResDesc (ShaderStages ResDesc)
                          (BindingIndex ResAttr)
                          (Uint32_add DescSetLayoutCount (DescrSet ResAttr))])
        Bindings (Resources pSignature).

(** The body of [for (Uint32 sign = 0; sign < SignaturesCount; ++sign)]. *)
Definition GetPipelineResourceBindingsVk_slot (Signatures : SignatureArray)
    (ShaderStagesFilter : Z) (sign : nat) (st : ReporterState)
    : Outcome ReporterState :=
  match Signatures !! sign with
  | None => Undefined
  | Some None => Returned st
  | Some (Some pSignature) =>
      Returned
        {| ResourceBindings :=
             report_signature_resources pSignature ShaderStagesFilter
               (Reporter_DescSetLayoutCount st) (ResourceBindings st);
           Reporter_DescSetLayoutCount :=
             count_descriptor_sets pSignature (Reporter_DescSetLayoutCount st) |}
  end.

(** The filter: [SHADER_TYPE_UNKNOWN] stands for all stages. *)
Definition effective_ShaderStages `{EngineConstants} (Info : PipelineResourceBindingAttribs) : Z :=
  if Info_ShaderStages Info =? SHADER_TYPE_UNKNOWN
  then Uint32_all_ones
  else Info_ShaderStages Info.

(** What the function leaves behind: the vector it appended to, the final
    counter, and the assertions that failed. *)
Record ReporterResult : Type := {
  Result_ResourceBindings : list PipelineResourceBinding;
  Result_DescSetLayoutCount : Z;
  Result_Diagnostics : list Diagnostic
}.

Definition GetPipelineResourceBindingsVk `{EngineConstants}
    (Info : PipelineResourceBindingAttribs)
    (ResourceBindings0 : list PipelineResourceBinding) : Outcome ReporterResult :=
  let ShaderStagesFilter := effective_ShaderStages Info in
  '(Signatures, SignaturesCount) ← SortResourceSignatures (ppResourceSignatures Info);
  st ← for_each_index (GetPipelineResourceBindingsVk_slot Signatures ShaderStagesFilter)
         0 SignaturesCount
         {| ResourceBindings := ResourceBindings0; Reporter_DescSetLayoutCount := 0 |};
  mret
    {| Result_ResourceBindings := ResourceBindings st;
       Result_DescSetLayoutCount := Reporter_DescSetLayoutCount st;
       Result_Diagnostics :=
         VERIFY_EXPR (Reporter_DescSetLayoutCount st <=? Z.of_nat MAX_RESOURCE_SIGNATURES * 2)
                     "DescSetLayoutCount <= MAX_RESOURCE_SIGNATURES * 2" ++
         VERIFY_EXPR (Z.of_nat (ResourceSignaturesCount Info) <=? Reporter_DescSetLayoutCount st)
                     "DescSetLayoutCount >= Info.ResourceSignaturesCount" |}.

(** ** Bytecode Archiver *)

(** The backend tag, [DeviceObjectArchiveBase::DeviceType]; the source
    files name one value, [DeviceType::Vulkan]. *)
Inductive DeviceType : Type :=
| Vulkan
| OtherBackend (tag : nat).

#[global] Instance DeviceType_eq_dec : EqDecision DeviceType.
Proof. solve_decision. Defined.

(** [ShaderCreateInfo]: the stage kind of the shader, [Desc.ShaderType]. *)
Record ShaderCreateInfo : Type := {
  Desc_ShaderType : Z
}.

(** One entry of the deduplicated bytecode table. *)
Record ArchivedShader : Type := {
  Blob_DeviceType : DeviceType;
  Blob_ShaderType : Z;
  Blob_Bytes : list Z
}.

#[global] Instance ArchivedShader_eq_dec : EqDecision ArchivedShader.
Proof. solve_decision. Defined.

(** The blob store; an [ArchivedShaderIndex] is a position in it. *)
Abbreviation BlobStore := (list ArchivedShader).

(** Modelled from the spec: [ArchiverImpl::SerializeShaderBytecode] is
    defined in [ArchiverImpl.cpp], which is not among the source files.
    Section 4.4: two blobs are identical if their backend tag, stage kind
    and byte content are identical; for a blob already stored the archiver
    returns the existing index instead of storing a duplicate, otherwise it
    appends the blob and returns the new index.  The index is pushed onto
    [ShaderIndices]. *)
Definition SerializeShaderBytecode (ShaderIndices : list nat) (DevType : DeviceType)
    (CI : ShaderCreateInfo) (Bytecode : list Z) (store : BlobStore)
    : list nat * BlobStore :=
  let blob := {| Blob_DeviceType := DevType;
                 Blob_ShaderType := Desc_ShaderType CI;
                 Blob_Bytes := Bytecode |} in
  match list_find (λ stored, stored = blob) store with
  | Some (index, _) => (ShaderIndices ++ [index], store)
  | None => (ShaderIndices ++ [length store], store ++ [blob])
  end.

(** ** [ArchiverImpl::PatchShadersVk] *)

(** [ShaderVkImpl], with its SPIR-V words. *)
Record ShaderVkImpl : Type := {
  GetSPIRV : list Z
}.

(** [SerializableShaderImpl], with the create info it was made from. *)
Record SerializableShaderImpl : Type := {
  GetCreateInfo : ShaderCreateInfo
}.

(** [PipelineStateVkImpl::ShaderStageInfo], the element of [TShaderStages]. *)
Record ShaderStageInfo : Type := {
  Stage_Type : Z;
  Shaders : list ShaderVkImpl;
  SPIRVs : list (list Z)
}.

(** [ShaderStageInfo::Count()], declared with the structure: the number
    of shaders of the stage. *)
Definition Stage_Count (Stage : ShaderStageInfo) : nat := length (Shaders Stage).

(** [ShaderStageInfoVk]: a [ShaderStageInfo] with the serializable shaders
    it came from. *)
Record ShaderStageInfoVk : Type := {
  Base : ShaderStageInfo;
  Serializable : list SerializableShaderImpl
}.

(** [PipelineStateDesc]; [PatchShadersVk] only passes it on. *)
Record PipelineStateDesc : Type := {
  PSO_Name : string
}.

(** The members of [CreateInfoType] that [PatchShadersVk] reads itself;
    [ResourceSignaturesCount] is the length of [ppResourceSignatures]. *)
Record PipelineStateCreateInfo : Type := {
  PSODesc : PipelineStateDesc;
  CI_ppResourceSignatures : list (option PipelineResourceSignatureVkImpl);
  CI_pShaders : list SerializableShaderImpl
}.

(** [DefaultPRSInfo]: the member [PatchShadersVk] reads, [pPRS]. *)
Record DefaultPRSInfo : Type := {
  pPRS : option PipelineResourceSignatureVkImpl
}.

(** [SerializedData], as bytes. *)
Definition SerializedData : Type := list Z.

(** [TPSOData<CreateInfoType>]: the per-device blobs of the pipeline. *)
Record TPSOData : Type := {
  PerDeviceData : DeviceType → SerializedData
}.

Definition set_PerDeviceData (Data : TPSOData) (Dev : DeviceType)
    (Mem : SerializedData) : TPSOData :=
  {| PerDeviceData := λ d, if decide (d = Dev) then Mem else PerDeviceData Data d |}.

(** Functions [PatchShadersVk] calls that are defined in other
    translation units.  [ExtractShaders] gives the stages and the active
    stage mask; [CreateDefaultResourceSignature] gives its result and the
    [DefPRS] it was passed by reference; [RemapShaderResources] rewrites
    the stages in place and may throw; [SerializeShadersForPSO] packs the
    indices.  [word_bytes] is the in-memory representation of one SPIR-V
    word. *)
Class ArchiverCollaborators : Type := {
  ExtractShaders :
    PipelineStateCreateInfo → list ShaderStageInfoVk * Z;
  CreateDefaultResourceSignature :
    DefaultPRSInfo → PipelineStateDesc → Z → list ShaderStageInfo →
    bool * DefaultPRSInfo;
  RemapShaderResources :
    list ShaderStageInfo → SignatureArray → nat → list Z → bool →
    Outcome (list ShaderStageInfo);
  SerializeShadersForPSO : list nat → SerializedData;
  word_bytes : Z → list Z
}.

(** Everything [PatchShadersVk] can change: the archive's blob store, the
    [Data] and [DefPRS] arguments, and the messages written. *)
Record ArchiverState : Type := {
  m_Shaders : BlobStore;
  Data : TPSOData;
  DefPRS : DefaultPRSInfo;
  Messages : list Diagnostic
}.

(** The signatures the pipeline is built from: the caller's, or the default
    one when the caller gave none.  [None] when the default signature could
    not be created. *)
Definition select_signatures `{ArchiverCollaborators}
    (CreateInfo : PipelineStateCreateInfo) (ActiveShaderStages : Z)
    (ShaderStagesVk : list ShaderStageInfo) (DefPRS0 : DefaultPRSInfo)
    : option (list (option PipelineResourceSignatureVkImpl)) * DefaultPRSInfo :=
  if (length (CI_ppResourceSignatures CreateInfo) =? 0)%nat
  then
    let '(created, DefPRS1) :=
      CreateDefaultResourceSignature DefPRS0 (PSODesc CreateInfo)
        ActiveShaderStages ShaderStagesVk in
    if created
    then (Some [pPRS DefPRS1], DefPRS1)
    else (None, DefPRS1)
  else (Some (CI_ppResourceSignatures CreateInfo), DefPRS0).

(** The body of the inner loop of the serialization:
    [for (size_t i = 0; i < Stage.Count(); ++i)], which reads
    [ShaderStages[j].Serializable[i]] and [Stage.SPIRVs[i]]. *)
Definition serialize_stage_shader `{ArchiverCollaborators}
    (ShaderStages : list ShaderStageInfoVk) (Stage : ShaderStageInfo)
    (j i : nat) (st : list nat * BlobStore) : Outcome (list nat * BlobStore) :=
  match ShaderStages !! j with
  | None => Undefined
  | Some Src =>
      match Serializable Src !! i, SPIRVs Stage !! i with
      | Some pShader, Some SPIRV =>
          Returned (SerializeShaderBytecode (fst st) Vulkan (GetCreateInfo pShader)
                      (flat_map word_bytes SPIRV) (snd st))
      | _, _ => Undefined
      end
  end.

(** The body of the outer loop:
    [for (size_t j = 0; j < ShaderStagesVk.size(); ++j)]. *)
Definition serialize_stage `{ArchiverCollaborators}
    (ShaderStages : list ShaderStageInfoVk) (ShaderStagesVk : list ShaderStageInfo)
    (j : nat) (st : list nat * BlobStore) : Outcome (list nat * BlobStore) :=
  match ShaderStagesVk !! j with
  | None => Undefined
  | Some Stage =>
      for_each_index (serialize_stage_shader ShaderStages Stage j) 0
        (Stage_Count Stage) st
  end.

(** The [try] block: sort, assign descriptor sets, remap.  The first
    component holds the assertions that failed before the block was left. *)
Definition PatchShadersVk_try `{EngineConstants} `{ArchiverCollaborators}
    (ppSignatures : list (option PipelineResourceSignatureVkImpl))
    (ShaderStagesVk : list ShaderStageInfo)
    : list Diagnostic * Outcome (list ShaderStageInfo) :=
  match SortResourceSignatures ppSignatures with
  | Thrown e => ([], Thrown e)
  | Undefined => ([], Undefined)
  | Returned (Signatures, SignaturesCount) =>
      match PatchShadersVk_layout Signatures SignaturesCount with
      | Thrown e => ([], Thrown e)
      | Undefined => ([], Undefined)
      | Returned layout =>
          (LayoutDiagnostics layout,
           RemapShaderResources ShaderStagesVk Signatures SignaturesCount
             (BindIndexToDescSetIndex layout) true)
      end
  end.

Definition with_DefPRS (st : ArchiverState) (d : DefaultPRSInfo) : ArchiverState :=
  {| m_Shaders := m_Shaders st; Data := Data st; DefPRS := d;
     Messages := Messages st |}.

Definition with_Messages (st : ArchiverState) (ms : list Diagnostic) : ArchiverState :=
  {| m_Shaders := m_Shaders st; Data := Data st; DefPRS := DefPRS st;
     Messages := Messages st ++ ms |}.

(** [PatchShadersVk] from the [try] block to its end, for the signatures
    selected. *)
Definition PatchShadersVk_build `{EngineConstants} `{ArchiverCollaborators}
    (ShaderStages : list ShaderStageInfoVk) (ShaderStagesVk : list ShaderStageInfo)
    (ppSignatures : list (option PipelineResourceSignatureVkImpl))
    (st1 : ArchiverState) : Outcome (bool * ArchiverState) :=
  match PatchShadersVk_try ppSignatures ShaderStagesVk with
  | (diags, Thrown _) =>
      Returned
        (false,
         with_Messages st1
           (diags ++
            [ErrorMessage "Failed to remap shader resources in Vulkan shaders"]))
  | (_, Undefined) => Undefined
  | (diags, Returned Remapped) =>
      '(ShaderIndices, store) ←
        for_each_index (serialize_stage ShaderStages Remapped) 0
          (length Remapped) ([], m_Shaders st1);
      mret
        (true,
         {| m_Shaders := store;
            Data := set_PerDeviceData (Data st1) Vulkan
                      (SerializeShadersForPSO ShaderIndices);
            DefPRS := DefPRS st1;
            Messages := Messages st1 ++ diags |})
  end.

Definition PatchShadersVk `{EngineConstants} `{ArchiverCollaborators}
    (CreateInfo : PipelineStateCreateInfo) (st : ArchiverState)
    : Outcome (bool * ArchiverState) :=
  let '(ShaderStages, ActiveShaderStages) := ExtractShaders CreateInfo in
  let ShaderStagesVk := map Base ShaderStages in
  match select_signatures CreateInfo ActiveShaderStages ShaderStagesVk (DefPRS st) with
  | (None, DefPRS1) => Returned (false, with_DefPRS st DefPRS1)
  | (Some ppSignatures, DefPRS1) =>
      PatchShadersVk_build ShaderStages ShaderStagesVk ppSignatures
        (with_DefPRS st DefPRS1)
  end.

(** ** [BufferWebGPUImpl::Map] and [BufferWebGPUImpl::Unmap] *)

Module BufferWebGPU.

Inductive MAP_TYPE : Type :=
| MAP_READ
| MAP_WRITE
| MAP_READ_WRITE
| MAP_TYPE_other (value : Z).

Inductive BufferMapState : Type :=
| MapState_None
| MapState_Read
| MapState_Write.

Inductive USAGE : Type :=
| USAGE_STAGING
| USAGE_DYNAMIC
| USAGE_UNIFIED
| USAGE_SPARSE
| USAGE_other (value : Z).

(** The members of the buffer that [Map] and [Unmap] touch.
    [MappedData_data] is the address [m_MappedData.data()] of the staging
    memory; a [PVoid] is an address. *)
Record BufferWebGPUImpl : Type := {
  Desc_Usage : USAGE;
  m_MapState : BufferMapState;
  m_MappedData : list Z;
  MappedData_data : Z
}.

Definition PVoid : Type := Z.

Definition set_MapState (this : BufferWebGPUImpl) (s : BufferMapState)
    : BufferWebGPUImpl :=
  {| Desc_Usage := Desc_Usage this;
     m_MapState := s;
     m_MappedData := m_MappedData this;
     MappedData_data := MappedData_data this |}.

Definition is_staging (u : USAGE) : bool :=
  match u with USAGE_STAGING => true | _ => false end.

Definition is_unmapped (s : BufferMapState) : bool :=
  match s with MapState_None => true | _ => false end.

(** [VERIFY(cond, msg)] *)
Definition VERIFY (cond : bool) (msg : string) : list Diagnostic :=
  if cond then [] else [AssertionFailed msg].

(** [pMappedData] is passed by reference: the function gets its value and
    gives back the value it holds on return. *)
Definition Map (this : BufferWebGPUImpl) (MapType : MAP_TYPE) (MapFlags : Z)
    (pMappedData : PVoid) : BufferWebGPUImpl * PVoid * list Diagnostic :=
  let checks :=
    VERIFY (is_staging (Desc_Usage this)) "Map working only for staging buffers" ++
    VERIFY (is_unmapped (m_MapState this)) "Buffer is already mapped" in
  match MapType with
  | MAP_READ =>
      (set_MapState this MapState_Read, MappedData_data this, checks)
  | MAP_WRITE =>
      (set_MapState this MapState_Write, MappedData_data this, checks)
  | MAP_READ_WRITE =>
      (this, pMappedData,
       checks ++ [ErrorMessage "MAP_READ_WRITE is not supported in WebGPU backend"])
  | MAP_TYPE_other _ =>
      (this, pMappedData, checks ++ [UnexpectedCode "Unknown map type"])
  end.

Definition Unmap (this : BufferWebGPUImpl) (MapType : MAP_TYPE)
    : BufferWebGPUImpl * list Diagnostic :=
  (set_MapState this MapState_None,
   VERIFY (is_staging (Desc_Usage this)) "Unmap working only for staging buffers" ++
   VERIFY (negb (is_unmapped (m_MapState this))) "Buffer is not mapped").

End BufferWebGPU.

(** ** Reference definitions

    What the statements below compare the code with. *)

(** Whether the signature has the descriptor set [SetId]. *)
Definition has_descriptor_set (pSignature : PipelineResourceSignatureVkImpl)
    (SetId : DESCRIPTOR_SET_ID) : bool :=
  negb (GetDescriptorSetSize pSignature SetId =? Uint32_all_ones).

(** The number of descriptor sets of a signature: 0, 1 or 2. *)
Definition descriptor_set_count (pSignature : PipelineResourceSignatureVkImpl) : Z :=
  Z.b2z (has_descriptor_set pSignature DESCRIPTOR_SET_ID_STATIC_MUTABLE) +
  Z.b2z (has_descriptor_set pSignature DESCRIPTOR_SET_ID_DYNAMIC).

Definition slot_set_count (slot : option PipelineResourceSignatureVkImpl) : Z :=
  match slot with
  | Some pSignature => descriptor_set_count pSignature
  | None => 0
  end.

(** The number of descriptor sets of the signatures in slots [0 .. i-1]. *)
Definition sets_before (Signatures : SignatureArray) (i : nat) : Z :=
  foldr (λ slot total, slot_set_count slot + total) 0 (take i Signatures).

(** The resources of a signature that pass the stage filter, as binding
    records whose descriptor set is [base] plus the signature-relative set. *)
Definition signature_bindings (pSignature : PipelineResourceSignatureVkImpl)
    (ShaderStagesFilter : Z) (base : Z) : list PipelineResourceBinding :=
  map (λ '(ResDesc, ResAttr),
         ResDescToPipelineResBinding ResDesc (ShaderStages ResDesc)
           (BindingIndex ResAttr) (Uint32_add base (DescrSet ResAttr)))
      (filter (λ '(ResDesc, _), Z.land (ShaderStages ResDesc) ShaderStagesFilter ≠ 0)
              (Resources pSignature)).

(** Modelled from the spec: [PipelineStateVkImpl::RemapShaderResources] is
    defined outside the source files.  Section 4.3: the remap uses, for a
    resource of the signature at binding group [i], the descriptor set that
    section 4.2 assigned: the base remap entry of group [i] plus the
    signature-relative set of the resource, and the resource's slot. *)
Definition remap_bindings (Signatures : SignatureArray) (SignaturesCount : nat)
    (BindIndexToDescSetIndex : list Z) (ShaderStagesFilter : Z)
    : list PipelineResourceBinding :=
  flat_map (λ i, match Signatures !! i, BindIndexToDescSetIndex !! i with
                 | Some (Some pSignature), Some base =>
                     signature_bindings pSignature ShaderStagesFilter base
                 | _, _ => []
                 end)
           (seq 0 SignaturesCount).

(** The records the reporter is to produce: slot by slot, the bindings of
    the signature with the running descriptor-set counter as base. *)
Definition reported_bindings (Signatures : SignatureArray) (SignaturesCount : nat)
    (ShaderStagesFilter : Z) : list PipelineResourceBinding :=
  flat_map (λ i, match Signatures !! i with
                 | Some (Some pSignature) =>
                     signature_bindings pSignature ShaderStagesFilter
                       (sets_before Signatures i mod Uint32_modulus)
                 | _ => []
                 end)
           (seq 0 SignaturesCount).

(** Modelled from the spec: the assigned-set list of section 4.2.  The
    descriptor sets of the signature at group [i] are numbered from the
    group's base remap entry on. *)
Definition assigned_descriptor_sets (Signatures : SignatureArray)
    (SignaturesCount : nat) (BindIndexToDescSetIndex : list Z) : list Z :=
  flat_map (λ i, match Signatures !! i, BindIndexToDescSetIndex !! i with
                 | Some (Some pSignature), Some base =>
                     seqZ base (descriptor_set_count pSignature)
                 | _, _ => []
                 end)
           (seq 0 SignaturesCount).

(** The counters stay below the capacity of their integer types. *)
Definition counters_fit `{EngineConstants} : Prop :=
  2 * Z.of_nat MAX_RESOURCE_SIGNATURES < Uint32_modulus ∧
  2 * Z.of_nat MAX_RESOURCE_SIGNATURES < 2 ^ DescSetIndex_bits.

(** ** Concrete inputs *)

(** The values of the constants in the engine's public headers, for the
    concrete examples. *)
Definition engine_constants : EngineConstants :=
  {| MAX_RESOURCE_SIGNATURES := 8;
     SHADER_TYPE_UNKNOWN := 0;
     DescSetIndex_bits := 32 |}.

Definition SHADER_TYPE_VERTEX : Z := 1.
Definition SHADER_TYPE_PIXEL : Z := 2.

(** Signature A of the example of section 8: group 0, one texture visible
    to the fragment stage, in the static/mutable set. *)
Definition signature_A : PipelineResourceSignatureVkImpl :=
  {| Desc_BindingIndex := 0;
     Resources :=
       [({| Name := "tex0"; ShaderStages := SHADER_TYPE_PIXEL;
            ArraySize := 1; ResourceType := 3 |},
         {| BindingIndex := 0; DescrSet := 0 |})];
     StaticMutableSetSize := 1;
     DynamicSetSize := Uint32_all_ones |}.

(** Signature B of the same example: group 1, one constant buffer visible
    to the vertex stage. *)
Definition signature_B : PipelineResourceSignatureVkImpl :=
  {| Desc_BindingIndex := 1;
     Resources :=
       [({| Name := "cbuf0"; ShaderStages := SHADER_TYPE_VERTEX;
            ArraySize := 1; ResourceType := 1 |},
         {| BindingIndex := 0; DescrSet := 0 |})];
     StaticMutableSetSize := 1;
     DynamicSetSize := Uint32_all_ones |}.

(** A signature at group 3 with both descriptor sets. *)
Definition signature_C : PipelineResourceSignatureVkImpl :=
  {| Desc_BindingIndex := 3;
     Resources :=
       [({| Name := "tex1"; ShaderStages := SHADER_TYPE_PIXEL;
            ArraySize := 1; ResourceType := 3 |},
         {| BindingIndex := 0; DescrSet := 0 |});
        ({| Name := "dyn0"; ShaderStages := 3;
            ArraySize := 1; ResourceType := 1 |},
         {| BindingIndex := 0; DescrSet := 1 |})];
     StaticMutableSetSize := 1;
     DynamicSetSize := 1 |}.

(** A signature that declares no resources: it has neither set. *)
Definition empty_signature : PipelineResourceSignatureVkImpl :=
  {| Desc_BindingIndex := 0;
     Resources := [];
     StaticMutableSetSize := Uint32_all_ones;
     DynamicSetSize := Uint32_all_ones |}.

(** The slot array of [[C; B; A]]: groups 0, 1 and 3 are present. *)
Definition example_slots : SignatureArray :=
  [Some signature_A; Some signature_B; None; Some signature_C;
   None; None; None; None].

(** The caller's list for [example_slots], in no particular order and with
    a null entry. *)
Definition example_signatures : list (option PipelineResourceSignatureVkImpl) :=
  [Some signature_C; None; Some signature_B; Some signature_A].

(** One vertex and one pixel stage with one shader each. *)
Definition example_stages : list ShaderStageInfoVk :=
  [{| Base := {| Stage_Type := SHADER_TYPE_VERTEX;
                 Shaders := [{| GetSPIRV := [119734787; 65536] |}];
                 SPIRVs := [[119734787; 65536]] |};
      Serializable := [{| GetCreateInfo := {| Desc_ShaderType := SHADER_TYPE_VERTEX |} |}] |};
   {| Base := {| Stage_Type := SHADER_TYPE_PIXEL;
                 Shaders := [{| GetSPIRV := [119734787; 65537] |}];
                 SPIRVs := [[119734787; 65537]] |};
      Serializable := [{| GetCreateInfo := {| Desc_ShaderType := SHADER_TYPE_PIXEL |} |}] |}].

(** Little-endian bytes of a 32-bit word. *)
Definition little_endian_bytes (w : Z) : list Z :=
  [w mod 256; (w / 256) mod 256; (w / 65536) mod 256; (w / 16777216) mod 256].

(** Collaborators for the examples: the remap leaves the stages as they
    are, the default signature is [signature_A]. *)
Definition example_collaborators : ArchiverCollaborators :=
  {| ExtractShaders := λ _, (example_stages, 3);
     CreateDefaultResourceSignature :=
       λ _ _ _ _, (true, {| pPRS := Some signature_A |});
     RemapShaderResources := λ stages _ _ _ _, Returned stages;
     SerializeShadersForPSO := λ indices, map Z.of_nat indices;
     word_bytes := little_endian_bytes |}.

(** The same, with a remap that cannot resolve a resource. *)
Definition failing_remap_collaborators : ArchiverCollaborators :=
  {| ExtractShaders := λ _, (example_stages, 3);
     CreateDefaultResourceSignature :=
       λ _ _ _ _, (true, {| pPRS := Some signature_A |});
     RemapShaderResources :=
       λ _ _ _ _ _, Thrown (OtherException "resource not found in signatures");
     SerializeShadersForPSO := λ indices, map Z.of_nat indices;
     word_bytes := little_endian_bytes |}.

(** The same, with a default signature that cannot be created. *)
Definition failing_synthesis_collaborators : ArchiverCollaborators :=
  {| ExtractShaders := λ _, (example_stages, 3);
     CreateDefaultResourceSignature := λ DefPRS0 _ _ _, (false, DefPRS0);
     RemapShaderResources := λ stages _ _ _ _, Returned stages;
     SerializeShadersForPSO := λ indices, map Z.of_nat indices;
     word_bytes := little_endian_bytes |}.

Definition example_CreateInfo : PipelineStateCreateInfo :=
  {| PSODesc := {| PSO_Name := "example" |};
     CI_ppResourceSignatures := example_signatures;
     CI_pShaders := [] |}.

Definition CreateInfo_without_signatures : PipelineStateCreateInfo :=
  {| PSODesc := {| PSO_Name := "implicit" |};
     CI_ppResourceSignatures := [];
     CI_pShaders := [] |}.

(** An archive that holds one shader already. *)
Definition example_state : ArchiverState :=
  {| m_Shaders := [{| Blob_DeviceType := Vulkan; Blob_ShaderType := 32;
                      Blob_Bytes := [3; 2; 35; 7] |}];
     Data := {| PerDeviceData := λ _, [] |};
     DefPRS := {| pPRS := None |};
     Messages := [] |}.

(** ** Sequences of [Map] and [Unmap] calls

    A caller that holds one pointer variable and passes it to every [Map];
    the diagnostics of the calls are collected in order. *)

Module BufferCalls.

Inductive Call : Type :=
| CallMap (MapType : BufferWebGPU.MAP_TYPE) (MapFlags : Z)
| CallUnmap (MapType : BufferWebGPU.MAP_TYPE).

Record CallerState : Type := {
  Buffer : BufferWebGPU.BufferWebGPUImpl;
  pMappedData : BufferWebGPU.PVoid;
  Log : list Diagnostic
}.

Definition run_call (st : CallerState) (c : Call) : CallerState :=
  match c with
  | CallMap MapType MapFlags =>
      let '(this, p, diagnostics) :=
        BufferWebGPU.Map (Buffer st) MapType MapFlags (pMappedData st) in
      {| Buffer := this; pMappedData := p; Log := Log st ++ diagnostics |}
  | CallUnmap MapType =>
      let '(this, diagnostics) := BufferWebGPU.Unmap (Buffer st) MapType in
      {| Buffer := this; pMappedData := pMappedData st; Log := Log st ++ diagnostics |}
  end.

Definition run_calls (st : CallerState) (calls : list Call) : CallerState :=
  foldl run_call st calls.

(** [Map] for reading or writing, followed by [Unmap]. *)
Definition is_read_or_write (MapType : BufferWebGPU.MAP_TYPE) : bool :=
  match MapType with
  | BufferWebGPU.MAP_READ | BufferWebGPU.MAP_WRITE => true
  | _ => false
  end.

End BufferCalls.

(** ** The staging buffers of [BufferWebGPUImpl]

    [GetStagingBufferInfo], [FindAvailableWriteMemoryBuffer] and
    [FindAvailableReadMemoryBuffer]. *)

Module StagingBuffers.

(** A [WGPUBuffer] handle; the null handle is [None] where a handle is
    stored. *)
Definition WGPUBuffer : Type := nat.

(** The usage flags the three functions name; an or of flags is the list
    of its flags. *)
Inductive WGPUBufferUsage : Type :=
| WGPUBufferUsage_MapRead
| WGPUBufferUsage_MapWrite
| WGPUBufferUsage_CopySrc
| WGPUBufferUsage_CopyDst.

Record WGPUBufferDescriptor : Type := {
  label : option string;
  size : Z;
  usage : list WGPUBufferUsage;
  mappedAtCreation : bool
}.

(** What the functions take from outside the file: the WebGPU device with
    its state ([wgpuDeviceCreateBuffer] gives a handle or null;
    [wgpuBufferGetMapState] is asked whether the state is
    [WGPUBufferMapState_Unmapped]), [AlignUp], the flag constants, the
    constant [MaxPendingBuffers], the capacity a full [std::vector] takes
    when it grows, and the value of a new [SyncPointWebGPUImpl]. *)
Class WebGPUEnvironment : Type := {
  DeviceState : Type;
  wgpuDeviceCreateBuffer :
    DeviceState → WGPUBufferDescriptor → option WGPUBuffer * DeviceState;
  wgpuBufferGetMapState_is_Unmapped : DeviceState → WGPUBuffer → bool;
  AlignUp : Z → Z → Z;
  CPU_ACCESS_READ : Z;
  CPU_ACCESS_WRITE : Z;
  MaxPendingBuffers : nat;
  vector_growth : nat → nat;
  new_SyncPoint_value : bool
}.

(** [StagingBufferSyncInfo]; [pSyncPoint] is the sync point with its value,
    or null; [pThis_set] tells whether [pThis] is set. *)
Record StagingBufferSyncInfo : Type := {
  wgpuBuffer : option WGPUBuffer;
  BufferIdentifier : Z;
  pMappedData : Z;
  MappedSize : nat;
  pSyncPoint : option bool;
  pThis_set : bool
}.

(** [StagingBufferSyncInfo BufferInfo{}] *)
Definition StagingBufferSyncInfo_default : StagingBufferSyncInfo :=
  {| wgpuBuffer := None; BufferIdentifier := 0; pMappedData := 0;
     MappedSize := 0; pSyncPoint := None; pThis_set := false |}.

(** The members of the buffer the three functions use.
    [m_StagingBufferInfo] is the vector's content and
    [StagingBufferInfo_capacity] its capacity. *)
Record BufferWebGPUImpl : Type := {
  Desc_Name : option string;
  Desc_Size : Z;
  Desc_Usage : BufferWebGPU.USAGE;
  Desc_CPUAccessFlags : Z;
  m_Alignment : Z;
  m_MappedData : list Z;
  MappedData_data : Z;
  m_StagingBufferInfo : list StagingBufferSyncInfo;
  StagingBufferInfo_capacity : nat
}.

(** [m_StagingBufferInfo.emplace_back(std::move(BufferInfo))] *)
Definition emplace_back `{WebGPUEnvironment} (this : BufferWebGPUImpl)
    (BufferInfo : StagingBufferSyncInfo) : BufferWebGPUImpl :=
  {| Desc_Name := Desc_Name this;
     Desc_Size := Desc_Size this;
     Desc_Usage := Desc_Usage this;
     Desc_CPUAccessFlags := Desc_CPUAccessFlags this;
     m_Alignment := m_Alignment this;
     m_MappedData := m_MappedData this;
     MappedData_data := MappedData_data this;
     m_StagingBufferInfo := m_StagingBufferInfo this ++ [BufferInfo];
     StagingBufferInfo_capacity :=
       if (length (m_StagingBufferInfo this) <? StagingBufferInfo_capacity this)%nat
       then StagingBufferInfo_capacity this
       else vector_growth (StagingBufferInfo_capacity this) |}.

Definition set_StagingBufferInfo (this : BufferWebGPUImpl)
    (infos : list StagingBufferSyncInfo) : BufferWebGPUImpl :=
  {| Desc_Name := Desc_Name this;
     Desc_Size := Desc_Size this;
     Desc_Usage := Desc_Usage this;
     Desc_CPUAccessFlags := Desc_CPUAccessFlags this;
     m_Alignment := m_Alignment this;
     m_MappedData := m_MappedData this;
     MappedData_data := MappedData_data this;
     m_StagingBufferInfo := infos;
     StagingBufferInfo_capacity := StagingBufferInfo_capacity this |}.

(** The text that [LOG_ERROR_AND_THROW] and [LOG_ERROR] put together when
    the device gives no buffer; a null name counts as the empty string. *)
Definition creation_failure_message (this : BufferWebGPUImpl) : string :=
  ("Failed to create WebGPU buffer " ++ " '" ++
   match Desc_Name this with Some name => name | None => EmptyString end ++ "'")%string.

(** What a call leaves: how it ended, the buffer, the device, the messages.
    The value returned is the position of the element pointed to, or
    [None] for [nullptr]. *)
Record CallResult `{WebGPUEnvironment} : Type := {
  Ended : Outcome (option nat);
  This : BufferWebGPUImpl;
  Device : DeviceState;
  Diagnostics : list Diagnostic
}.

Definition FindAvailableWriteMemoryBuffer `{WebGPUEnvironment}
    (this : BufferWebGPUImpl) (device : DeviceState) : CallResult :=
  match m_StagingBufferInfo this with
  | [] =>
      let wgpuBufferDesc :=
        {| label := Desc_Name this;
           size := AlignUp (Desc_Size this) (m_Alignment this);
           usage := [WGPUBufferUsage_MapWrite; WGPUBufferUsage_CopySrc];
           mappedAtCreation := true |} in
      let '(created, device') := wgpuDeviceCreateBuffer device wgpuBufferDesc in
      match created with
      | None =>
          {| Ended := Thrown (OtherException (creation_failure_message this));
             This := this; Device := device';
             Diagnostics := [ErrorMessage (creation_failure_message this)] |}
      | Some buffer =>
          let BufferInfo :=
            {| wgpuBuffer := Some buffer;
               BufferIdentifier :=
                 StaticCast 32 (Z.of_nat (length (m_StagingBufferInfo this)));
               pMappedData := pMappedData StagingBufferSyncInfo_default;
               MappedSize := MappedSize StagingBufferSyncInfo_default;
               pSyncPoint := pSyncPoint StagingBufferSyncInfo_default;
               pThis_set := pThis_set StagingBufferSyncInfo_default |} in
          let this' := emplace_back this BufferInfo in
          {| Ended := Returned (Some (length (m_StagingBufferInfo this') - 1)%nat);
             This := this'; Device := device'; Diagnostics := [] |}
      end
  | _ :: _ =>
      {| Ended := Returned (Some (length (m_StagingBufferInfo this) - 1)%nat);
         This := this; Device := device; Diagnostics := [] |}
  end.

(** The search of [FindAvailableReadMemoryBuffer]: the position of the
    first element whose buffer is unmapped, counting from [position]. *)
Fixpoint find_unmapped `{WebGPUEnvironment} (device : DeviceState)
    (infos : list StagingBufferSyncInfo) (position : nat) : Outcome (option nat) :=
  match infos with
  | [] => Returned None
  | BufferInfo :: rest =>
      match wgpuBuffer BufferInfo with
      | None => Undefined
      | Some buffer =>
          if wgpuBufferGetMapState_is_Unmapped device buffer
          then Returned (Some position)
          else find_unmapped device rest (S position)
      end
  end.

(** [BufferInfo.pSyncPoint->SetValue(false)] *)
Definition SetValue_false (BufferInfo : StagingBufferSyncInfo) : StagingBufferSyncInfo :=
  {| wgpuBuffer := wgpuBuffer BufferInfo;
     BufferIdentifier := BufferIdentifier BufferInfo;
     pMappedData := pMappedData BufferInfo;
     MappedSize := MappedSize BufferInfo;
     pSyncPoint := Some false;
     pThis_set := pThis_set BufferInfo |}.

Definition FindAvailableReadMemoryBuffer `{WebGPUEnvironment}
    (this : BufferWebGPUImpl) (device : DeviceState) : CallResult :=
  match find_unmapped device (m_StagingBufferInfo this) 0 with
  | Undefined =>
      {| Ended := Undefined; This := this; Device := device; Diagnostics := [] |}
  | Thrown e =>
      {| Ended := Thrown e; This := this; Device := device; Diagnostics := [] |}
  | Returned (Some position) =>
      match m_StagingBufferInfo this !! position with
      | Some BufferInfo =>
          match pSyncPoint BufferInfo with
          | Some _ =>
              {| Ended := Returned (Some position);
                 This := set_StagingBufferInfo this
                           (<[position := SetValue_false BufferInfo]>
                              (m_StagingBufferInfo this));
                 Device := device; Diagnostics := [] |}
          | None =>
              {| Ended := Undefined; This := this; Device := device;
                 Diagnostics := [] |}
          end
      | None =>
          {| Ended := Undefined; This := this; Device := device; Diagnostics := [] |}
      end
  | Returned None =>
      let wgpuBufferDesc :=
        {| label := Desc_Name this;
           size := AlignUp (Desc_Size this) (m_Alignment this);
           usage := [WGPUBufferUsage_MapRead; WGPUBufferUsage_CopyDst];
           mappedAtCreation := false |} in
      let '(created, device') := wgpuDeviceCreateBuffer device wgpuBufferDesc in
      match created with
      | None =>
          {| Ended := Returned None; This := this; Device := device';
             Diagnostics := [ErrorMessage (creation_failure_message this)] |}
      | Some buffer =>
          let BufferInfo :=
            {| wgpuBuffer := Some buffer;
               BufferIdentifier :=
                 StaticCast 32 (Z.of_nat (length (m_StagingBufferInfo this)));
               pMappedData := MappedData_data this;
               MappedSize := length (m_MappedData this);
               pSyncPoint := Some new_SyncPoint_value;
               pThis_set := true |} in
          let this' := emplace_back this BufferInfo in
          {| Ended := Returned (Some (length (m_StagingBufferInfo this') - 1)%nat);
             This := this'; Device := device';
             Diagnostics :=
               VERIFY_EXPR
                 (StagingBufferInfo_capacity this' <=? MaxPendingBuffers)%nat
                 "m_StagingBufferInfo.capacity() <= MaxPendingBuffers" |}
      end
  end.

Definition prepend_Diagnostics `{WebGPUEnvironment} (ds : list Diagnostic)
    (r : CallResult) : CallResult :=
  {| Ended := Ended r; This := This r; Device := Device r;
     Diagnostics := ds ++ Diagnostics r |}.

Definition GetStagingBufferInfo `{WebGPUEnvironment}
    (this : BufferWebGPUImpl) (device : DeviceState) : CallResult :=
  let checks :=
    BufferWebGPU.VERIFY (BufferWebGPU.is_staging (Desc_Usage this))
      "Staging buffer is expected" in
  if negb (Z.land (Desc_CPUAccessFlags this) CPU_ACCESS_READ =? 0)
  then prepend_Diagnostics checks (FindAvailableReadMemoryBuffer this device)
  else if negb (Z.land (Desc_CPUAccessFlags this) CPU_ACCESS_WRITE =? 0)
  then prepend_Diagnostics checks (FindAvailableWriteMemoryBuffer this device)
  else
    {| Ended := Returned None; This := this; Device := device;
       Diagnostics := checks ++ [UnexpectedCode "Unexpected CPU access flags"] |}.

End StagingBuffers.

(** ** The protocol of [Map] and [Unmap]

    A sequence of calls keeps to the protocol when every [Map] is for
    reading or for writing and finds the buffer unmapped, and every [Unmap]
    finds it mapped. *)
Fixpoint follows_protocol (mapped : bool) (calls : list BufferCalls.Call) : bool :=
  match calls with
  | [] => true
  | BufferCalls.CallMap MapType _ :: rest =>
      negb mapped && BufferCalls.is_read_or_write MapType && follows_protocol true rest
  | BufferCalls.CallUnmap _ :: rest =>
      mapped && follows_protocol false rest
  end.

(** A staging buffer of four bytes that is not mapped. *)
Definition example_buffer : BufferWebGPU.BufferWebGPUImpl :=
  {| BufferWebGPU.Desc_Usage := BufferWebGPU.USAGE_STAGING;
     BufferWebGPU.m_MapState := BufferWebGPU.MapState_None;
     BufferWebGPU.m_MappedData := [0; 0; 0; 0];
     BufferWebGPU.MappedData_data := 4096 |}.

(** A device for the examples: its state is the number of buffers created,
    the handles are numbered from 1, and the buffers with an even handle
    are unmapped. *)
Definition example_environment : StagingBuffers.WebGPUEnvironment :=
  {| StagingBuffers.DeviceState := nat;
     StagingBuffers.wgpuDeviceCreateBuffer := λ created _, (Some (S created), S created);
     StagingBuffers.wgpuBufferGetMapState_is_Unmapped := λ _ buffer, Nat.even buffer;
     StagingBuffers.AlignUp := λ value alignment,
       ((value + alignment - 1) / alignment) * alignment;
     StagingBuffers.CPU_ACCESS_READ := 1;
     StagingBuffers.CPU_ACCESS_WRITE := 2;
     StagingBuffers.MaxPendingBuffers := 16;
     StagingBuffers.vector_growth := λ capacity, (2 * capacity)%nat;
     StagingBuffers.new_SyncPoint_value := false |}.

(** A staging buffer for read-back with no staging buffers yet. *)
Definition example_readback_buffer : StagingBuffers.BufferWebGPUImpl :=
  {| StagingBuffers.Desc_Name := Some "readback"%string;
     StagingBuffers.Desc_Size := 4;
     StagingBuffers.Desc_Usage := BufferWebGPU.USAGE_STAGING;
     StagingBuffers.Desc_CPUAccessFlags := 1;
     StagingBuffers.m_Alignment := 16;
     StagingBuffers.m_MappedData := [0; 0; 0; 0];
     StagingBuffers.MappedData_data := 4096;
     StagingBuffers.m_StagingBufferInfo := [];
     StagingBuffers.StagingBufferInfo_capacity := 16 |}.

(** A default signature as shader reflection may give it: group 0, one
    texture in the static/mutable set and one buffer in the dynamic set. *)
Definition implicit_signature : PipelineResourceSignatureVkImpl :=
  {| Desc_BindingIndex := 0;
     Resources :=
       [({| Name := "tex1"; ShaderStages := SHADER_TYPE_PIXEL;
            ArraySize := 1; ResourceType := 3 |},
         {| BindingIndex := 0; DescrSet := 0 |});
        ({| Name := "dyn0"; ShaderStages := 3;
            ArraySize := 1; ResourceType := 1 |},
         {| BindingIndex := 0; DescrSet := 1 |})];
     StaticMutableSetSize := 1;
     DynamicSetSize := 1 |}.

(** Collaborators whose default signature is [implicit_signature]. *)
Definition implicit_signature_collaborators : ArchiverCollaborators :=
  {| ExtractShaders := λ _, (example_stages, 3);
     CreateDefaultResourceSignature :=
       λ _ _ _ _, (true, {| pPRS := Some implicit_signature |});
     RemapShaderResources := λ stages _ _ _ _, Returned stages;
     SerializeShadersForPSO := λ indices, map Z.of_nat indices;
     word_bytes := little_endian_bytes |}.

(** The slot array of [[implicit_signature]]. *)
Definition implicit_slots : SignatureArray :=
  [Some implicit_signature; None; None; None; None; None; None; None].

(** The device of [example_environment] when it has no buffer left to
    give. *)
Definition exhausted_environment : StagingBuffers.WebGPUEnvironment :=
  {| StagingBuffers.DeviceState := nat;
     StagingBuffers.wgpuDeviceCreateBuffer := λ created _, (None, created);
     StagingBuffers.wgpuBufferGetMapState_is_Unmapped := λ _ buffer, Nat.even buffer;
     StagingBuffers.AlignUp := λ value alignment,
       ((value + alignment - 1) / alignment) * alignment;
     StagingBuffers.CPU_ACCESS_READ := 1;
     StagingBuffers.CPU_ACCESS_WRITE := 2;
     StagingBuffers.MaxPendingBuffers := 16;
     StagingBuffers.vector_growth := λ capacity, (2 * capacity)%nat;
     StagingBuffers.new_SyncPoint_value := false |}.

(** A staging buffer of the read path as [FindAvailableReadMemoryBuffer]
    made it, with the handle [buffer] and the identifier [identifier]; its
    sync point has been signalled. *)
Definition pending_StagingBufferSyncInfo (buffer : StagingBuffers.WGPUBuffer)
    (identifier : Z) : StagingBuffers.StagingBufferSyncInfo :=
  {| StagingBuffers.wgpuBuffer := Some buffer;
     StagingBuffers.BufferIdentifier := identifier;
     StagingBuffers.pMappedData := 4096;
     StagingBuffers.MappedSize := 4;
     StagingBuffers.pSyncPoint := Some true;
     StagingBuffers.pThis_set := true |}.

(** [example_readback_buffer] with the staging buffers [infos]. *)
Definition readback_buffer_with (infos : list StagingBuffers.StagingBufferSyncInfo)
    : StagingBuffers.BufferWebGPUImpl :=
  {| StagingBuffers.Desc_Name := Some "readback"%string;
     StagingBuffers.Desc_Size := 4;
     StagingBuffers.Desc_Usage := BufferWebGPU.USAGE_STAGING;
     StagingBuffers.Desc_CPUAccessFlags := 1;
     StagingBuffers.m_Alignment := 16;
     StagingBuffers.m_MappedData := [0; 0; 0; 0];
     StagingBuffers.MappedData_data := 4096;
     StagingBuffers.m_StagingBufferInfo := infos;
     StagingBuffers.StagingBufferInfo_capacity := 16 |}.

(** Two staging buffers, the first still mapped (handle 1), the second
    unmapped again (handle 2). *)
Definition example_pending_buffer : StagingBuffers.BufferWebGPUImpl :=
  readback_buffer_with
    [pending_StagingBufferSyncInfo 1%nat 0; pending_StagingBufferSyncInfo 2%nat 1].

(** Two staging buffers that are both still mapped (handles 1 and 3). *)
Definition example_busy_buffer : StagingBuffers.BufferWebGPUImpl :=
  readback_buffer_with
    [pending_StagingBufferSyncInfo 1%nat 0; pending_StagingBufferSyncInfo 3%nat 1].

(** * Properties *)

(** ** Loops and counters *)

Lemma Outcome_bind_Returned {A B : Type} (f : A → Outcome B) (m : Outcome A) (b : B) :
  m ≫= f = Returned b → ∃ a, m = Returned a ∧ f a = Returned b.
Proof. destruct m; simpl; intros Hm; try discriminate; eauto. Qed.

(** The last iteration of a counted loop is its last step. *)
Lemma for_each_index_S {St : Type} (body : nat → St → Outcome St) (count i : nat) (s : St) :
  for_each_index body i (S count) s =
  for_each_index body i count s ≫= body (i + count)%nat.
Proof.
  revert i s. induction count as [|k IH]; intros i s.
  - simpl. rewrite Nat.add_0_r. destruct (body i s); reflexivity.
  - change (for_each_index body i (S (S k)) s)
      with (body i s ≫= for_each_index body (S i) (S k)).
    change (for_each_index body i (S k) s)
      with (body i s ≫= for_each_index body (S i) k).
    destruct (body i s) as [s'| |]; try reflexivity.
    change (for_each_index body (S i) (S k) s' =
            for_each_index body (S i) k s' ≫= body (i + S k)%nat).
    rewrite IH. replace (S i + k)%nat with (i + S k)%nat by lia. reflexivity.
Qed.

Lemma Uint32_modulus_pos : 0 < Uint32_modulus.
Proof. reflexivity. Qed.

Lemma Uint32_incr_mod (x : Z) :
  Uint32_incr (x mod Uint32_modulus) = (x + 1) mod Uint32_modulus.
Proof. unfold Uint32_incr. apply Zplus_mod_idemp_l. Qed.

(** The inner loop adds the number of descriptor sets of the signature. *)
Lemma count_descriptor_sets_mod (pSignature : PipelineResourceSignatureVkImpl) (x : Z) :
  count_descriptor_sets pSignature (x mod Uint32_modulus) =
  (x + descriptor_set_count pSignature) mod Uint32_modulus.
Proof.
  unfold count_descriptor_sets, descriptor_set_count, has_descriptor_set. simpl.
  destruct (StaticMutableSetSize pSignature =? Uint32_all_ones);
    destruct (DynamicSetSize pSignature =? Uint32_all_ones); simpl;
    rewrite ?Uint32_incr_mod, ?Z.add_0_r; try reflexivity.
  replace (x + (1 + 1)) with (x + 1 + 1) by lia. reflexivity.
Qed.

Lemma descriptor_set_count_range (pSignature : PipelineResourceSignatureVkImpl) :
  0 ≤ descriptor_set_count pSignature ≤ 2.
Proof.
  unfold descriptor_set_count.
  destruct (has_descriptor_set _ _), (has_descriptor_set _ _); simpl; lia.
Qed.

Lemma slot_set_count_range (slot : option PipelineResourceSignatureVkImpl) :
  0 ≤ slot_set_count slot ≤ 2.
Proof.
  destruct slot as [s|]; simpl; [apply descriptor_set_count_range | lia].
Qed.

Lemma sets_before_0 (Signatures : SignatureArray) : sets_before Signatures 0 = 0.
Proof. reflexivity. Qed.

Lemma sets_before_S (Signatures : SignatureArray) (i : nat)
    (slot : option PipelineResourceSignatureVkImpl) :
  Signatures !! i = Some slot →
  sets_before Signatures (S i) = sets_before Signatures i + slot_set_count slot.
Proof.
  intros Hi. unfold sets_before. rewrite (take_S_r _ _ _ Hi).
  generalize (take i Signatures). intros l.
  induction l as [|y l IH]; simpl; [lia | rewrite IH; lia].
Qed.

Lemma sets_before_range (Signatures : SignatureArray) (i : nat) :
  (i ≤ length Signatures)%nat →
  0 ≤ sets_before Signatures i ≤ 2 * Z.of_nat i.
Proof.
  induction i as [|i IH]; intros Hi.
  - rewrite sets_before_0. lia.
  - destruct (lookup_lt_is_Some_2 Signatures i) as [slot Hslot]; [lia|].
    rewrite (sets_before_S _ _ _ Hslot).
    pose proof (slot_set_count_range slot). lia.
Qed.

(** ** The assignment loop in closed form *)

Section Layout.
Context `{EngineConstants}.

(** After the first [n] slots the counter is the number of descriptor sets
    seen so far, the entry of every present group is the counter at the
    time its slot was visited, and every other entry is untouched. *)
Lemma layout_loop_closed_form (Signatures : SignatureArray) (n : nat) :
  length Signatures = MAX_RESOURCE_SIGNATURES →
  (n ≤ MAX_RESOURCE_SIGNATURES)%nat →
  ∃ st,
    for_each_index (PatchShadersVk_slot Signatures) 0 n LayoutState_init = Returned st ∧
    DescSetLayoutCount st = sets_before Signatures n mod Uint32_modulus ∧
    length (BindIndexToDescSetIndex st) = MAX_RESOURCE_SIGNATURES ∧
    (∀ i pSignature,
        (i < n)%nat → Signatures !! i = Some (Some pSignature) →
        BindIndexToDescSetIndex st !! i =
        Some (StaticCast DescSetIndex_bits (sets_before Signatures i mod Uint32_modulus))) ∧
    (∀ i, (i < MAX_RESOURCE_SIGNATURES)%nat →
          (n ≤ i)%nat ∨ Signatures !! i = Some None →
          BindIndexToDescSetIndex st !! i = Some 0) ∧
    LayoutDiagnostics st =
    flat_map (λ i, match Signatures !! i with
                   | Some (Some pSignature) =>
                       VERIFY_EXPR (Desc_BindingIndex pSignature =? i)%nat
                         "pSignature->GetDesc().BindingIndex == i"
                   | _ => []
                   end) (seq 0 n).
Proof.
  intros Hlen. induction n as [|n IH]; intros Hn.
  - exists LayoutState_init. split; [reflexivity|]. simpl.
    split; [reflexivity|]. split; [apply length_replicate|].
    split; [intros; lia|]. split; [|reflexivity].
    intros i Hi _. by apply lookup_replicate_2.
  - destruct IH as (st & Hrun & Hcount & HlenB & Hpresent & Habsent & Hdiag); [lia|].
    rewrite for_each_index_S, Hrun, seq_S, flat_map_app, <- Hdiag. simpl.
    destruct (lookup_lt_is_Some_2 Signatures n) as [slot Hslot]; [lia|].
    unfold PatchShadersVk_slot. rewrite Hslot.
    rewrite (sets_before_S _ _ _ Hslot).
    destruct slot as [pSignature|].
    + eexists. split; [reflexivity|]. simpl.
      split; [rewrite Hcount; apply count_descriptor_sets_mod|].
      split; [by rewrite length_insert|].
      split.
      * intros i s Hi Hs. destruct (decide (i = n)) as [->|Hne].
        -- rewrite list_lookup_insert_eq by lia. by rewrite Hcount.
        -- rewrite list_lookup_insert_ne by done. apply (Hpresent i s); [lia|done].
      * split; [|by rewrite ?app_nil_r].
        intros i Hi Hor. assert (i ≠ n) as Hne.
        { intros ->. destruct Hor as [?|Hnone]; [lia|congruence]. }
        rewrite list_lookup_insert_ne by done. apply Habsent; [done|].
        destruct Hor; [left; lia | by right].
    + exists st. split; [reflexivity|].
      split; [by rewrite Z.add_0_r|]. split; [done|].
      split.
      * intros i s Hi Hs. assert (i ≠ n) by (intros ->; congruence).
        apply (Hpresent i s); [lia|done].
      * split; [|by rewrite ?app_nil_r].
        intros i Hi Hor. apply Habsent; [done|].
        destruct (decide (i = n)) as [->|]; [by right|].
        destruct Hor; [left; lia | by right].
Qed.

(** The resource loop appends the bindings of the signature, in order. *)
Lemma report_signature_resources_app (pSignature : PipelineResourceSignatureVkImpl)
    (ShaderStagesFilter base : Z) (Bindings : list PipelineResourceBinding) :
  report_signature_resources pSignature ShaderStagesFilter base Bindings =
  Bindings ++ signature_bindings pSignature ShaderStagesFilter base.
Proof.
  unfold report_signature_resources, signature_bindings.
  generalize (Resources pSignature). intros rs. revert Bindings.
  induction rs as [|[ResDesc ResAttr] rs IH]; intros Bindings; simpl.
  - by rewrite app_nil_r.
  - rewrite IH, filter_cons.
    destruct (Z.eqb_spec (Z.land (ShaderStages ResDesc) ShaderStagesFilter) 0) as [Hz|Hnz].
    + by rewrite decide_False by (intros Hne; by apply Hne).
    + rewrite decide_True by done. simpl. by rewrite <- app_assoc.
Qed.

(** The reporter's loop in closed form. *)
Lemma reporter_loop_closed_form (Signatures : SignatureArray) (n : nat)
    (ShaderStagesFilter : Z) (Bindings0 : list PipelineResourceBinding) :
  (n ≤ length Signatures)%nat →
  for_each_index (GetPipelineResourceBindingsVk_slot Signatures ShaderStagesFilter) 0 n
    {| ResourceBindings := Bindings0; Reporter_DescSetLayoutCount := 0 |} =
  Returned
    {| ResourceBindings :=
         Bindings0 ++ reported_bindings Signatures n ShaderStagesFilter;
       Reporter_DescSetLayoutCount := sets_before Signatures n mod Uint32_modulus |}.
Proof.
  induction n as [|n IH]; intros Hn.
  - simpl. unfold reported_bindings. simpl. by rewrite app_nil_r.
  - rewrite for_each_index_S, IH by lia. simpl.
    destruct (lookup_lt_is_Some_2 Signatures n) as [slot Hslot]; [lia|].
    unfold GetPipelineResourceBindingsVk_slot. rewrite Hslot.
    rewrite (sets_before_S _ _ _ Hslot).
    unfold reported_bindings. rewrite seq_S, flat_map_app. simpl.
    rewrite Hslot. destruct slot as [pSignature|]; simpl.
    + rewrite report_signature_resources_app, count_descriptor_sets_mod.
      by rewrite app_nil_r, app_assoc.
    + by rewrite !app_nil_r, Z.add_0_r.
Qed.

(** When the counters fit their types, the table entries are the plain
    counts. *)
Lemma StaticCast_sets_before (Signatures : SignatureArray) (i : nat) :
  counters_fit →
  length Signatures = MAX_RESOURCE_SIGNATURES →
  (i ≤ MAX_RESOURCE_SIGNATURES)%nat →
  StaticCast DescSetIndex_bits (sets_before Signatures i mod Uint32_modulus) =
  sets_before Signatures i.
Proof.
  intros [Hfit32 Hfitbits] Hlen Hi.
  pose proof (sets_before_range Signatures i ltac:(lia)) as Hrange.
  unfold StaticCast. rewrite (Z.mod_small _ Uint32_modulus) by lia.
  apply Z.mod_small. lia.
Qed.

(** Numbering each present group's sets from its table entry on gives
    [0, 1, ..., total - 1]. *)
Lemma assigned_descriptor_sets_contiguous (Signatures : SignatureArray) (n k : nat)
    (Table : list Z) :
  (k ≤ n)%nat → (n ≤ length Signatures)%nat →
  (∀ i pSignature,
      (i < n)%nat → Signatures !! i = Some (Some pSignature) →
      Table !! i = Some (sets_before Signatures i)) →
  assigned_descriptor_sets Signatures k Table = seqZ 0 (sets_before Signatures k).
Proof.
  intros Hk Hn HTable. induction k as [|k IH].
  - reflexivity.
  - unfold assigned_descriptor_sets in *. rewrite seq_S, flat_map_app, IH by lia.
    simpl. destruct (lookup_lt_is_Some_2 Signatures k) as [slot Hslot]; [lia|].
    rewrite Hslot, (sets_before_S _ _ _ Hslot), app_nil_r.
    pose proof (sets_before_range Signatures k ltac:(lia)).
    pose proof (slot_set_count_range slot).
    rewrite seqZ_app by lia. f_equal.
    destruct slot as [pSignature|]; simpl.
    + by rewrite (HTable k pSignature) by (done || lia).
    + by rewrite seqZ_nil.
Qed.

End Layout.

(** ** The Descriptor Layout Assigner *)



(** C3.  For a slot array of [MAX_RESOURCE_SIGNATURES] entries, each group
    in its own slot, the loop of [PatchShadersVk] ends with a counter of at
    most [MAX_RESOURCE_SIGNATURES * 2], and the descriptor sets assigned to
    the groups are exactly [0, 1, ..., counter - 1], in traversal order
    and without gaps.  The loop of [GetPipelineResourceBindingsVk] ends
    with the same counter. *)
Theorem descriptor_sets_bounded_and_contiguous `{EngineConstants}
    (Signatures : SignatureArray) (n : nat) (ShaderStagesFilter : Z)
    (Bindings0 : list PipelineResourceBinding) :
  counters_fit →
  length Signatures = MAX_RESOURCE_SIGNATURES →
  (n ≤ MAX_RESOURCE_SIGNATURES)%nat →
  ∃ layout reported,
    PatchShadersVk_layout Signatures n = Returned layout ∧
    0 ≤ DescSetLayoutCount layout ≤ Z.of_nat MAX_RESOURCE_SIGNATURES * 2 ∧
    assigned_descriptor_sets Signatures n (BindIndexToDescSetIndex layout) =
    seqZ 0 (DescSetLayoutCount layout) ∧
    for_each_index (GetPipelineResourceBindingsVk_slot Signatures ShaderStagesFilter) 0 n
      {| ResourceBindings := Bindings0; Reporter_DescSetLayoutCount := 0 |} =
    Returned reported ∧
    Reporter_DescSetLayoutCount reported = DescSetLayoutCount layout.
Proof.
  intros Hfit Hlen Hn.
  destruct (layout_loop_closed_form Signatures n Hlen Hn)
    as (st & Hrun & Hcount & _ & Hpresent & _ & _).
  pose proof (sets_before_range Signatures n ltac:(lia)) as Hrange.
  assert (sets_before Signatures n mod Uint32_modulus = sets_before Signatures n)
    as Hsmall by (destruct Hfit; apply Z.mod_small; lia).
  unfold PatchShadersVk_layout. rewrite Hrun. simpl.
  do 2 eexists. split; [reflexivity|]. simpl.
  rewrite reporter_loop_closed_form by lia.
  rewrite Hcount, Hsmall.
  split; [lia|]. split; [|by split; [reflexivity | simpl]].
  apply (assigned_descriptor_sets_contiguous Signatures n n); [lia..|].
  intros i s Hi Hs. rewrite (Hpresent i s Hi Hs). f_equal.
  apply StaticCast_sets_before; [done..|lia].
Qed.

Lemma descriptor_sets_bounded_and_contiguous_witness :
  @counters_fit engine_constants ∧
  length example_slots = @MAX_RESOURCE_SIGNATURES engine_constants ∧
  (4 ≤ @MAX_RESOURCE_SIGNATURES engine_constants)%nat ∧
  ∃ layout,
    @PatchShadersVk_layout engine_constants example_slots 4 = Returned layout ∧
    0 ≤ DescSetLayoutCount layout ≤ 16 ∧
    assigned_descriptor_sets example_slots 4 (BindIndexToDescSetIndex layout) =
    seqZ 0 (DescSetLayoutCount layout).
Proof.
  assert (@counters_fit engine_constants) as Hfit by (split; reflexivity).
  split; [exact Hfit|]. split; [reflexivity|]. split; [simpl; lia|].
  destruct (@descriptor_sets_bounded_and_contiguous engine_constants
              example_slots 4 0 [] Hfit)
    as (layout & reported & Hrun & Hbound & Hsets & _); [reflexivity | simpl; lia |].
  exists layout. split; [assumption|]. split; assumption.
Defined.

(** ** The Signature Sorter *)

Section Sorter.
Context `{EngineConstants}.

Lemma SortResourceSignatures_from_defined
    (ppSrcSignatures : list (option PipelineResourceSignatureVkImpl)) :
  ∀ (Sorted : SignatureArray) (count : nat),
    SortResourceSignatures_from ppSrcSignatures Sorted count ≠ Undefined.
Proof.
  induction ppSrcSignatures as [|[s|] rest IH]; intros Sorted count; simpl.
  - discriminate.
  - destruct (MAX_RESOURCE_SIGNATURES <=? Desc_BindingIndex s)%nat; [discriminate|].
    destruct (Sorted !! Desc_BindingIndex s) as [[?|]|]; [discriminate|apply IH..].
  - apply IH.
Qed.

(** What a successful run from an intermediate slot array gives. *)
Lemma SortResourceSignatures_from_Returned
    (ppSrcSignatures : list (option PipelineResourceSignatureVkImpl)) :
  ∀ (Sorted Signatures : SignatureArray) (count n : nat),
    length Sorted = MAX_RESOURCE_SIGNATURES →
    SortResourceSignatures_from ppSrcSignatures Sorted count = Returned (Signatures, n) →
    length Signatures = MAX_RESOURCE_SIGNATURES ∧
    (∀ s, Some s ∈ ppSrcSignatures →
          Signatures !! Desc_BindingIndex s = Some (Some s)) ∧
    (∀ i s, Sorted !! i = Some (Some s) → Signatures !! i = Some (Some s)) ∧
    (∀ i s, Signatures !! i = Some (Some s) →
            Sorted !! i = Some (Some s) ∨
            (Some s ∈ ppSrcSignatures ∧ Desc_BindingIndex s = i)) ∧
    (count ≤ n)%nat ∧
    (∀ s, Some s ∈ ppSrcSignatures → (Desc_BindingIndex s < n)%nat) ∧
    (n = count ∨ ∃ s, Some s ∈ ppSrcSignatures ∧ n = S (Desc_BindingIndex s)) ∧
    (∀ s, Some s ∈ ppSrcSignatures →
          (Desc_BindingIndex s < MAX_RESOURCE_SIGNATURES)%nat).
Proof.
  induction ppSrcSignatures as [|[h|] rest IH]; intros Sorted Signatures count n Hlen Hrun.
  - simpl in Hrun. injection Hrun as <- <-.
    repeat split; try done; try (intros ? Hin; by apply elem_of_nil in Hin).
    + intros i s Hs. by left.
    + by left.
  - simpl in Hrun.
    destruct (Nat.leb_spec MAX_RESOURCE_SIGNATURES (Desc_BindingIndex h)) as [|Hrange];
      [discriminate|].
    destruct (lookup_lt_is_Some_2 Sorted (Desc_BindingIndex h)) as [slot Hslot]; [lia|].
    rewrite Hslot in Hrun. destruct slot as [?|]; [discriminate|].
    apply IH in Hrun as (HlenS & Hplaced & Hkept & Hfrom & Hcount & Hbelow & Hmax & Hin_range);
      [|by rewrite length_insert].
    assert (Signatures !! Desc_BindingIndex h = Some (Some h)) as Hhead.
    { apply Hkept. apply list_lookup_insert_eq. lia. }
    split; [done|]. split; [|split; [|split; [|split; [|split; [|split]]]]].
    + intros s [Heq|Hin]%elem_of_cons; [by injection Heq as ->|by apply Hplaced].
    + intros i s Hs. apply Hkept.
      rewrite list_lookup_insert_ne; [done|]. intros <-. congruence.
    + intros i s Hs. destruct (Hfrom i s Hs) as [Hins|[Hin Hidx]].
      * destruct (decide (Desc_BindingIndex h = i)) as [<-|Hne].
        -- rewrite list_lookup_insert_eq in Hins by lia. injection Hins as ->.
           right. split; [apply list_elem_of_here|done].
        -- rewrite list_lookup_insert_ne in Hins by done. by left.
      * right. split; [by apply list_elem_of_further|done].
    + lia.
    + intros s [Heq|Hin]%elem_of_cons; [injection Heq as ->; lia|by apply Hbelow].
    + destruct Hmax as [->|(s & Hin & ->)].
      * destruct (Nat.max_spec count (S (Desc_BindingIndex h))) as [[_ ->]|[_ ->]].
        -- right. exists h. split; [apply list_elem_of_here|done].
        -- by left.
      * right. exists s. split; [by apply list_elem_of_further|done].
    + intros s [Heq|Hin]%elem_of_cons; [by injection Heq as ->|by apply Hin_range].
  - simpl in Hrun.
    apply IH in Hrun as (HlenS & Hplaced & Hkept & Hfrom & Hcount & Hbelow & Hmax & Hin_range);
      [|done].
    split; [done|]. split; [|split; [|split; [|split; [|split; [|split]]]]]; try done.
    + intros s [Heq|Hin]%elem_of_cons; [discriminate|by apply Hplaced].
    + intros i s Hs. destruct (Hfrom i s Hs) as [?|[Hin Hidx]]; [by left|].
      right. split; [by apply list_elem_of_further|done].
    + intros s [Heq|Hin]%elem_of_cons; [discriminate|by apply Hbelow].
    + destruct Hmax as [->|(s & Hin & ->)]; [by left|].
      right. exists s. split; [by apply list_elem_of_further|done].
    + intros s [Heq|Hin]%elem_of_cons; [discriminate|by apply Hin_range].
Qed.

(** A run from an intermediate slot array fails exactly when an index is
    out of range, or is taken already, or is claimed twice. *)
Lemma SortResourceSignatures_from_Thrown
    (ppSrcSignatures : list (option PipelineResourceSignatureVkImpl)) :
  ∀ (Sorted : SignatureArray) (count : nat),
    length Sorted = MAX_RESOURCE_SIGNATURES →
    (∃ e, SortResourceSignatures_from ppSrcSignatures Sorted count = Thrown e) ↔
    ((∃ s, Some s ∈ ppSrcSignatures ∧
           (MAX_RESOURCE_SIGNATURES ≤ Desc_BindingIndex s)%nat) ∨
     (∃ s s', Some s ∈ ppSrcSignatures ∧
              Sorted !! Desc_BindingIndex s = Some (Some s')) ∨
     (∃ i j s1 s2, (i < j)%nat ∧
                   ppSrcSignatures !! i = Some (Some s1) ∧
                   ppSrcSignatures !! j = Some (Some s2) ∧
                   Desc_BindingIndex s1 = Desc_BindingIndex s2)).
Proof.
  induction ppSrcSignatures as [|[h|] rest IH]; intros Sorted count Hlen.
  - simpl. split.
    + intros [e He]. discriminate.
    + intros [(s & Hin & _)|[(s & s' & Hin & _)|(i & j & s1 & s2 & _ & Hi & _)]];
        try (by apply elem_of_nil in Hin). discriminate.
  - simpl.
    destruct (Nat.leb_spec MAX_RESOURCE_SIGNATURES (Desc_BindingIndex h)) as [Hout|Hrange].
    { split; [|by eauto]. intros _. left. exists h. split; [apply list_elem_of_here|done]. }
    destruct (lookup_lt_is_Some_2 Sorted (Desc_BindingIndex h)) as [slot Hslot]; [lia|].
    rewrite Hslot. destruct slot as [s0|].
    { split; [|by eauto]. intros _. right; left. exists h, s0.
      split; [apply list_elem_of_here|done]. }
    rewrite IH by (by rewrite length_insert). split.
    + intros [(s & Hin & Hge)|[(s & s' & Hin & Hocc)|(i & j & s1 & s2 & Hij & Hi & Hj & Heq)]].
      * left. exists s. split; [by apply list_elem_of_further|done].
      * destruct (decide (Desc_BindingIndex h = Desc_BindingIndex s)) as [Heq|Hne].
        -- apply list_elem_of_lookup_1 in Hin as [k Hk].
           right; right. exists 0%nat, (S k), h, s. split; [lia|]. by repeat split.
        -- rewrite list_lookup_insert_ne in Hocc by done.
           right; left. exists s, s'. split; [by apply list_elem_of_further|done].
      * right; right. exists (S i), (S j), s1, s2. split; [lia|]. by repeat split.
    + intros [(s & Hin & Hge)|[(s & s' & Hin & Hocc)|(i & j & s1 & s2 & Hij & Hi & Hj & Heq)]].
      * apply elem_of_cons in Hin as [Hh|Hin]; [injection Hh as ->; lia|].
        left. by exists s.
      * apply elem_of_cons in Hin as [Hh|Hin]; [injection Hh as ->; congruence|].
        right; left.
        destruct (decide (Desc_BindingIndex h = Desc_BindingIndex s)) as [Heq|Hne].
        -- exists s, h. split; [done|]. rewrite <- Heq. apply list_lookup_insert_eq. lia.
        -- exists s, s'. split; [done|]. by rewrite list_lookup_insert_ne.
      * destruct i as [|i]; destruct j as [|j]; try lia.
        -- simpl in Hi, Hj. injection Hi as ->.
           right; left. exists s2, s1. split; [by eapply list_elem_of_lookup_2|].
           rewrite <- Heq. apply list_lookup_insert_eq. lia.
        -- simpl in Hi, Hj. right; right. exists i, j, s1, s2.
           split; [lia|]. by repeat split.
  - simpl. rewrite IH by done. split.
    + intros [(s & Hin & Hge)|[(s & s' & Hin & Hocc)|(i & j & s1 & s2 & Hij & Hi & Hj & Heq)]].
      * left. exists s. split; [by apply list_elem_of_further|done].
      * right; left. exists s, s'. split; [by apply list_elem_of_further|done].
      * right; right. exists (S i), (S j), s1, s2. split; [lia|]. by repeat split.
    + intros [(s & Hin & Hge)|[(s & s' & Hin & Hocc)|(i & j & s1 & s2 & Hij & Hi & Hj & Heq)]].
      * apply elem_of_cons in Hin as [Hh|Hin]; [discriminate|]. left. by exists s.
      * apply elem_of_cons in Hin as [Hh|Hin]; [discriminate|]. right; left. by exists s, s'.
      * destruct i as [|i]; destruct j as [|j]; try lia; simpl in Hi, Hj; [discriminate|].
        right; right. exists i, j, s1, s2. split; [lia|]. by repeat split.
Qed.

(** No assertion of the assignment loop fails on a slot array in which
    every signature sits at its own binding index. *)
Lemma PatchShadersVk_layout_no_diagnostics (Signatures : SignatureArray) (n : nat) :
  length Signatures = MAX_RESOURCE_SIGNATURES →
  (n ≤ MAX_RESOURCE_SIGNATURES)%nat →
  (∀ i s, Signatures !! i = Some (Some s) → Desc_BindingIndex s = i) →
  ∃ layout, PatchShadersVk_layout Signatures n = Returned layout ∧
            LayoutDiagnostics layout = [].
Proof.
  intros Hlen Hn Hidx.
  destruct (layout_loop_closed_form Signatures n Hlen Hn)
    as (st & Hrun & Hcount & _ & _ & _ & Hdiag).
  unfold PatchShadersVk_layout. rewrite Hrun. simpl.
  eexists. split; [reflexivity|]. simpl.
  pose proof (sets_before_range Signatures n ltac:(lia)) as Hrange.
  pose proof (Z.mod_le (sets_before Signatures n) Uint32_modulus
                ltac:(lia) Uint32_modulus_pos) as Hle.
  rewrite Hcount, Hdiag.
  replace (sets_before Signatures n `mod` Uint32_modulus
           <=? Z.of_nat MAX_RESOURCE_SIGNATURES * 2) with true
    by (symmetry; apply Z.leb_le; lia).
  simpl. rewrite app_nil_r.
  clear Hdiag Hrun Hcount Hrange Hle Hn st.
  generalize 0%nat. induction n as [|k IH]; intros start; [done|].
  simpl. rewrite IH.
  destruct (Signatures !! start) as [[s|]|] eqn:Hs; try done.
  rewrite (Hidx _ _ Hs), Nat.eqb_refl. done.
Qed.

End Sorter.

(** C5.  [SortResourceSignatures] puts every non-null signature of the list
    at the slot of its binding index in an array of
    [MAX_RESOURCE_SIGNATURES] slots and gives as count the largest binding
    index used plus one (zero when there is no signature); every occupied
    slot [i] then holds a signature of the list whose binding index is [i],
    so that the assertions of the assignment loop hold.  It throws exactly
    when a binding index is out of range or two signatures have the same
    one; it always returns or throws; and when it throws, [PatchShadersVk]
    gives [false] with the archive and [Data] as they were. *)
Theorem SortResourceSignatures_places_or_rejects
    `{EngineConstants} `{ArchiverCollaborators}
    (ppSrcSignatures : list (option PipelineResourceSignatureVkImpl)) :
  (∀ Signatures n,
      SortResourceSignatures ppSrcSignatures = Returned (Signatures, n) →
      length Signatures = MAX_RESOURCE_SIGNATURES ∧
      (∀ s, Some s ∈ ppSrcSignatures →
            Signatures !! Desc_BindingIndex s = Some (Some s)) ∧
      (∀ i s, Signatures !! i = Some (Some s) →
              Desc_BindingIndex s = i ∧ Some s ∈ ppSrcSignatures) ∧
      (∀ s, Some s ∈ ppSrcSignatures → (Desc_BindingIndex s < n)%nat) ∧
      (n = 0%nat ∨ ∃ s, Some s ∈ ppSrcSignatures ∧ n = S (Desc_BindingIndex s)) ∧
      (n ≤ MAX_RESOURCE_SIGNATURES)%nat ∧
      ∃ layout, PatchShadersVk_layout Signatures n = Returned layout ∧
                LayoutDiagnostics layout = []) ∧
  ((∃ e, SortResourceSignatures ppSrcSignatures = Thrown e) ↔
   ((∃ s, Some s ∈ ppSrcSignatures ∧
          (MAX_RESOURCE_SIGNATURES ≤ Desc_BindingIndex s)%nat) ∨
    (∃ i j s1 s2, (i < j)%nat ∧
                  ppSrcSignatures !! i = Some (Some s1) ∧
                  ppSrcSignatures !! j = Some (Some s2) ∧
                  Desc_BindingIndex s1 = Desc_BindingIndex s2))) ∧
  SortResourceSignatures ppSrcSignatures ≠ Undefined ∧
  (∀ e ShaderStages ShaderStagesVk st,
      SortResourceSignatures ppSrcSignatures = Thrown e →
      PatchShadersVk_build ShaderStages ShaderStagesVk ppSrcSignatures st =
      Returned
        (false,
         {| m_Shaders := m_Shaders st; Data := Data st; DefPRS := DefPRS st;
            Messages :=
              Messages st ++
              [ErrorMessage "Failed to remap shader resources in Vulkan shaders"] |})).
Proof.
  assert (length (replicate MAX_RESOURCE_SIGNATURES (@None PipelineResourceSignatureVkImpl))
          = MAX_RESOURCE_SIGNATURES) as Hlen0 by apply length_replicate.
  assert (∀ i s, replicate MAX_RESOURCE_SIGNATURES (@None PipelineResourceSignatureVkImpl)
                   !! i ≠ Some (Some s)) as Hempty.
  { intros i s [Hs _]%lookup_replicate. discriminate. }
  split; [|split; [|split]].
  - intros Signatures n Hrun. unfold SortResourceSignatures in Hrun.
    apply SortResourceSignatures_from_Returned in Hrun
      as (Hlen & Hplaced & _ & Hfrom & _ & Hbelow & Hmax & Hrange); [|done].
    assert (∀ i s, Signatures !! i = Some (Some s) →
                   Desc_BindingIndex s = i ∧ Some s ∈ ppSrcSignatures) as Hown.
    { intros i s Hs. destruct (Hfrom i s Hs) as [Hold|[Hin Hidx]]; [|done].
      by apply Hempty in Hold. }
    assert (n ≤ MAX_RESOURCE_SIGNATURES)%nat as Hn.
    { destruct Hmax as [->|(s & Hin & ->)]; [lia|]. specialize (Hrange s Hin). lia. }
    repeat (split; [done|]).
    apply PatchShadersVk_layout_no_diagnostics; [done..|].
    intros i s Hs. by apply Hown.
  - unfold SortResourceSignatures.
    rewrite SortResourceSignatures_from_Thrown by done. split.
    + intros [?|[(s & s' & _ & Hocc)|?]]; [by left| |by right]. by apply Hempty in Hocc.
    + intros [?|?]; [by left|by right; right].
  - apply SortResourceSignatures_from_defined.
  - intros e ShaderStages ShaderStagesVk st Hthrown.
    unfold PatchShadersVk_build, PatchShadersVk_try. by rewrite Hthrown.
Qed.

Lemma SortResourceSignatures_places_or_rejects_witness :
  @SortResourceSignatures engine_constants example_signatures =
  Returned (example_slots, 4%nat) ∧
  example_slots !! Desc_BindingIndex signature_C = Some (Some signature_C) ∧
  (4 ≤ @MAX_RESOURCE_SIGNATURES engine_constants)%nat.
Proof.
  assert (@SortResourceSignatures engine_constants example_signatures =
          Returned (example_slots, 4%nat)) as Hrun by reflexivity.
  split; [exact Hrun|].
  destruct (@SortResourceSignatures_places_or_rejects engine_constants
              example_collaborators example_signatures) as [Hreturned _].
  destruct (Hreturned example_slots 4%nat Hrun) as (_ & Hplaced & _ & _ & _ & Hn & _).
  split; [|exact Hn].
  apply Hplaced. apply list_elem_of_here.
Defined.

(** ** The Runtime Binding Reporter *)

Lemma flat_map_seq_ext {A : Type} (f g : nat → list A) (len : nat) :
  ∀ start,
    (∀ i, (start ≤ i < start + len)%nat → f i = g i) →
    flat_map f (seq start len) = flat_map g (seq start len).
Proof.
  induction len as [|len IH]; intros start Hfg; [done|].
  simpl. rewrite (Hfg start) by lia. f_equal. apply IH. intros i Hi. apply Hfg. lia.
Qed.

(** C6.  [GetPipelineResourceBindingsVk] appends to [ResourceBindings], slot
    by slot and resource by resource, one record for every resource whose
    [ShaderStages] have a bit in common with the filter, and none for the
    others; a filter of [SHADER_TYPE_UNKNOWN] stands for [~0u]; the
    descriptor set of a record is the running descriptor-set counter at the
    resource's signature plus the resource's [DescrSet].  An exception of
    the sorter leaves the function. *)
Theorem GetPipelineResourceBindingsVk_reports_filtered_resources `{EngineConstants}
    (Info : PipelineResourceBindingAttribs)
    (ResourceBindings0 : list PipelineResourceBinding) :
  (Info_ShaderStages Info = SHADER_TYPE_UNKNOWN →
   effective_ShaderStages Info = Uint32_all_ones) ∧
  (Info_ShaderStages Info ≠ SHADER_TYPE_UNKNOWN →
   effective_ShaderStages Info = Info_ShaderStages Info) ∧
  (∀ e, SortResourceSignatures (ppResourceSignatures Info) = Thrown e →
        GetPipelineResourceBindingsVk Info ResourceBindings0 = Thrown e) ∧
  (∀ Signatures n,
      SortResourceSignatures (ppResourceSignatures Info) = Returned (Signatures, n) →
      ∃ result,
        GetPipelineResourceBindingsVk Info ResourceBindings0 = Returned result ∧
        Result_DescSetLayoutCount result = sets_before Signatures n mod Uint32_modulus ∧
        Result_ResourceBindings result =
        ResourceBindings0 ++
        flat_map
          (λ i, match Signatures !! i with
                | Some (Some pSignature) =>
                    map (λ '(ResDesc, ResAttr),
                           ResDescToPipelineResBinding ResDesc (ShaderStages ResDesc)
                             (BindingIndex ResAttr)
                             (Uint32_add (sets_before Signatures i mod Uint32_modulus)
                                         (DescrSet ResAttr)))
                        (filter (λ '(ResDesc, _),
                                   Z.land (ShaderStages ResDesc)
                                          (effective_ShaderStages Info) ≠ 0)
                                (Resources pSignature))
                | _ => []
                end)
          (seq 0 n)).
Proof.
  split; [|split; [|split]].
  - intros Hunknown. unfold effective_ShaderStages. by rewrite Hunknown, Z.eqb_refl.
  - intros Hknown. unfold effective_ShaderStages.
    by destruct (Z.eqb_spec (Info_ShaderStages Info) SHADER_TYPE_UNKNOWN).
  - intros e Hthrown. unfold GetPipelineResourceBindingsVk. by rewrite Hthrown.
  - intros Signatures n Hsorted.
    pose proof Hsorted as Hfacts. unfold SortResourceSignatures in Hfacts.
    apply SortResourceSignatures_from_Returned in Hfacts
      as (Hlen & _ & _ & _ & _ & _ & Hmax & Hrange); [|apply length_replicate].
    assert (n ≤ MAX_RESOURCE_SIGNATURES)%nat as Hn.
    { destruct Hmax as [->|(s & Hin & ->)]; [lia|]. specialize (Hrange s Hin). lia. }
    unfold GetPipelineResourceBindingsVk. rewrite Hsorted. simpl.
    rewrite reporter_loop_closed_form by lia. simpl.
    eexists. split; [reflexivity|]. simpl. split; reflexivity.
Qed.

Lemma GetPipelineResourceBindingsVk_reports_filtered_resources_witness :
  ∃ result,
    @GetPipelineResourceBindingsVk engine_constants
      {| ppResourceSignatures := example_signatures;
         Info_ShaderStages := SHADER_TYPE_PIXEL |} [] = Returned result ∧
    Result_DescSetLayoutCount result = 4 ∧
    map (λ b, (Binding_Name b, Binding_DescriptorSet b)) (Result_ResourceBindings result) =
    [("tex0"%string, 0); ("tex1"%string, 2); ("dyn0"%string, 3)].
Proof.
  destruct (@GetPipelineResourceBindingsVk_reports_filtered_resources engine_constants
              {| ppResourceSignatures := example_signatures;
                 Info_ShaderStages := SHADER_TYPE_PIXEL |} [])
    as (_ & _ & _ & Hreturned).
  destruct (Hreturned example_slots 4%nat eq_refl) as (result & Hrun & Hcount & Hbindings).
  exists result. split; [exact Hrun|].
  rewrite Hcount, Hbindings. split; reflexivity.
Defined.

(** ** Agreement of the archiving path and the live-query path *)

Lemma with_DefPRS_same (st : ArchiverState) : with_DefPRS st (DefPRS st) = st.
Proof. by destruct st. Qed.

(** C1.  For every list of at least one signature that the caller supplies
    to both functions, the numbering computed by [PatchShadersVk] (the table
    [BindIndexToDescSetIndex] and the running [DescSetLayoutCount]) and the
    descriptor sets reported by [GetPipelineResourceBindingsVk] agree:
    [PatchShadersVk] builds from the caller's list, both functions sort it
    into the same slot array, the final counters are equal, and the records
    reported are those obtained from the table that [PatchShadersVk] hands
    to [RemapShaderResources], entry of the group plus signature-relative
    set.  A list the sorter rejects is rejected on both paths. *)
Theorem reporter_bindings_equal_remap_bindings
    `{EngineConstants} `{ArchiverCollaborators}
    (CreateInfo : PipelineStateCreateInfo) (st : ArchiverState)
    (ShaderStages : list ShaderStageInfoVk) (ActiveShaderStages : Z)
    (Info : PipelineResourceBindingAttribs)
    (ResourceBindings0 : list PipelineResourceBinding) :
  2 * Z.of_nat MAX_RESOURCE_SIGNATURES < 2 ^ DescSetIndex_bits →
  ExtractShaders CreateInfo = (ShaderStages, ActiveShaderStages) →
  CI_ppResourceSignatures CreateInfo ≠ [] →
  ppResourceSignatures Info = CI_ppResourceSignatures CreateInfo →
  select_signatures CreateInfo ActiveShaderStages (map Base ShaderStages) (DefPRS st) =
  (Some (ppResourceSignatures Info), DefPRS st) ∧
  match SortResourceSignatures (ppResourceSignatures Info) with
  | Returned (Signatures, SignaturesCount) =>
      ∃ layout result,
        PatchShadersVk_layout Signatures SignaturesCount = Returned layout ∧
        PatchShadersVk_try (ppResourceSignatures Info) (map Base ShaderStages) =
        (LayoutDiagnostics layout,
         RemapShaderResources (map Base ShaderStages) Signatures SignaturesCount
           (BindIndexToDescSetIndex layout) true) ∧
        PatchShadersVk CreateInfo st =
        match RemapShaderResources (map Base ShaderStages) Signatures SignaturesCount
                (BindIndexToDescSetIndex layout) true with
        | Returned Remapped =>
            '(ShaderIndices, store) ←
              for_each_index (serialize_stage ShaderStages Remapped) 0
                (length Remapped) ([], m_Shaders st);
            mret
              (true,
               {| m_Shaders := store;
                  Data := set_PerDeviceData (Data st) Vulkan
                            (SerializeShadersForPSO ShaderIndices);
                  DefPRS := DefPRS st;
                  Messages := Messages st ++ LayoutDiagnostics layout |})
        | Thrown _ =>
            Returned
              (false,
               {| m_Shaders := m_Shaders st; Data := Data st; DefPRS := DefPRS st;
                  Messages :=
                    Messages st ++ LayoutDiagnostics layout ++
                    [ErrorMessage "Failed to remap shader resources in Vulkan shaders"] |})
        | Undefined => Undefined
        end ∧
        GetPipelineResourceBindingsVk Info ResourceBindings0 = Returned result ∧
        Result_DescSetLayoutCount result = DescSetLayoutCount layout ∧
        Result_ResourceBindings result =
        ResourceBindings0 ++
        remap_bindings Signatures SignaturesCount (BindIndexToDescSetIndex layout)
          (effective_ShaderStages Info)
  | Thrown e =>
      PatchShadersVk CreateInfo st =
      Returned
        (false,
         {| m_Shaders := m_Shaders st; Data := Data st; DefPRS := DefPRS st;
            Messages :=
              Messages st ++
              [ErrorMessage "Failed to remap shader resources in Vulkan shaders"] |}) ∧
      GetPipelineResourceBindingsVk Info ResourceBindings0 = Thrown e
  | Undefined => False
  end.
Proof.
  intros Hbits Hextract Hnonempty Hsame.
  assert (select_signatures CreateInfo ActiveShaderStages (map Base ShaderStages)
            (DefPRS st) = (Some (ppResourceSignatures Info), DefPRS st)) as Hselect.
  { unfold select_signatures. rewrite Hsame.
    destruct (CI_ppResourceSignatures CreateInfo); [done|reflexivity]. }
  split; [exact Hselect|].
  assert (PatchShadersVk CreateInfo st =
          PatchShadersVk_build ShaderStages (map Base ShaderStages)
            (ppResourceSignatures Info) st) as Hbuild.
  { unfold PatchShadersVk. by rewrite Hextract, Hselect, with_DefPRS_same. }
  destruct (SortResourceSignatures (ppResourceSignatures Info))
    as [[Signatures SignaturesCount]|e|] eqn:Hsorted.
  - pose proof Hsorted as Hfacts. unfold SortResourceSignatures in Hfacts.
    apply SortResourceSignatures_from_Returned in Hfacts
      as (Hlen & _ & _ & _ & _ & _ & Hmax & Hrange); [|apply length_replicate].
    assert (SignaturesCount ≤ MAX_RESOURCE_SIGNATURES)%nat as Hn.
    { destruct Hmax as [->|(s & Hin & ->)]; [lia|]. specialize (Hrange s Hin). lia. }
    destruct (layout_loop_closed_form Signatures SignaturesCount Hlen Hn)
      as (st0 & Hrun & Hcount & _ & Hpresent & _ & _).
    destruct (PatchShadersVk_layout Signatures SignaturesCount) as [layout| |] eqn:Hlayout;
      try (unfold PatchShadersVk_layout in Hlayout; rewrite Hrun in Hlayout;
           discriminate).
    assert (PatchShadersVk_try (ppResourceSignatures Info) (map Base ShaderStages) =
            (LayoutDiagnostics layout,
             RemapShaderResources (map Base ShaderStages) Signatures SignaturesCount
               (BindIndexToDescSetIndex layout) true)) as Htry.
    { unfold PatchShadersVk_try. by rewrite Hsorted, Hlayout. }
    exists layout. eexists. split; [reflexivity|]. split; [exact Htry|]. split.
    { rewrite Hbuild. unfold PatchShadersVk_build. rewrite Htry.
      by destruct (RemapShaderResources _ _ _ _ _). }
    unfold PatchShadersVk_layout in Hlayout. rewrite Hrun in Hlayout.
    simpl in Hlayout. injection Hlayout as <-. simpl.
    unfold GetPipelineResourceBindingsVk. rewrite Hsorted. simpl.
    rewrite reporter_loop_closed_form by lia. simpl.
    split; [reflexivity|]. simpl. split; [by rewrite Hcount|].
    f_equal. unfold reported_bindings, remap_bindings.
    apply flat_map_seq_ext. intros i Hi.
    destruct (Signatures !! i) as [[s|]|] eqn:Hs; try reflexivity.
    rewrite (Hpresent i s) by (done || lia). f_equal.
    pose proof (sets_before_range Signatures i ltac:(lia)) as Hbound.
    pose proof (Z.mod_pos_bound (sets_before Signatures i) Uint32_modulus
                  Uint32_modulus_pos) as Hmod.
    pose proof (Z.mod_le (sets_before Signatures i) Uint32_modulus
                  ltac:(lia) Uint32_modulus_pos) as Hle.
    unfold StaticCast. symmetry. apply Z.mod_small. lia.
  - split.
    + rewrite Hbuild. unfold PatchShadersVk_build, PatchShadersVk_try.
      by rewrite Hsorted.
    + unfold GetPipelineResourceBindingsVk. by rewrite Hsorted.
  - by apply SortResourceSignatures_from_defined in Hsorted.
Qed.

Lemma reporter_bindings_equal_remap_bindings_witness :
  ∃ layout result,
    @PatchShadersVk_layout engine_constants example_slots 4 = Returned layout ∧
    @PatchShadersVk_try engine_constants example_collaborators example_signatures
      (map Base example_stages) =
    ([], Returned (map Base example_stages)) ∧
    @GetPipelineResourceBindingsVk engine_constants
      {| ppResourceSignatures := example_signatures; Info_ShaderStages := 0 |} [] =
    Returned result ∧
    Result_DescSetLayoutCount result = DescSetLayoutCount layout ∧
    Result_ResourceBindings result =
    remap_bindings example_slots 4 (BindIndexToDescSetIndex layout) Uint32_all_ones.
Proof.
  destruct (@reporter_bindings_equal_remap_bindings engine_constants
              example_collaborators example_CreateInfo example_state
              example_stages 3
              {| ppResourceSignatures := example_signatures; Info_ShaderStages := 0 |}
              [] ltac:(reflexivity) eq_refl ltac:(discriminate) eq_refl)
    as (_ & layout & result & Hlayout & Htry & _ & Hrun & Hcount & Hbindings).
  exists layout, result. split; [exact Hlayout|].
  split; [etrans; [exact Htry|]; vm_compute in Hlayout; by injection Hlayout as <-|].
  split; [exact Hrun|]. split; [exact Hcount | exact Hbindings].
Defined.

(** Without a signature from the caller the two paths part:
    [PatchShadersVk] numbers the descriptor sets of the default signature
    that [CreateDefaultResourceSignature] makes from the shaders, and hands
    [RemapShaderResources] a table for it; [GetPipelineResourceBindingsVk],
    which is given no shaders, sorts the empty list, reports nothing and
    ends with the counter at 0. *)
Lemma numbering_differs_without_caller_signatures :
  CI_ppResourceSignatures CreateInfo_without_signatures = [] ∧
  @select_signatures implicit_signature_collaborators CreateInfo_without_signatures 3
    (map Base example_stages) (DefPRS example_state) =
  (Some [Some implicit_signature], {| pPRS := Some implicit_signature |}) ∧
  @PatchShadersVk engine_constants implicit_signature_collaborators
    CreateInfo_without_signatures example_state =
  @PatchShadersVk_build engine_constants implicit_signature_collaborators
    example_stages (map Base example_stages) [Some implicit_signature]
    (with_DefPRS example_state {| pPRS := Some implicit_signature |}) ∧
  @PatchShadersVk_layout engine_constants implicit_slots 1 =
  Returned {| BindIndexToDescSetIndex := [0; 0; 0; 0; 0; 0; 0; 0];
              DescSetLayoutCount := 2;
              LayoutDiagnostics := [] |} ∧
  @PatchShadersVk_try engine_constants implicit_signature_collaborators
    [Some implicit_signature] (map Base example_stages) =
  ([], @RemapShaderResources implicit_signature_collaborators
         (map Base example_stages) implicit_slots 1 [0; 0; 0; 0; 0; 0; 0; 0] true) ∧
  map (λ binding, (Binding_Name binding, Binding_DescriptorSet binding))
    (remap_bindings implicit_slots 1 [0; 0; 0; 0; 0; 0; 0; 0] Uint32_all_ones) =
  [("tex1"%string, 0); ("dyn0"%string, 1)] ∧
  @GetPipelineResourceBindingsVk engine_constants
    {| ppResourceSignatures := CI_ppResourceSignatures CreateInfo_without_signatures;
       Info_ShaderStages := 0 |} [] =
  Returned {| Result_ResourceBindings := [];
              Result_DescSetLayoutCount := 0;
              Result_Diagnostics := [] |} ∧
  ¬ ∃ layout result,
      @PatchShadersVk_layout engine_constants implicit_slots 1 = Returned layout ∧
      @GetPipelineResourceBindingsVk engine_constants
        {| ppResourceSignatures := CI_ppResourceSignatures CreateInfo_without_signatures;
           Info_ShaderStages := 0 |} [] = Returned result ∧
      Result_DescSetLayoutCount result = DescSetLayoutCount layout.
Proof.
  repeat split.
  intros (layout & result & Hlayout & Hrun & Hcount).
  vm_compute in Hlayout, Hrun.
  injection Hlayout as <-. injection Hrun as <-. discriminate Hcount.
Qed.

(** ** The lower bound asserted by the reporter *)

(** C9.  The assertion
    [VERIFY_EXPR(DescSetLayoutCount >= Info.ResourceSignaturesCount)] at the
    end of [GetPipelineResourceBindingsVk] fails for a list of one signature
    that declares no resources: the counter ends at 0, the list has one
    entry. *)
Theorem reporter_lower_bound_fails_for_empty_signature `{EngineConstants}
    (ShaderStagesFilter : Z) (ResourceBindings0 : list PipelineResourceBinding) :
  (1 ≤ MAX_RESOURCE_SIGNATURES)%nat →
  GetPipelineResourceBindingsVk
    {| ppResourceSignatures := [Some empty_signature];
       Info_ShaderStages := ShaderStagesFilter |} ResourceBindings0 =
  Returned
    {| Result_ResourceBindings := ResourceBindings0;
       Result_DescSetLayoutCount := 0;
       Result_Diagnostics :=
         [AssertionFailed "DescSetLayoutCount >= Info.ResourceSignaturesCount"] |}.
Proof.
  intros Hmax. destruct H as [MAX unknown bits]. simpl in Hmax.
  destruct MAX as [|m]; [lia|]. reflexivity.
Qed.

Lemma reporter_lower_bound_fails_for_empty_signature_witness :
  (1 ≤ @MAX_RESOURCE_SIGNATURES engine_constants)%nat ∧
  @GetPipelineResourceBindingsVk engine_constants
    {| ppResourceSignatures := [Some empty_signature]; Info_ShaderStages := 0 |} [] =
  Returned
    {| Result_ResourceBindings := [];
       Result_DescSetLayoutCount := 0;
       Result_Diagnostics :=
         [AssertionFailed "DescSetLayoutCount >= Info.ResourceSignaturesCount"] |}.
Proof.
  split; [simpl; lia|].
  apply (@reporter_lower_bound_fails_for_empty_signature engine_constants 0 []).
  simpl; lia.
Defined.

(** ** [PatchShadersVk]: failures *)

(** A build that gives [false] leaves the blob store and [Data] alone. *)
Lemma PatchShadersVk_build_false `{EngineConstants} `{ArchiverCollaborators}
    (ShaderStages : list ShaderStageInfoVk) (ShaderStagesVk : list ShaderStageInfo)
    (ppSignatures : list (option PipelineResourceSignatureVkImpl))
    (st st' : ArchiverState) :
  PatchShadersVk_build ShaderStages ShaderStagesVk ppSignatures st = Returned (false, st') →
  m_Shaders st' = m_Shaders st ∧ Data st' = Data st ∧ DefPRS st' = DefPRS st.
Proof.
  unfold PatchShadersVk_build.
  destruct (PatchShadersVk_try ppSignatures ShaderStagesVk) as [diags [Remapped|e|]].
  - intros Hrun. apply Outcome_bind_Returned in Hrun as ([indices store] & _ & Hret).
    simpl in Hret. discriminate.
  - intros Hrun. injection Hrun as <-. done.
  - discriminate.
Qed.

(** C4.  When [RemapShaderResources] throws, [PatchShadersVk] returns
    [false]; the blob store of the archive and [Data] are as before the
    call, so no bytecode of the pipeline was serialized and no remapped
    stage reaches the caller.  More generally, whenever [PatchShadersVk]
    returns [false], the blob store and [Data] are unchanged. *)
Theorem PatchShadersVk_remap_failure_is_atomic
    `{EngineConstants} `{ArchiverCollaborators}
    (CreateInfo : PipelineStateCreateInfo) (st : ArchiverState) :
  (∀ ShaderStages ActiveShaderStages ppSignatures DefPRS1 Signatures n layout e,
      ExtractShaders CreateInfo = (ShaderStages, ActiveShaderStages) →
      select_signatures CreateInfo ActiveShaderStages (map Base ShaderStages) (DefPRS st) =
      (Some ppSignatures, DefPRS1) →
      SortResourceSignatures ppSignatures = Returned (Signatures, n) →
      PatchShadersVk_layout Signatures n = Returned layout →
      RemapShaderResources (map Base ShaderStages) Signatures n
        (BindIndexToDescSetIndex layout) true = Thrown e →
      PatchShadersVk CreateInfo st =
      Returned
        (false,
         {| m_Shaders := m_Shaders st;
            Data := Data st;
            DefPRS := DefPRS1;
            Messages :=
              Messages st ++ LayoutDiagnostics layout ++
              [ErrorMessage "Failed to remap shader resources in Vulkan shaders"] |})) ∧
  (∀ st', PatchShadersVk CreateInfo st = Returned (false, st') →
          m_Shaders st' = m_Shaders st ∧ Data st' = Data st).
Proof.
  split.
  - intros ShaderStages Active ppSignatures DefPRS1 Signatures n layout e
           Hextract Hselect Hsorted Hlayout Hremap.
    unfold PatchShadersVk. rewrite Hextract, Hselect.
    unfold PatchShadersVk_build, PatchShadersVk_try.
    rewrite Hsorted, Hlayout, Hremap. reflexivity.
  - intros st'. unfold PatchShadersVk.
    destruct (ExtractShaders CreateInfo) as [ShaderStages Active].
    destruct (select_signatures _ _ _ _) as [[ppSignatures|] DefPRS1].
    + intros Hrun. apply PatchShadersVk_build_false in Hrun as (-> & -> & _). done.
    + intros Hrun. injection Hrun as <-. done.
Qed.

Lemma PatchShadersVk_remap_failure_is_atomic_witness :
  ∃ st',
    @PatchShadersVk engine_constants failing_remap_collaborators
      example_CreateInfo example_state = Returned (false, st') ∧
    m_Shaders st' = m_Shaders example_state ∧
    Data st' = Data example_state.
Proof.
  destruct (@PatchShadersVk_remap_failure_is_atomic engine_constants
              failing_remap_collaborators example_CreateInfo example_state)
    as [Hthrown Hfalse].
  eexists. split.
  - eapply (Hthrown example_stages 3 example_signatures {| pPRS := None |}
              example_slots 4%nat); reflexivity.
  - split; reflexivity.
Defined.

(** ** [PatchShadersVk]: the default signature *)

(** C7.  With no signature from the caller, [PatchShadersVk] asks for the
    default signature: when that fails it returns [false] at once, with
    nothing sorted, assigned, remapped or archived; when it succeeds, the
    default signature is the only entry of the list the pipeline is built
    from, it is sorted into slot 0 with a count of 1, its descriptor sets
    are numbered from 0, [RemapShaderResources] is called with that slot
    array, that count and that table, and the build ends as for any other
    list: [false] with the error message when the remap throws, otherwise
    the bytecode of every remapped stage is archived and [true] returned.
    With at least one signature from the caller the default signature is
    not asked for: the caller's list is the one sorted and remapped,
    whatever [CreateDefaultResourceSignature] would give, and [DefPRS]
    stays as it is. *)
Theorem PatchShadersVk_default_signature
    `{EngineConstants} `{ArchiverCollaborators}
    (CreateInfo : PipelineStateCreateInfo) (st : ArchiverState)
    (ShaderStages : list ShaderStageInfoVk) (ActiveShaderStages : Z) :
  ExtractShaders CreateInfo = (ShaderStages, ActiveShaderStages) →
  (∀ DefPRS1,
      length (CI_ppResourceSignatures CreateInfo) = 0%nat →
      CreateDefaultResourceSignature (DefPRS st) (PSODesc CreateInfo)
        ActiveShaderStages (map Base ShaderStages) = (false, DefPRS1) →
      PatchShadersVk CreateInfo st =
      Returned (false,
                {| m_Shaders := m_Shaders st; Data := Data st; DefPRS := DefPRS1;
                   Messages := Messages st |})) ∧
  (∀ DefPRS1 pSignature,
      length (CI_ppResourceSignatures CreateInfo) = 0%nat →
      CreateDefaultResourceSignature (DefPRS st) (PSODesc CreateInfo)
        ActiveShaderStages (map Base ShaderStages) = (true, DefPRS1) →
      pPRS DefPRS1 = Some pSignature →
      Desc_BindingIndex pSignature = 0%nat →
      (1 ≤ MAX_RESOURCE_SIGNATURES)%nat →
      select_signatures CreateInfo ActiveShaderStages (map Base ShaderStages) (DefPRS st) =
      (Some [Some pSignature], DefPRS1) ∧
      length [Some pSignature] = 1%nat ∧
      SortResourceSignatures [Some pSignature] =
      Returned (<[0%nat := Some pSignature]> (replicate MAX_RESOURCE_SIGNATURES None), 1%nat) ∧
      PatchShadersVk_layout
        (<[0%nat := Some pSignature]> (replicate MAX_RESOURCE_SIGNATURES None)) 1 =
      Returned {| BindIndexToDescSetIndex := replicate MAX_RESOURCE_SIGNATURES 0;
                  DescSetLayoutCount := descriptor_set_count pSignature;
                  LayoutDiagnostics := [] |} ∧
      PatchShadersVk CreateInfo st =
      match RemapShaderResources (map Base ShaderStages)
              (<[0%nat := Some pSignature]> (replicate MAX_RESOURCE_SIGNATURES None)) 1
              (replicate MAX_RESOURCE_SIGNATURES 0) true with
      | Returned Remapped =>
          '(ShaderIndices, store) ←
            for_each_index (serialize_stage ShaderStages Remapped) 0
              (length Remapped) ([], m_Shaders st);
          mret
            (true,
             {| m_Shaders := store;
                Data := set_PerDeviceData (Data st) Vulkan
                          (SerializeShadersForPSO ShaderIndices);
                DefPRS := DefPRS1;
                Messages := Messages st |})
      | Thrown _ =>
          Returned
            (false,
             {| m_Shaders := m_Shaders st; Data := Data st; DefPRS := DefPRS1;
                Messages :=
                  Messages st ++
                  [ErrorMessage "Failed to remap shader resources in Vulkan shaders"] |})
      | Undefined => Undefined
      end) ∧
  (length (CI_ppResourceSignatures CreateInfo) ≠ 0%nat →
   select_signatures CreateInfo ActiveShaderStages (map Base ShaderStages) (DefPRS st) =
   (Some (CI_ppResourceSignatures CreateInfo), DefPRS st) ∧
   (∀ Signatures SignaturesCount layout,
       SortResourceSignatures (CI_ppResourceSignatures CreateInfo) =
       Returned (Signatures, SignaturesCount) →
       PatchShadersVk_layout Signatures SignaturesCount = Returned layout →
       PatchShadersVk CreateInfo st =
       match RemapShaderResources (map Base ShaderStages) Signatures SignaturesCount
               (BindIndexToDescSetIndex layout) true with
       | Returned Remapped =>
           '(ShaderIndices, store) ←
             for_each_index (serialize_stage ShaderStages Remapped) 0
               (length Remapped) ([], m_Shaders st);
           mret
             (true,
              {| m_Shaders := store;
                 Data := set_PerDeviceData (Data st) Vulkan
                           (SerializeShadersForPSO ShaderIndices);
                 DefPRS := DefPRS st;
                 Messages := Messages st ++ LayoutDiagnostics layout |})
       | Thrown _ =>
           Returned
             (false,
              {| m_Shaders := m_Shaders st; Data := Data st; DefPRS := DefPRS st;
                 Messages :=
                   Messages st ++ LayoutDiagnostics layout ++
                   [ErrorMessage "Failed to remap shader resources in Vulkan shaders"] |})
       | Undefined => Undefined
       end) ∧
   (∀ create,
       @PatchShadersVk _
         {| ExtractShaders := ExtractShaders;
            CreateDefaultResourceSignature := create;
            RemapShaderResources := RemapShaderResources;
            SerializeShadersForPSO := SerializeShadersForPSO;
            word_bytes := word_bytes |} CreateInfo st =
       PatchShadersVk CreateInfo st) ∧
   (∀ result st', PatchShadersVk CreateInfo st = Returned (result, st') →
                  DefPRS st' = DefPRS st)).
Proof.
  intros Hextract. split; [|split].
  - intros DefPRS1 Hnone Hfailed.
    unfold PatchShadersVk, select_signatures. rewrite Hextract, Hnone. simpl.
    rewrite Hfailed. reflexivity.
  - intros DefPRS1 pSignature Hnone Hcreated HpPRS Hindex Hmax.
    assert (select_signatures CreateInfo ActiveShaderStages (map Base ShaderStages)
              (DefPRS st) = (Some [Some pSignature], DefPRS1)) as Hselect.
    { unfold select_signatures. rewrite Hnone. simpl. by rewrite Hcreated, HpPRS. }
    assert (SortResourceSignatures [Some pSignature] =
            Returned (<[0%nat := Some pSignature]> (replicate MAX_RESOURCE_SIGNATURES None),
                      1%nat)) as Hsorted.
    { unfold SortResourceSignatures. simpl. rewrite Hindex.
      destruct MAX_RESOURCE_SIGNATURES as [|m]; [lia|]. reflexivity. }
    assert (PatchShadersVk_layout
              (<[0%nat := Some pSignature]> (replicate MAX_RESOURCE_SIGNATURES None)) 1 =
            Returned {| BindIndexToDescSetIndex := replicate MAX_RESOURCE_SIGNATURES 0;
                        DescSetLayoutCount := descriptor_set_count pSignature;
                        LayoutDiagnostics := [] |}) as Hlayout.
    { pose proof (descriptor_set_count_range pSignature) as Hrange.
      pose proof (count_descriptor_sets_mod pSignature 0) as Hcount.
      change (0 mod Uint32_modulus) with 0 in Hcount.
      rewrite Z.add_0_l, Z.mod_small in Hcount by (unfold Uint32_modulus; lia).
      assert (StaticCast DescSetIndex_bits 0 = 0) as Hcast
        by reflexivity.
      unfold PatchShadersVk_layout.
      change (for_each_index (PatchShadersVk_slot ?A) 0 1 ?s)
        with (s' ← PatchShadersVk_slot A 0 s; Returned s').
      unfold PatchShadersVk_slot, LayoutState_init.
      rewrite list_lookup_insert_eq by (rewrite length_replicate; lia).
      cbn [mbind Outcome_mbind Outcome_bind mret Outcome_mret BindIndexToDescSetIndex
           DescSetLayoutCount LayoutDiagnostics].
      rewrite Hcount, Hcast, Hindex, insert_replicate. simpl.
      destruct (Z.leb_spec (descriptor_set_count pSignature)
                  (Z.of_nat MAX_RESOURCE_SIGNATURES * 2)); [reflexivity|lia]. }
    split; [exact Hselect|]. split; [reflexivity|]. split; [exact Hsorted|].
    split; [exact Hlayout|].
    unfold PatchShadersVk. rewrite Hextract, Hselect.
    unfold PatchShadersVk_build, PatchShadersVk_try. rewrite Hsorted, Hlayout.
    cbn [LayoutDiagnostics BindIndexToDescSetIndex].
    destruct (RemapShaderResources _ _ _ _ _) as [Remapped|e|]; [|reflexivity..].
    cbn [with_DefPRS m_Shaders Data DefPRS Messages].
    destruct (for_each_index _ _ _ _) as [[indices store]|e|]; simpl;
      by rewrite ?app_nil_r.
  - intros Hsome.
    assert (select_signatures CreateInfo ActiveShaderStages (map Base ShaderStages)
              (DefPRS st) = (Some (CI_ppResourceSignatures CreateInfo), DefPRS st))
      as Hselect.
    { unfold select_signatures.
      by destruct (Nat.eqb_spec (length (CI_ppResourceSignatures CreateInfo)) 0). }
    assert (PatchShadersVk CreateInfo st =
            PatchShadersVk_build ShaderStages (map Base ShaderStages)
              (CI_ppResourceSignatures CreateInfo) st) as Hbuild.
    { unfold PatchShadersVk. by rewrite Hextract, Hselect, with_DefPRS_same. }
    split; [exact Hselect|]. split; [|split].
    + intros Signatures SignaturesCount layout Hsorted Hlayout.
      rewrite Hbuild. unfold PatchShadersVk_build, PatchShadersVk_try.
      rewrite Hsorted, Hlayout.
      by destruct (RemapShaderResources _ _ _ _ _).
    + intros create. rewrite Hbuild.
      unfold PatchShadersVk, select_signatures. cbn [ExtractShaders].
      rewrite Hextract.
      destruct (Nat.eqb_spec (length (CI_ppResourceSignatures CreateInfo)) 0); [done|].
      by rewrite with_DefPRS_same.
    + intros result st' Hrun. rewrite Hbuild in Hrun.
      unfold PatchShadersVk_build in Hrun.
      destruct (PatchShadersVk_try _ _) as [diags [Remapped|e|]]; [| |discriminate].
      * apply Outcome_bind_Returned in Hrun as ([indices store] & _ & Hret).
        simpl in Hret. by injection Hret as <- <-.
      * by injection Hrun as <- <-.
Qed.

Lemma PatchShadersVk_default_signature_witness :
  @PatchShadersVk engine_constants failing_synthesis_collaborators
    CreateInfo_without_signatures example_state =
  Returned (false, example_state) ∧
  @SortResourceSignatures engine_constants [Some signature_A] =
  Returned (<[0%nat := Some signature_A]> (replicate 8 None), 1%nat) ∧
  @PatchShadersVk engine_constants example_collaborators
    CreateInfo_without_signatures example_state =
  Returned
    (true,
     {| m_Shaders :=
          m_Shaders example_state ++
          [{| Blob_DeviceType := Vulkan; Blob_ShaderType := SHADER_TYPE_VERTEX;
              Blob_Bytes := flat_map little_endian_bytes [119734787; 65536] |};
           {| Blob_DeviceType := Vulkan; Blob_ShaderType := SHADER_TYPE_PIXEL;
              Blob_Bytes := flat_map little_endian_bytes [119734787; 65537] |}];
        Data := set_PerDeviceData (Data example_state) Vulkan [1; 2];
        DefPRS := {| pPRS := Some signature_A |};
        Messages := [] |}) ∧
  (∀ result st',
      @PatchShadersVk engine_constants example_collaborators
        example_CreateInfo example_state = Returned (result, st') →
      DefPRS st' = DefPRS example_state).
Proof.
  split; [|split; [|split]].
  - destruct (@PatchShadersVk_default_signature engine_constants
                failing_synthesis_collaborators CreateInfo_without_signatures
                example_state example_stages 3 eq_refl) as (Hfailed & _ & _).
    apply (Hfailed {| pPRS := None |}); reflexivity.
  - destruct (@PatchShadersVk_default_signature engine_constants
                example_collaborators CreateInfo_without_signatures
                example_state example_stages 3 eq_refl) as (_ & Hcreated & _).
    destruct (Hcreated {| pPRS := Some signature_A |} signature_A
                eq_refl eq_refl eq_refl eq_refl ltac:(simpl; lia))
      as (_ & _ & Hsorted & _).
    exact Hsorted.
  - destruct (@PatchShadersVk_default_signature engine_constants
                example_collaborators CreateInfo_without_signatures
                example_state example_stages 3 eq_refl) as (_ & Hcreated & _).
    destruct (Hcreated {| pPRS := Some signature_A |} signature_A
                eq_refl eq_refl eq_refl eq_refl ltac:(simpl; lia))
      as (_ & _ & _ & _ & Hrun).
    rewrite Hrun. reflexivity.
  - destruct (@PatchShadersVk_default_signature engine_constants
                example_collaborators example_CreateInfo
                example_state example_stages 3 eq_refl) as (_ & _ & Hcaller).
    destruct Hcaller as (_ & _ & _ & Hkept); [discriminate|]. exact Hkept.
Defined.

(** ** The Bytecode Archiver *)

(** What one call does: the index pushed is the first position of the blob
    in the resulting store, and the entries already stored keep their
    positions. *)
Lemma SerializeShaderBytecode_index (ShaderIndices : list nat) (DevType : DeviceType)
    (CI : ShaderCreateInfo) (Bytecode : list Z) (store : BlobStore) :
  ∃ index store',
    SerializeShaderBytecode ShaderIndices DevType CI Bytecode store =
    (ShaderIndices ++ [index], store') ∧
    store' !! index =
    Some {| Blob_DeviceType := DevType; Blob_ShaderType := Desc_ShaderType CI;
            Blob_Bytes := Bytecode |} ∧
    (∀ j, (j < index)%nat →
          store' !! j ≠
          Some {| Blob_DeviceType := DevType; Blob_ShaderType := Desc_ShaderType CI;
                  Blob_Bytes := Bytecode |}) ∧
    (∀ j blob, store !! j = Some blob → store' !! j = Some blob) ∧
    ({| Blob_DeviceType := DevType; Blob_ShaderType := Desc_ShaderType CI;
        Blob_Bytes := Bytecode |} ∈ store → store' = store).
Proof.
  unfold SerializeShaderBytecode.
  set (blob := {| Blob_DeviceType := DevType; Blob_ShaderType := Desc_ShaderType CI;
                  Blob_Bytes := Bytecode |}).
  destruct (list_find (λ stored, stored = blob) store) as [[index found]|] eqn:Hfind.
  - apply list_find_Some in Hfind as (Hlookup & -> & Hfirst).
    exists index, store. repeat split; try done.
    intros j Hj Hjblob. by apply (Hfirst j blob).
  - apply list_find_None in Hfind.
    exists (length store), (store ++ [blob]). split; [done|]. split; [|split; [|split]].
    + by rewrite lookup_app_r, Nat.sub_diag by lia.
    + intros j Hj Hjblob. rewrite lookup_app_l in Hjblob by done.
      apply list_elem_of_lookup_2 in Hjblob.
      apply list_elem_of_In in Hjblob.
      rewrite Forall_forall in Hfind. exact (Hfind blob Hjblob eq_refl).
    + intros j b Hb. rewrite lookup_app_l; [done|]. by eapply lookup_lt_Some.
    + intros Hin. apply list_elem_of_In in Hin.
      rewrite Forall_forall in Hfind. destruct (Hfind blob Hin eq_refl).
Qed.

(** C8.  Archiving a blob a second time gives the index of the first time
    and leaves the store as the first call left it; a blob that differs in
    backend tag, stage kind or bytes gets another index, and both blobs are
    in the store at their indices. *)
Theorem SerializeShaderBytecode_deduplicates (ShaderIndices : list nat)
    (DevType : DeviceType) (CI : ShaderCreateInfo) (Bytecode : list Z)
    (store : BlobStore) :
  ∃ index store1,
    SerializeShaderBytecode ShaderIndices DevType CI Bytecode store =
    (ShaderIndices ++ [index], store1) ∧
    SerializeShaderBytecode (ShaderIndices ++ [index]) DevType CI Bytecode store1 =
    ((ShaderIndices ++ [index]) ++ [index], store1) ∧
    ∀ DevType' CI' Bytecode',
      (DevType', Desc_ShaderType CI', Bytecode') ≠ (DevType, Desc_ShaderType CI, Bytecode) →
      ∃ index' store2,
        SerializeShaderBytecode (ShaderIndices ++ [index]) DevType' CI' Bytecode' store1 =
        ((ShaderIndices ++ [index]) ++ [index'], store2) ∧
        index' ≠ index ∧
        store2 !! index =
        Some {| Blob_DeviceType := DevType; Blob_ShaderType := Desc_ShaderType CI;
                Blob_Bytes := Bytecode |} ∧
        store2 !! index' =
        Some {| Blob_DeviceType := DevType'; Blob_ShaderType := Desc_ShaderType CI';
                Blob_Bytes := Bytecode' |}.
Proof.
  destruct (SerializeShaderBytecode_index ShaderIndices DevType CI Bytecode store)
    as (index & store1 & Hfirst & Hat & Hmin & _ & _).
  exists index, store1. split; [exact Hfirst|]. split.
  - destruct (SerializeShaderBytecode_index (ShaderIndices ++ [index]) DevType CI
                Bytecode store1) as (index2 & store2 & Hsecond & Hat2 & Hmin2 & Hkeep & Hsame).
    rewrite Hsecond.
    assert (store2 = store1) as -> by (apply Hsame; by eapply list_elem_of_lookup_2).
    assert (index2 = index) as ->; [|done].
    destruct (Nat.lt_trichotomy index2 index) as [Hlt|[Heq|Hgt]]; [|done|].
    + by destruct (Hmin index2 Hlt).
    + by destruct (Hmin2 index Hgt).
  - intros DevType' CI' Bytecode' Hdiff.
    destruct (SerializeShaderBytecode_index (ShaderIndices ++ [index]) DevType' CI'
                Bytecode' store1) as (index' & store2 & Hother & Hat' & _ & Hkeep & _).
    exists index', store2. split; [exact Hother|].
    pose proof (Hkeep _ _ Hat) as Hstill.
    split; [|by split].
    intros ->. rewrite Hstill in Hat'. injection Hat' as -> Htype ->.
    apply Hdiff. by rewrite Htype.
Qed.

Lemma SerializeShaderBytecode_deduplicates_witness :
  SerializeShaderBytecode [] Vulkan {| Desc_ShaderType := 1 |} [3; 2; 35; 7]
    (m_Shaders example_state) =
  ([1%nat],
   [{| Blob_DeviceType := Vulkan; Blob_ShaderType := 32; Blob_Bytes := [3; 2; 35; 7] |};
    {| Blob_DeviceType := Vulkan; Blob_ShaderType := 1; Blob_Bytes := [3; 2; 35; 7] |}]) ∧
  ∃ index' store2,
    SerializeShaderBytecode [1%nat] Vulkan {| Desc_ShaderType := 32 |} [3; 2; 35; 7]
      [{| Blob_DeviceType := Vulkan; Blob_ShaderType := 32; Blob_Bytes := [3; 2; 35; 7] |};
       {| Blob_DeviceType := Vulkan; Blob_ShaderType := 1; Blob_Bytes := [3; 2; 35; 7] |}] =
    ([1%nat; index'], store2) ∧ index' ≠ 1%nat.
Proof.
  split; [reflexivity|].
  destruct (SerializeShaderBytecode_deduplicates [] Vulkan {| Desc_ShaderType := 1 |}
              [3; 2; 35; 7] (m_Shaders example_state))
    as (index & store1 & Hfirst & _ & Hdistinct).
  injection Hfirst as <- <-.
  destruct (Hdistinct Vulkan {| Desc_ShaderType := 32 |} [3; 2; 35; 7])
    as (index' & store2 & Hother & Hne & _); [discriminate|].
  exists index', store2. split; [exact Hother | exact Hne].
Defined.

(** ** Mapping a staging buffer *)

(** C10.  [BufferWebGPUImpl::Map] stores the address of the staging memory
    in [pMappedData] and records the map state, [Read] for [MAP_READ] and
    [Write] for [MAP_WRITE], and does so for no other map type; a state
    recorded makes the next [Map] report the buffer as mapped already.  For
    [MAP_READ_WRITE] it logs an error, leaves [pMappedData] as the caller
    passed it and leaves the buffer as it was; a buffer that was not mapped
    is still not mapped, and the next call of [Map] does not report it as
    mapped already. *)
Theorem Map_read_write_leaves_buffer_unmapped
    (this : BufferWebGPU.BufferWebGPUImpl) (MapFlags : Z)
    (pMappedData : BufferWebGPU.PVoid) :
  BufferWebGPU.Map this BufferWebGPU.MAP_READ MapFlags pMappedData =
  ({| BufferWebGPU.Desc_Usage := BufferWebGPU.Desc_Usage this;
      BufferWebGPU.m_MapState := BufferWebGPU.MapState_Read;
      BufferWebGPU.m_MappedData := BufferWebGPU.m_MappedData this;
      BufferWebGPU.MappedData_data := BufferWebGPU.MappedData_data this |},
   BufferWebGPU.MappedData_data this,
   BufferWebGPU.VERIFY (BufferWebGPU.is_staging (BufferWebGPU.Desc_Usage this))
     "Map working only for staging buffers" ++
   BufferWebGPU.VERIFY (BufferWebGPU.is_unmapped (BufferWebGPU.m_MapState this))
     "Buffer is already mapped") ∧
  BufferWebGPU.Map this BufferWebGPU.MAP_WRITE MapFlags pMappedData =
  ({| BufferWebGPU.Desc_Usage := BufferWebGPU.Desc_Usage this;
      BufferWebGPU.m_MapState := BufferWebGPU.MapState_Write;
      BufferWebGPU.m_MappedData := BufferWebGPU.m_MappedData this;
      BufferWebGPU.MappedData_data := BufferWebGPU.MappedData_data this |},
   BufferWebGPU.MappedData_data this,
   BufferWebGPU.VERIFY (BufferWebGPU.is_staging (BufferWebGPU.Desc_Usage this))
     "Map working only for staging buffers" ++
   BufferWebGPU.VERIFY (BufferWebGPU.is_unmapped (BufferWebGPU.m_MapState this))
     "Buffer is already mapped") ∧
  (∀ MapType MapType' MapFlags' pMappedData',
      MapType = BufferWebGPU.MAP_READ ∨ MapType = BufferWebGPU.MAP_WRITE →
      BufferWebGPU.m_MapState
        (fst (fst (BufferWebGPU.Map this MapType MapFlags pMappedData))) ≠
      BufferWebGPU.MapState_None ∧
      AssertionFailed "Buffer is already mapped" ∈
      snd (BufferWebGPU.Map
             (fst (fst (BufferWebGPU.Map this MapType MapFlags pMappedData)))
             MapType' MapFlags' pMappedData')) ∧
  (∀ MapType,
      MapType ≠ BufferWebGPU.MAP_READ → MapType ≠ BufferWebGPU.MAP_WRITE →
      ∃ diagnostics,
        BufferWebGPU.Map this MapType MapFlags pMappedData =
        (this, pMappedData, diagnostics)) ∧
  BufferWebGPU.Map this BufferWebGPU.MAP_READ_WRITE MapFlags pMappedData =
  (this, pMappedData,
   (BufferWebGPU.VERIFY (BufferWebGPU.is_staging (BufferWebGPU.Desc_Usage this))
      "Map working only for staging buffers" ++
    BufferWebGPU.VERIFY (BufferWebGPU.is_unmapped (BufferWebGPU.m_MapState this))
      "Buffer is already mapped") ++
   [ErrorMessage "MAP_READ_WRITE is not supported in WebGPU backend"]) ∧
  (BufferWebGPU.m_MapState this = BufferWebGPU.MapState_None →
   BufferWebGPU.m_MapState
     (fst (fst (BufferWebGPU.Map this BufferWebGPU.MAP_READ_WRITE
                  MapFlags pMappedData))) = BufferWebGPU.MapState_None ∧
   ∀ MapType' MapFlags' pMappedData',
     AssertionFailed "Buffer is already mapped" ∉
     snd (BufferWebGPU.Map
            (fst (fst (BufferWebGPU.Map this BufferWebGPU.MAP_READ_WRITE
                         MapFlags pMappedData)))
            MapType' MapFlags' pMappedData')).
Proof.
  split; [reflexivity|]. split; [reflexivity|]. split; [|split; [|split; [reflexivity|]]].
  - intros MapType MapType' MapFlags' pMappedData' [-> | ->];
      (split; [discriminate|]);
      unfold BufferWebGPU.Map; simpl;
      destruct (BufferWebGPU.is_staging (BufferWebGPU.Desc_Usage this)), MapType';
      simpl; rewrite ?elem_of_cons; tauto.
  - intros [| | |v] Hread Hwrite; try done; by eexists.
  - intros Hunmapped. split; [exact Hunmapped|].
    intros MapType' MapFlags' pMappedData'. simpl.
    unfold BufferWebGPU.Map. rewrite Hunmapped. simpl.
    destruct (BufferWebGPU.is_staging (BufferWebGPU.Desc_Usage this)), MapType'; simpl;
      rewrite ?elem_of_cons, elem_of_nil; intros Hin;
      repeat (destruct Hin as [Hin|Hin]; [discriminate|]); exact Hin.
Qed.

Lemma Map_read_write_leaves_buffer_unmapped_witness :
  BufferWebGPU.m_MapState
    (fst (fst (BufferWebGPU.Map example_buffer BufferWebGPU.MAP_READ 0 0))) =
  BufferWebGPU.MapState_Read ∧
  AssertionFailed "Buffer is already mapped" ∈
  snd (BufferWebGPU.Map
         (fst (fst (BufferWebGPU.Map example_buffer BufferWebGPU.MAP_READ 0 0)))
         BufferWebGPU.MAP_WRITE 0 0) ∧
  snd (BufferWebGPU.Map
         (fst (fst (BufferWebGPU.Map example_buffer BufferWebGPU.MAP_READ_WRITE 0 0)))
         BufferWebGPU.MAP_READ 0 0) = [] ∧
  AssertionFailed "Buffer is already mapped" ∉
  snd (BufferWebGPU.Map
         (fst (fst (BufferWebGPU.Map example_buffer BufferWebGPU.MAP_READ_WRITE 0 0)))
         BufferWebGPU.MAP_READ 0 0).
Proof.
  destruct (Map_read_write_leaves_buffer_unmapped example_buffer 0 0)
    as (Hread & _ & Hrecorded & _ & _ & Hnext).
  split; [by rewrite Hread|].
  split; [apply (Hrecorded BufferWebGPU.MAP_READ); by left|].
  split; [reflexivity|].
  apply (Hnext eq_refl).
Defined.

(** * Further properties of the two source files *)

(** ** The loops and the slots they skip *)

(** A counted loop over [a + b] indices is the loop over the first [a]
    followed by the loop over the next [b]. *)
Lemma for_each_index_app {St : Type} (body : nat → St → Outcome St) (a b : nat) :
  ∀ (i : nat) (s : St),
    for_each_index body i (a + b) s =
    for_each_index body i a s ≫= for_each_index body (i + a)%nat b.
Proof.
  induction a as [|a IH]; intros i s.
  - simpl. by rewrite Nat.add_0_r.
  - change (for_each_index body i (S a + b) s)
      with (body i s ≫= for_each_index body (S i) (a + b)).
    change (for_each_index body i (S a) s)
      with (body i s ≫= for_each_index body (S i) a).
    destruct (body i s) as [s'| |]; try reflexivity.
    change (for_each_index body (S i) (a + b) s' =
            for_each_index body (S i) a s' ≫= for_each_index body (i + S a)%nat b).
    rewrite IH. by replace (S i + a)%nat with (i + S a)%nat by lia.
Qed.

(** A loop whose body returns its state unchanged on a range does nothing
    on that range. *)
Lemma for_each_index_skip {St : Type} (body : nat → St → Outcome St) (count : nat) :
  ∀ (i : nat) (s : St),
    (∀ k, (i ≤ k < i + count)%nat → body k s = Returned s) →
    for_each_index body i count s = Returned s.
Proof.
  induction count as [|count IH]; intros i s Hskip; [done|].
  simpl. rewrite (Hskip i) by lia. simpl. apply IH. intros k Hk. apply Hskip. lia.
Qed.

(** X1.  Empty slots at the end of the range change nothing: with only
    empty slots from [n1] up to [n2], the assignment loop of
    [PatchShadersVk] and the loop of [GetPipelineResourceBindingsVk] give
    for the count [n2] what they give for [n1]. *)
Theorem loops_ignore_trailing_empty_slots `{EngineConstants}
    (Signatures : SignatureArray) (n1 n2 : nat) (ShaderStagesFilter : Z)
    (st : ReporterState) :
  (n1 ≤ n2)%nat →
  (∀ i, (n1 ≤ i < n2)%nat → Signatures !! i = Some None) →
  PatchShadersVk_layout Signatures n2 = PatchShadersVk_layout Signatures n1 ∧
  for_each_index (GetPipelineResourceBindingsVk_slot Signatures ShaderStagesFilter) 0 n2 st =
  for_each_index (GetPipelineResourceBindingsVk_slot Signatures ShaderStagesFilter) 0 n1 st.
Proof.
  intros Hle Hempty. replace n2 with (n1 + (n2 - n1))%nat by lia. split.
  - unfold PatchShadersVk_layout. rewrite for_each_index_app. simpl.
    destruct (for_each_index (PatchShadersVk_slot Signatures) 0 n1 LayoutState_init)
      as [st1| |]; try reflexivity.
    simpl. rewrite for_each_index_skip; [done|].
    intros k Hk. unfold PatchShadersVk_slot. by rewrite Hempty by lia.
  - rewrite for_each_index_app. simpl.
    destruct (for_each_index _ 0 n1 st) as [st1| |]; try reflexivity.
    simpl. apply for_each_index_skip.
    intros k Hk. unfold GetPipelineResourceBindingsVk_slot. by rewrite Hempty by lia.
Qed.

Lemma loops_ignore_trailing_empty_slots_witness :
  @PatchShadersVk_layout engine_constants example_slots 8 =
  @PatchShadersVk_layout engine_constants example_slots 4.
Proof.
  apply (@loops_ignore_trailing_empty_slots engine_constants example_slots 4 8 0
           {| ResourceBindings := []; Reporter_DescSetLayoutCount := 0 |}).
  - lia.
  - intros i Hi.
    destruct i as [|[|[|[|[|[|[|[|i]]]]]]]]; try lia; reflexivity.
Defined.

Lemma sets_before_mono (Signatures : SignatureArray) (i j : nat) :
  (i ≤ j)%nat → (j ≤ length Signatures)%nat →
  sets_before Signatures i ≤ sets_before Signatures j.
Proof.
  intros Hij Hj. induction j as [|j IH].
  - replace i with 0%nat by lia. lia.
  - destruct (decide (i = S j)) as [->|Hne]; [lia|].
    destruct (lookup_lt_is_Some_2 Signatures j) as [slot Hslot]; [lia|].
    rewrite (sets_before_S _ _ _ Hslot).
    pose proof (slot_set_count_range slot). specialize (IH ltac:(lia) ltac:(lia)). lia.
Qed.

(** X2.  The descriptor sets of two groups do not overlap: for present
    groups [i < j], the sets of group [i], numbered from its table entry,
    end at or before the table entry of group [j]. *)
Theorem group_descriptor_sets_do_not_overlap `{EngineConstants}
    (Signatures : SignatureArray) (n : nat) (layout : LayoutState)
    (i j : nat) (si sj : PipelineResourceSignatureVkImpl) :
  counters_fit →
  length Signatures = MAX_RESOURCE_SIGNATURES →
  (n ≤ MAX_RESOURCE_SIGNATURES)%nat →
  PatchShadersVk_layout Signatures n = Returned layout →
  (i < j)%nat → (j < n)%nat →
  Signatures !! i = Some (Some si) →
  Signatures !! j = Some (Some sj) →
  ∃ base_i base_j,
    BindIndexToDescSetIndex layout !! i = Some base_i ∧
    BindIndexToDescSetIndex layout !! j = Some base_j ∧
    0 ≤ base_i ∧
    base_i + descriptor_set_count si ≤ base_j ∧
    base_j + descriptor_set_count sj ≤ DescSetLayoutCount layout.
Proof.
  intros Hfit Hlen Hn Hlayout Hij Hj Hi_present Hj_present.
  destruct (layout_loop_closed_form Signatures n Hlen Hn)
    as (st & Hrun & Hcount & _ & Hpresent & _ & _).
  unfold PatchShadersVk_layout in Hlayout. rewrite Hrun in Hlayout.
  simpl in Hlayout. injection Hlayout as <-. simpl.
  exists (sets_before Signatures i), (sets_before Signatures j).
  rewrite (Hpresent i si) by (done || lia). rewrite (Hpresent j sj) by done.
  rewrite !StaticCast_sets_before by (done || lia).
  split; [done|]. split; [done|].
  pose proof (sets_before_range Signatures i ltac:(lia)).
  pose proof (sets_before_range Signatures n ltac:(lia)).
  pose proof (sets_before_S _ _ _ Hi_present) as HSi.
  pose proof (sets_before_S _ _ _ Hj_present) as HSj. simpl in HSi, HSj.
  pose proof (sets_before_mono Signatures (S i) j ltac:(lia) ltac:(lia)).
  pose proof (sets_before_mono Signatures (S j) n ltac:(lia) ltac:(lia)).
  rewrite Hcount, (Z.mod_small _ Uint32_modulus) by (destruct Hfit; lia).
  lia.
Qed.

Lemma group_descriptor_sets_do_not_overlap_witness :
  ∃ base_i base_j,
    [0; 1; 0; 2; 0; 0; 0; 0] !! 1%nat = Some base_i ∧
    [0; 1; 0; 2; 0; 0; 0; 0] !! 3%nat = Some base_j ∧
    0 ≤ base_i ∧
    base_i + descriptor_set_count signature_B ≤ base_j ∧
    base_j + descriptor_set_count signature_C ≤ 4.
Proof.
  assert (@counters_fit engine_constants) as Hfit by (split; reflexivity).
  apply (@group_descriptor_sets_do_not_overlap engine_constants example_slots 4
           {| BindIndexToDescSetIndex := [0; 1; 0; 2; 0; 0; 0; 0];
              DescSetLayoutCount := 4; LayoutDiagnostics := [] |}
           1 3 signature_B signature_C Hfit);
    try reflexivity; simpl; lia.
Defined.

(** ** The assertions on the counter *)

(** The number of descriptor sets in a whole list of slots. *)
Lemma sets_before_all (slots : SignatureArray) :
  sets_before slots (length slots) =
  foldr (λ slot total, slot_set_count slot + total) 0 slots.
Proof. unfold sets_before. by rewrite take_ge. Qed.

Lemma sets_before_all_insert (slots : SignatureArray) (i : nat)
    (s : PipelineResourceSignatureVkImpl) :
  slots !! i = Some None →
  sets_before (<[i := Some s]> slots) (length slots) =
  sets_before slots (length slots) + descriptor_set_count s.
Proof.
  intros Hi. rewrite <- (length_insert slots i (Some s)) at 1.
  rewrite !sets_before_all. revert i Hi.
  induction slots as [|slot slots IH]; intros i Hi; [done|].
  destruct i as [|i]; simpl in *.
  - injection Hi as ->. simpl. lia.
  - rewrite (IH i Hi). lia.
Qed.

Lemma sets_before_empty_tail (Signatures : SignatureArray) (n m : nat) :
  (n ≤ m)%nat →
  (∀ i, (n ≤ i < m)%nat → Signatures !! i = Some None) →
  sets_before Signatures m = sets_before Signatures n.
Proof.
  intros Hnm Hempty. induction m as [|m IH].
  - by replace n with 0%nat by lia.
  - destruct (decide (n = S m)) as [->|Hne]; [done|].
    rewrite (sets_before_S _ _ None) by (apply Hempty; lia).
    simpl. rewrite IH; [lia|lia|]. intros i Hi. apply Hempty. lia.
Qed.

Section SorterTotals.
Context `{EngineConstants}.

(** Sorting keeps the descriptor sets: those of the slot array are those
    it started with and those of the signatures of the list. *)
Lemma SortResourceSignatures_from_sets
    (ppSrcSignatures : list (option PipelineResourceSignatureVkImpl)) :
  ∀ (Sorted Signatures : SignatureArray) (count n : nat),
    length Sorted = MAX_RESOURCE_SIGNATURES →
    SortResourceSignatures_from ppSrcSignatures Sorted count = Returned (Signatures, n) →
    sets_before Signatures (length Signatures) =
    sets_before Sorted (length Sorted) +
    sets_before ppSrcSignatures (length ppSrcSignatures).
Proof.
  induction ppSrcSignatures as [|[h|] rest IH]; intros Sorted Signatures count n Hlen Hrun.
  - simpl in Hrun. injection Hrun as <- <-. rewrite (sets_before_all []). simpl. lia.
  - simpl in Hrun.
    destruct (Nat.leb_spec MAX_RESOURCE_SIGNATURES (Desc_BindingIndex h)) as [|Hrange];
      [discriminate|].
    destruct (lookup_lt_is_Some_2 Sorted (Desc_BindingIndex h)) as [slot Hslot]; [lia|].
    rewrite Hslot in Hrun. destruct slot as [?|]; [discriminate|].
    apply IH in Hrun; [|by rewrite length_insert].
    rewrite Hrun, length_insert, (sets_before_all_insert _ _ _ Hslot).
    rewrite (sets_before_all (Some h :: rest)), (sets_before_all rest). simpl. lia.
  - simpl in Hrun. apply IH in Hrun; [|done].
    rewrite Hrun, (sets_before_all (None :: rest)), (sets_before_all rest). simpl. lia.
Qed.

(** The counter counts the descriptor sets of the whole list. *)
Lemma SortResourceSignatures_sets
    (ppSrcSignatures : list (option PipelineResourceSignatureVkImpl))
    (Signatures : SignatureArray) (n : nat) :
  SortResourceSignatures ppSrcSignatures = Returned (Signatures, n) →
  sets_before Signatures n = sets_before ppSrcSignatures (length ppSrcSignatures).
Proof.
  intros Hsorted. pose proof Hsorted as Hfacts. unfold SortResourceSignatures in *.
  apply SortResourceSignatures_from_Returned in Hfacts
    as (Hlen & _ & _ & Hfrom & _ & Hbelow & Hmax & Hrange); [|apply length_replicate].
  apply SortResourceSignatures_from_sets in Hsorted; [|apply length_replicate].
  assert (n ≤ MAX_RESOURCE_SIGNATURES)%nat as Hn.
  { destruct Hmax as [->|(s & Hin & ->)]; [lia|]. specialize (Hrange s Hin). lia. }
  rewrite <- (sets_before_empty_tail Signatures n (length Signatures)).
  - rewrite Hsorted, sets_before_all.
    assert (∀ m, foldr (λ slot total, slot_set_count slot + total) 0
                   (replicate m (@None PipelineResourceSignatureVkImpl)) = 0) as Hnone.
    { intros m. induction m as [|m IHm]; simpl; [done|]. by rewrite IHm. }
    rewrite Hnone. lia.
  - lia.
  - intros i Hi.
    destruct (lookup_lt_is_Some_2 Signatures i) as [[s|] Hslot]; [lia| |done].
    destruct (Hfrom i s Hslot) as [[Hs _]%lookup_replicate|[Hin Hidx]]; [discriminate|].
    specialize (Hbelow s Hin). lia.
Qed.

End SorterTotals.

(** X4.  The assertion [DescSetLayoutCount >= Info.ResourceSignaturesCount]
    holds for a list without null entries in which every signature has at
    least one descriptor set: then no assertion of
    [GetPipelineResourceBindingsVk] fails. *)
Theorem reporter_lower_bound_holds_when_every_signature_has_a_set `{EngineConstants}
    (Info : PipelineResourceBindingAttribs)
    (ResourceBindings0 : list PipelineResourceBinding)
    (result : ReporterResult) :
  2 * Z.of_nat MAX_RESOURCE_SIGNATURES < Uint32_modulus →
  (∀ entry, entry ∈ ppResourceSignatures Info →
            ∃ s, entry = Some s ∧ 1 ≤ descriptor_set_count s) →
  GetPipelineResourceBindingsVk Info ResourceBindings0 = Returned result →
  Z.of_nat (ResourceSignaturesCount Info) ≤ Result_DescSetLayoutCount result ∧
  Result_Diagnostics result = [].
Proof.
  intros Hfit Hsets Hrun. unfold GetPipelineResourceBindingsVk in Hrun.
  destruct (SortResourceSignatures (ppResourceSignatures Info))
    as [[Signatures n]| |] eqn:Hsorted; try discriminate.
  simpl in Hrun.
  pose proof Hsorted as Hfacts. unfold SortResourceSignatures in Hfacts.
  apply SortResourceSignatures_from_Returned in Hfacts
    as (Hlen & _ & _ & _ & _ & _ & Hmax & Hrange); [|apply length_replicate].
  assert (n ≤ MAX_RESOURCE_SIGNATURES)%nat as Hn.
  { destruct Hmax as [->|(s & Hin & ->)]; [lia|]. specialize (Hrange s Hin). lia. }
  rewrite reporter_loop_closed_form in Hrun by lia. simpl in Hrun.
  pose proof (sets_before_range Signatures n ltac:(lia)) as Hbound.
  rewrite (Z.mod_small _ Uint32_modulus) in Hrun by lia.
  assert (Z.of_nat (ResourceSignaturesCount Info) ≤ sets_before Signatures n) as Hlower.
  { rewrite (SortResourceSignatures_sets _ _ _ Hsorted), sets_before_all.
    unfold ResourceSignaturesCount. clear Hsorted Hrun Hmax Hrange.
    revert Hsets. generalize (ppResourceSignatures Info). intros entries.
    induction entries as [|entry rest IH]; intros Hsets; [simpl; lia|].
    destruct (Hsets entry) as (s & -> & Hs); [apply list_elem_of_here|].
    simpl foldr. simpl slot_set_count. rewrite length_cons, Nat2Z.inj_succ.
    assert (Z.of_nat (length rest) ≤
            foldr (λ slot total, slot_set_count slot + total) 0 rest); [|lia].
    apply IH. intros e He. apply Hsets. by apply list_elem_of_further. }
  injection Hrun as <-. simpl. split; [done|].
  replace (sets_before Signatures n <=? Z.of_nat MAX_RESOURCE_SIGNATURES * 2) with true
    by (symmetry; apply Z.leb_le; lia).
  replace (Z.of_nat (ResourceSignaturesCount Info) <=? sets_before Signatures n) with true
    by (symmetry; by apply Z.leb_le).
  reflexivity.
Qed.

Lemma reporter_lower_bound_holds_when_every_signature_has_a_set_witness :
  ∃ result,
    @GetPipelineResourceBindingsVk engine_constants
      {| ppResourceSignatures := [Some signature_C; Some signature_A];
         Info_ShaderStages := 0 |} [] = Returned result ∧
    2 ≤ Result_DescSetLayoutCount result ∧
    Result_Diagnostics result = [].
Proof.
  eexists. split; [reflexivity|].
  apply (@reporter_lower_bound_holds_when_every_signature_has_a_set engine_constants
           {| ppResourceSignatures := [Some signature_C; Some signature_A];
              Info_ShaderStages := 0 |} []).
  - reflexivity.
  - intros entry Hin.
    apply elem_of_cons in Hin as [->|Hin]; [exists signature_C; by split|].
    apply elem_of_cons in Hin as [->|Hin]; [exists signature_A; by split|].
    by apply elem_of_nil in Hin.
  - reflexivity.
Defined.

(** ** What the reporter reports *)

(** The members of the reported records. *)
Lemma elem_of_reported_bindings (Signatures : SignatureArray) (n : nat)
    (ShaderStagesFilter : Z) (b : PipelineResourceBinding) :
  b ∈ reported_bindings Signatures n ShaderStagesFilter ↔
  ∃ i pSignature ResDesc ResAttr,
    (i < n)%nat ∧
    Signatures !! i = Some (Some pSignature) ∧
    (ResDesc, ResAttr) ∈ Resources pSignature ∧
    Z.land (ShaderStages ResDesc) ShaderStagesFilter ≠ 0 ∧
    b = ResDescToPipelineResBinding ResDesc (ShaderStages ResDesc)
          (BindingIndex ResAttr)
          (Uint32_add (sets_before Signatures i mod Uint32_modulus) (DescrSet ResAttr)).
Proof.
  unfold reported_bindings. rewrite list_elem_of_In, in_flat_map. split.
  - intros (i & Hi%in_seq & Hb).
    destruct (Signatures !! i) as [[s|]|] eqn:Hs; try done.
    unfold signature_bindings in Hb.
    apply in_map_iff in Hb as ([d a] & <- & Hin).
    apply list_elem_of_In, list_elem_of_filter in Hin as [Hpass Hin].
    exists i, s, d, a. split; [lia|]. by repeat split.
  - intros (i & s & d & a & Hi & Hs & Hin & Hpass & ->).
    exists i. split; [apply in_seq; lia|]. rewrite Hs.
    unfold signature_bindings. apply in_map_iff. exists (d, a). split; [done|].
    apply list_elem_of_In, list_elem_of_filter. by split.
Qed.

(** The result of the reporter for a list that could be sorted. *)
Lemma GetPipelineResourceBindingsVk_Returned `{EngineConstants}
    (Info : PipelineResourceBindingAttribs)
    (ResourceBindings0 : list PipelineResourceBinding) (result : ReporterResult) :
  GetPipelineResourceBindingsVk Info ResourceBindings0 = Returned result →
  ∃ Signatures n,
    SortResourceSignatures (ppResourceSignatures Info) = Returned (Signatures, n) ∧
    length Signatures = MAX_RESOURCE_SIGNATURES ∧
    (n ≤ MAX_RESOURCE_SIGNATURES)%nat ∧
    (∀ i s, Signatures !! i = Some (Some s) → Some s ∈ ppResourceSignatures Info) ∧
    Result_ResourceBindings result =
    ResourceBindings0 ++ reported_bindings Signatures n (effective_ShaderStages Info) ∧
    Result_DescSetLayoutCount result = sets_before Signatures n mod Uint32_modulus.
Proof.
  intros Hrun. unfold GetPipelineResourceBindingsVk in Hrun.
  destruct (SortResourceSignatures (ppResourceSignatures Info))
    as [[Signatures n]| |] eqn:Hsorted; try discriminate.
  simpl in Hrun.
  pose proof Hsorted as Hfacts. unfold SortResourceSignatures in Hfacts.
  apply SortResourceSignatures_from_Returned in Hfacts
    as (Hlen & _ & _ & Hfrom & _ & _ & Hmax & Hrange); [|apply length_replicate].
  assert (n ≤ MAX_RESOURCE_SIGNATURES)%nat as Hn.
  { destruct Hmax as [->|(s & Hin & ->)]; [lia|]. specialize (Hrange s Hin). lia. }
  rewrite reporter_loop_closed_form in Hrun by lia. simpl in Hrun.
  injection Hrun as <-. simpl.
  exists Signatures, n. repeat split; try done.
  intros i s Hs. destruct (Hfrom i s Hs) as [[Hnone _]%lookup_replicate|[Hin _]];
    [discriminate|done].
Qed.

(** X5.  [GetPipelineResourceBindingsVk] keeps what the vector held and
    appends only records whose stage mask has a bit in common with the
    filter; so a resource with [ShaderStages == 0] is never reported, not
    even for [SHADER_TYPE_UNKNOWN].  For [SHADER_TYPE_UNKNOWN] and stage
    masks that are non-zero 32-bit values, no resource is left out. *)
Theorem reporter_drops_only_resources_outside_the_filter `{EngineConstants}
    (Info : PipelineResourceBindingAttribs)
    (ResourceBindings0 : list PipelineResourceBinding) (result : ReporterResult) :
  GetPipelineResourceBindingsVk Info ResourceBindings0 = Returned result →
  ∃ appended Signatures n,
    SortResourceSignatures (ppResourceSignatures Info) = Returned (Signatures, n) ∧
    Result_ResourceBindings result = ResourceBindings0 ++ appended ∧
    (∀ b, b ∈ appended →
          Z.land (Binding_ShaderStages b) (effective_ShaderStages Info) ≠ 0 ∧
          Binding_ShaderStages b ≠ 0) ∧
    (Info_ShaderStages Info = SHADER_TYPE_UNKNOWN →
     (∀ s ResDesc ResAttr,
         Some s ∈ ppResourceSignatures Info → (ResDesc, ResAttr) ∈ Resources s →
         0 < ShaderStages ResDesc < Uint32_modulus) →
     length appended =
     length (flat_map (λ i, match Signatures !! i with
                            | Some (Some s) => Resources s
                            | _ => []
                            end) (seq 0 n))).
Proof.
  intros Hrun.
  destruct (GetPipelineResourceBindingsVk_Returned _ _ _ Hrun)
    as (Signatures & n & Hsorted & Hlen & Hn & Hfrom & Hbindings & _).
  exists (reported_bindings Signatures n (effective_ShaderStages Info)), Signatures, n.
  split; [done|]. split; [done|]. split.
  - intros b (i & s & d & a & _ & _ & _ & Hpass & ->)%elem_of_reported_bindings.
    simpl. split; [done|]. intros Hzero. apply Hpass. by rewrite Hzero.
  - intros Hunknown Hmasks. unfold reported_bindings.
    rewrite !length_flat_map. f_equal. apply map_ext_in. intros i _.
    destruct (Signatures !! i) as [[s|]|] eqn:Hs; try done.
    unfold signature_bindings. rewrite length_map. f_equal.
    assert (∀ x, x ∈ Resources s →
                 (let '(ResDesc, _) := x in
                  Z.land (ShaderStages ResDesc) (effective_ShaderStages Info) ≠ 0))
      as Hall.
    { intros [d a] Hin. unfold effective_ShaderStages.
      rewrite Hunknown, Z.eqb_refl.
      specialize (Hmasks s d a (Hfrom i s Hs) Hin).
      change Uint32_all_ones with (Z.ones 32).
      rewrite Z.land_ones by lia. change (2 ^ 32) with Uint32_modulus.
      rewrite Z.mod_small by lia. lia. }
    revert Hall. generalize (Resources s). intros l Hall.
    induction l as [|x l IH]; [done|].
    rewrite filter_cons, decide_True by (apply Hall, list_elem_of_here).
    f_equal. apply IH. intros y Hy. apply Hall. by apply list_elem_of_further.
Qed.

Lemma reporter_drops_only_resources_outside_the_filter_witness :
  ∃ result appended,
    @GetPipelineResourceBindingsVk engine_constants
      {| ppResourceSignatures := [Some signature_A]; Info_ShaderStages := 0 |} [] =
    Returned result ∧
    Result_ResourceBindings result = appended ∧
    (∀ b, b ∈ appended → Binding_ShaderStages b ≠ 0) ∧
    length appended = 1%nat.
Proof.
  eexists.
  destruct (@reporter_drops_only_resources_outside_the_filter engine_constants
              {| ppResourceSignatures := [Some signature_A]; Info_ShaderStages := 0 |}
              [] _ eq_refl)
    as (appended & Signatures & n & Hsorted & Hbindings & Hpass & Hall).
  injection Hsorted as <- <-.
  exists appended. split; [reflexivity|]. split; [exact Hbindings|]. split.
  - intros b Hb. by apply Hpass.
  - rewrite Hall; [reflexivity | reflexivity |].
    intros s d a Hin Hres. simpl in Hin.
    apply elem_of_cons in Hin as [Hin|Hin]; [|by apply elem_of_nil in Hin].
    injection Hin as ->. simpl in Hres.
    apply elem_of_cons in Hres as [Hres|Hres]; [|by apply elem_of_nil in Hres].
    injection Hres as -> _. split; reflexivity.
Defined.

(** X6.  No record refers to a descriptor set that does not exist: when
    every resource's signature-relative set is one of the sets its
    signature has, every reported descriptor-set index is below the final
    [DescSetLayoutCount]. *)
Theorem reported_descriptor_sets_exist `{EngineConstants}
    (Info : PipelineResourceBindingAttribs)
    (ResourceBindings0 : list PipelineResourceBinding) (result : ReporterResult) :
  2 * Z.of_nat MAX_RESOURCE_SIGNATURES < Uint32_modulus →
  (∀ s ResDesc ResAttr,
      Some s ∈ ppResourceSignatures Info → (ResDesc, ResAttr) ∈ Resources s →
      0 ≤ DescrSet ResAttr < descriptor_set_count s) →
  GetPipelineResourceBindingsVk Info ResourceBindings0 = Returned result →
  ∃ appended,
    Result_ResourceBindings result = ResourceBindings0 ++ appended ∧
    ∀ b, b ∈ appended →
         0 ≤ Binding_DescriptorSet b < Result_DescSetLayoutCount result.
Proof.
  intros Hfit Hsets Hrun.
  destruct (GetPipelineResourceBindingsVk_Returned _ _ _ Hrun)
    as (Signatures & n & Hsorted & Hlen & Hn & Hfrom & Hbindings & Hcount).
  exists (reported_bindings Signatures n (effective_ShaderStages Info)).
  split; [done|].
  intros b (i & s & d & a & Hi & Hs & Hin & _ & ->)%elem_of_reported_bindings.
  simpl. rewrite Hcount.
  specialize (Hsets s d a (Hfrom i s Hs) Hin).
  pose proof (sets_before_range Signatures i ltac:(lia)).
  pose proof (sets_before_range Signatures n ltac:(lia)).
  pose proof (sets_before_S _ _ _ Hs) as HS. simpl in HS.
  pose proof (sets_before_mono Signatures (S i) n ltac:(lia) ltac:(lia)).
  unfold Uint32_add.
  rewrite (Z.mod_small (sets_before Signatures i)) by lia.
  rewrite (Z.mod_small (sets_before Signatures n)) by lia.
  rewrite Z.mod_small by lia. lia.
Qed.

Lemma reported_descriptor_sets_exist_witness :
  ∃ result appended,
    @GetPipelineResourceBindingsVk engine_constants
      {| ppResourceSignatures := [Some signature_A]; Info_ShaderStages := 0 |} [] =
    Returned result ∧
    Result_ResourceBindings result = appended ∧
    ∀ b, b ∈ appended → 0 ≤ Binding_DescriptorSet b < Result_DescSetLayoutCount result.
Proof.
  eexists.
  edestruct (@reported_descriptor_sets_exist engine_constants
               {| ppResourceSignatures := [Some signature_A]; Info_ShaderStages := 0 |}
               []) as (appended & Hbindings & Hbelow).
  - reflexivity.
  - intros s d a Hin Hres. simpl in Hin.
    apply elem_of_cons in Hin as [Hin|Hin]; [|by apply elem_of_nil in Hin].
    injection Hin as ->. simpl in Hres.
    apply elem_of_cons in Hres as [Hres|Hres]; [|by apply elem_of_nil in Hres].
    injection Hres as _ ->. split; [simpl; lia | reflexivity].
  - reflexivity.
  - exists appended. split; [reflexivity|]. split; [exact Hbindings | exact Hbelow].
Defined.

(** ** The serialization loops of [PatchShadersVk] *)

Section Serialization.
Context `{ArchiverCollaborators}.



End Serialization.



Section SerializationBounds.
Context `{ArchiverCollaborators}.

Lemma serialize_stage_shaders_Returned (ShaderStages : list ShaderStageInfoVk)
    (Stage : ShaderStageInfo) (j : nat) :
  ∀ (count i : nat) (acc r : list nat * BlobStore),
    for_each_index (serialize_stage_shader ShaderStages Stage j) i count acc = Returned r →
    count = 0%nat ∨
    ∃ Src, ShaderStages !! j = Some Src ∧
           (i + count ≤ length (Serializable Src))%nat ∧
           (i + count ≤ length (SPIRVs Stage))%nat.
Proof.
  induction count as [|count IH]; intros i acc r Hrun; [by left|]. right.
  cbn [for_each_index] in Hrun.
  apply Outcome_bind_Returned in Hrun as (acc' & Hstep & Hrest).
  unfold serialize_stage_shader in Hstep.
  destruct (ShaderStages !! j) as [Src|] eqn:HSrc; [|discriminate].
  destruct (Serializable Src !! i) as [pShader|] eqn:HpShader; [|discriminate].
  destruct (SPIRVs Stage !! i) as [SPIRV|] eqn:HSPIRV; [|discriminate].
  apply lookup_lt_Some in HpShader. apply lookup_lt_Some in HSPIRV.
  exists Src. split; [done|].
  destruct (IH _ _ _ Hrest) as [->|(Src' & HSrc' & Hser & Hspirv)]; [lia|].
  injection HSrc' as <-. lia.
Qed.

Lemma serialize_stages_Returned (ShaderStages : list ShaderStageInfoVk)
    (Remapped : list ShaderStageInfo) :
  ∀ (n i : nat) (acc r : list nat * BlobStore),
    for_each_index (serialize_stage ShaderStages Remapped) i n acc = Returned r →
    ∀ j Stage, (i ≤ j < i + n)%nat → Remapped !! j = Some Stage →
      Stage_Count Stage = 0%nat ∨
      ∃ Src, ShaderStages !! j = Some Src ∧
             (Stage_Count Stage ≤ length (Serializable Src))%nat ∧
             (Stage_Count Stage ≤ length (SPIRVs Stage))%nat.
Proof.
  induction n as [|n IH]; intros i acc r Hrun j Stage Hj HStage; [lia|].
  cbn [for_each_index] in Hrun.
  apply Outcome_bind_Returned in Hrun as (acc' & Hstep & Hrest).
  destruct (decide (j = i)) as [->|Hne].
  - unfold serialize_stage in Hstep. rewrite HStage in Hstep.
    by apply serialize_stage_shaders_Returned in Hstep.
  - apply (IH _ _ _ Hrest); [lia|done].
Qed.

End SerializationBounds.

(** X8.  [PatchShadersVk] reads [ShaderStages[j].Serializable[i]] and
    [Stage.SPIRVs[i]] for every [i < Stage.Count()] without a check: it can
    only return when every remapped stage with shaders has its stage of
    serializable shaders and as many serializable shaders and SPIR-V blobs
    as shaders. *)
Theorem PatchShadersVk_build_returns_only_within_bounds
    `{EngineConstants} `{ArchiverCollaborators}
    (ShaderStages : list ShaderStageInfoVk) (ShaderStagesVk : list ShaderStageInfo)
    (ppSignatures : list (option PipelineResourceSignatureVkImpl))
    (st : ArchiverState) (diags : list Diagnostic) (Remapped : list ShaderStageInfo)
    (result : bool * ArchiverState) :
  PatchShadersVk_try ppSignatures ShaderStagesVk = (diags, Returned Remapped) →
  PatchShadersVk_build ShaderStages ShaderStagesVk ppSignatures st = Returned result →
  ∀ j Stage, Remapped !! j = Some Stage →
    Stage_Count Stage = 0%nat ∨
    ∃ Src, ShaderStages !! j = Some Src ∧
           (Stage_Count Stage ≤ length (Serializable Src))%nat ∧
           (Stage_Count Stage ≤ length (SPIRVs Stage))%nat.
Proof.
  intros Htry Hrun j Stage HStage.
  unfold PatchShadersVk_build in Hrun. rewrite Htry in Hrun.
  apply Outcome_bind_Returned in Hrun as (acc & Hloop & _).
  apply (serialize_stages_Returned _ _ _ _ _ _ Hloop j Stage); [|done].
  apply lookup_lt_Some in HStage. lia.
Qed.

Lemma PatchShadersVk_build_returns_only_within_bounds_witness :
  ∃ Stage,
    map Base example_stages !! 0%nat = Some Stage ∧
    (Stage_Count Stage = 0%nat ∨
     ∃ Src, example_stages !! 0%nat = Some Src ∧
            (Stage_Count Stage ≤ length (Serializable Src))%nat ∧
            (Stage_Count Stage ≤ length (SPIRVs Stage))%nat).
Proof.
  eexists. split; [reflexivity|].
  eapply (@PatchShadersVk_build_returns_only_within_bounds engine_constants
            example_collaborators example_stages (map Base example_stages)
            example_signatures example_state [] (map Base example_stages) _
            eq_refl eq_refl 0%nat).
  reflexivity.
Defined.

(** ** Sequences of [Map] and [Unmap] *)

Lemma run_calls_cons (st : BufferCalls.CallerState) (c : BufferCalls.Call)
    (calls : list BufferCalls.Call) :
  BufferCalls.run_calls st (c :: calls) =
  BufferCalls.run_calls (BufferCalls.run_call st c) calls.
Proof. reflexivity. Qed.

(** X9.  Whatever calls of [Map] and [Unmap] are made, in whatever order
    and with whatever map types, the buffer's usage, its staging memory
    and the address of that memory stay as they were, and the pointer the
    caller holds is the one it had or the address of the staging memory. *)
Theorem Map_and_Unmap_keep_the_staging_memory (st : BufferCalls.CallerState)
    (calls : list BufferCalls.Call) :
  BufferWebGPU.Desc_Usage (BufferCalls.Buffer (BufferCalls.run_calls st calls)) =
  BufferWebGPU.Desc_Usage (BufferCalls.Buffer st) ∧
  BufferWebGPU.m_MappedData (BufferCalls.Buffer (BufferCalls.run_calls st calls)) =
  BufferWebGPU.m_MappedData (BufferCalls.Buffer st) ∧
  BufferWebGPU.MappedData_data (BufferCalls.Buffer (BufferCalls.run_calls st calls)) =
  BufferWebGPU.MappedData_data (BufferCalls.Buffer st) ∧
  (BufferCalls.pMappedData (BufferCalls.run_calls st calls) = BufferCalls.pMappedData st ∨
   BufferCalls.pMappedData (BufferCalls.run_calls st calls) =
   BufferWebGPU.MappedData_data (BufferCalls.Buffer st)).
Proof.
  revert st. induction calls as [|c calls IH]; intros st.
  - repeat split; try done. by left.
  - rewrite run_calls_cons.
    destruct (IH (BufferCalls.run_call st c)) as (Husage & Hdata & Haddr & Hptr).
    rewrite Husage, Hdata, Haddr.
    assert (BufferWebGPU.Desc_Usage (BufferCalls.Buffer (BufferCalls.run_call st c)) =
            BufferWebGPU.Desc_Usage (BufferCalls.Buffer st) ∧
            BufferWebGPU.m_MappedData (BufferCalls.Buffer (BufferCalls.run_call st c)) =
            BufferWebGPU.m_MappedData (BufferCalls.Buffer st) ∧
            BufferWebGPU.MappedData_data (BufferCalls.Buffer (BufferCalls.run_call st c)) =
            BufferWebGPU.MappedData_data (BufferCalls.Buffer st) ∧
            (BufferCalls.pMappedData (BufferCalls.run_call st c) =
             BufferCalls.pMappedData st ∨
             BufferCalls.pMappedData (BufferCalls.run_call st c) =
             BufferWebGPU.MappedData_data (BufferCalls.Buffer st)))
      as (Husage1 & Hdata1 & Haddr1 & Hptr1).
    { destruct c as [[| | |v] flags|MapType]; simpl; repeat split; try done;
        (by left) || (by right). }
    rewrite Haddr1 in Hptr. repeat split; try done.
    destruct Hptr as [Hsame | Hstaging]; [rewrite Hsame; exact Hptr1 | by right].
Qed.

(** The diagnostics of a sequence of calls are appended to the log. *)
Lemma run_calls_Log (calls : list BufferCalls.Call) :
  ∀ st : BufferCalls.CallerState,
    BufferWebGPU.Desc_Usage (BufferCalls.Buffer st) = BufferWebGPU.USAGE_STAGING →
    ∃ new,
      BufferCalls.Log (BufferCalls.run_calls st calls) = BufferCalls.Log st ++ new ∧
      (new = [] ↔
       follows_protocol
         (negb (BufferWebGPU.is_unmapped (BufferWebGPU.m_MapState (BufferCalls.Buffer st))))
         calls = true).
Proof.
  induction calls as [|c calls IH]; intros st Hstaging.
  - exists []. by rewrite app_nil_r.
  - rewrite run_calls_cons.
    destruct st as [[usage state data addr] p log]. simpl in Hstaging. subst usage.
    assert (∀ c' : BufferCalls.Call,
               ∃ new,
                 BufferCalls.Log
                   (BufferCalls.run_calls
                      (BufferCalls.run_call
                         {| BufferCalls.Buffer :=
                              {| BufferWebGPU.Desc_Usage := BufferWebGPU.USAGE_STAGING;
                                 BufferWebGPU.m_MapState := state;
                                 BufferWebGPU.m_MappedData := data;
                                 BufferWebGPU.MappedData_data := addr |};
                            BufferCalls.pMappedData := p; BufferCalls.Log := log |} c')
                      calls) =
                 BufferCalls.Log
                   (BufferCalls.run_call
                      {| BufferCalls.Buffer :=
                           {| BufferWebGPU.Desc_Usage := BufferWebGPU.USAGE_STAGING;
                              BufferWebGPU.m_MapState := state;
                              BufferWebGPU.m_MappedData := data;
                              BufferWebGPU.MappedData_data := addr |};
                         BufferCalls.pMappedData := p; BufferCalls.Log := log |} c')
                 ++ new ∧
                 (new = [] ↔
                  follows_protocol
                    (negb (BufferWebGPU.is_unmapped
                             (BufferWebGPU.m_MapState
                                (BufferCalls.Buffer
                                   (BufferCalls.run_call
                                      {| BufferCalls.Buffer :=
                                           {| BufferWebGPU.Desc_Usage :=
                                                BufferWebGPU.USAGE_STAGING;
                                              BufferWebGPU.m_MapState := state;
                                              BufferWebGPU.m_MappedData := data;
                                              BufferWebGPU.MappedData_data := addr |};
                                         BufferCalls.pMappedData := p;
                                         BufferCalls.Log := log |} c')))))
                    calls = true)) as Hrest.
    { intros c'. apply IH. by destruct c' as [[| | |v] flags|MapType]. }
    destruct (Hrest c) as (new & Hlog & Hnew). rewrite Hlog. clear Hrest Hlog IH.
    destruct c as [[| | |v] flags|MapType], state; simpl in *;
      rewrite <- ?app_assoc; eexists; (split; [reflexivity|]); simpl;
      (exact Hnew) || (split; discriminate).
Qed.

(** X10.  For a staging buffer, a sequence of [Map] and [Unmap] calls runs
    without any assertion failing and without any error logged exactly
    when it keeps to the protocol: every [Map] is [MAP_READ] or [MAP_WRITE]
    and finds the buffer unmapped, every [Unmap] finds it mapped.  A
    [MAP_READ_WRITE] anywhere, a second [Map] or an [Unmap] too many is
    always reported. *)
Theorem Map_and_Unmap_are_silent_exactly_on_the_protocol
    (st : BufferCalls.CallerState) (calls : list BufferCalls.Call) :
  BufferWebGPU.Desc_Usage (BufferCalls.Buffer st) = BufferWebGPU.USAGE_STAGING →
  BufferCalls.Log (BufferCalls.run_calls st calls) = BufferCalls.Log st ↔
  follows_protocol
    (negb (BufferWebGPU.is_unmapped (BufferWebGPU.m_MapState (BufferCalls.Buffer st))))
    calls = true.
Proof.
  intros Hstaging.
  destruct (run_calls_Log calls st Hstaging) as (new & -> & Hnew).
  rewrite <- Hnew. split.
  - intros Hsame. rewrite <- (app_nil_r (BufferCalls.Log st)) in Hsame at 2.
    by apply app_inv_head in Hsame.
  - intros ->. by rewrite app_nil_r.
Qed.

Lemma Map_and_Unmap_are_silent_exactly_on_the_protocol_witness :
  BufferCalls.Log
    (BufferCalls.run_calls
       {| BufferCalls.Buffer := example_buffer; BufferCalls.pMappedData := 0;
          BufferCalls.Log := [] |}
       [BufferCalls.CallMap BufferWebGPU.MAP_WRITE 0;
        BufferCalls.CallUnmap BufferWebGPU.MAP_WRITE;
        BufferCalls.CallMap BufferWebGPU.MAP_READ 0;
        BufferCalls.CallUnmap BufferWebGPU.MAP_READ]) = [].
Proof.
  apply (Map_and_Unmap_are_silent_exactly_on_the_protocol
           {| BufferCalls.Buffer := example_buffer; BufferCalls.pMappedData := 0;
              BufferCalls.Log := [] |}); reflexivity.
Defined.

(** ** The staging buffers *)

Section Staging.
Context `{StagingBuffers.WebGPUEnvironment}.

(** What the search of the read path finds. *)
Lemma find_unmapped_spec (device : StagingBuffers.DeviceState)
    (infos : list StagingBuffers.StagingBufferSyncInfo) :
  ∀ position : nat,
    match StagingBuffers.find_unmapped device infos position with
    | Returned (Some found) =>
        ∃ i BufferInfo buffer,
          found = (position + i)%nat ∧
          infos !! i = Some BufferInfo ∧
          StagingBuffers.wgpuBuffer BufferInfo = Some buffer ∧
          StagingBuffers.wgpuBufferGetMapState_is_Unmapped device buffer = true ∧
          ∀ j earlier, (j < i)%nat → infos !! j = Some earlier →
            ∃ b, StagingBuffers.wgpuBuffer earlier = Some b ∧
                 StagingBuffers.wgpuBufferGetMapState_is_Unmapped device b = false
    | Returned None =>
        ∀ j BufferInfo, infos !! j = Some BufferInfo →
          ∃ b, StagingBuffers.wgpuBuffer BufferInfo = Some b ∧
               StagingBuffers.wgpuBufferGetMapState_is_Unmapped device b = false
    | Thrown _ => False
    | Undefined =>
        ∃ j BufferInfo, infos !! j = Some BufferInfo ∧
                        StagingBuffers.wgpuBuffer BufferInfo = None
    end.
Proof.
  induction infos as [|BufferInfo rest IH]; intros position; simpl.
  - intros j x Hj. discriminate.
  - destruct (StagingBuffers.wgpuBuffer BufferInfo) as [buffer|] eqn:Hbuffer.
    + destruct (StagingBuffers.wgpuBufferGetMapState_is_Unmapped device buffer) eqn:Hstate.
      * exists 0%nat, BufferInfo, buffer. rewrite Nat.add_0_r.
        repeat split; try done. intros j earlier Hj. lia.
      * specialize (IH (S position)).
        destruct (StagingBuffers.find_unmapped device rest (S position))
          as [[found|]| |].
        -- destruct IH as (i & info & b & -> & Hi & Hb & Hunmapped & Hearlier).
           exists (S i), info, b. split; [lia|]. repeat split; try done.
           intros [|j] earlier Hj Hlookup; simpl in Hlookup.
           ++ injection Hlookup as <-. eauto.
           ++ apply (Hearlier j); [lia|done].
        -- intros [|j] x Hlookup; simpl in Hlookup.
           ++ injection Hlookup as <-. eauto.
           ++ by apply (IH j).
        -- done.
        -- destruct IH as (j & x & Hj & Hnull). by exists (S j), x.
    + exists 0%nat, BufferInfo. by split.
Qed.

(** The search hands out the first unmapped buffer when the buffers before
    it are mapped. *)
Lemma find_unmapped_first (device : StagingBuffers.DeviceState)
    (infos : list StagingBuffers.StagingBufferSyncInfo) :
  ∀ (start position : nat) BufferInfo buffer,
    infos !! position = Some BufferInfo →
    StagingBuffers.wgpuBuffer BufferInfo = Some buffer →
    StagingBuffers.wgpuBufferGetMapState_is_Unmapped device buffer = true →
    (∀ j earlier, (j < position)%nat → infos !! j = Some earlier →
       ∃ b, StagingBuffers.wgpuBuffer earlier = Some b ∧
            StagingBuffers.wgpuBufferGetMapState_is_Unmapped device b = false) →
    StagingBuffers.find_unmapped device infos start =
    Returned (Some (start + position)%nat).
Proof.
  induction infos as [|head rest IH];
    intros start position BufferInfo buffer Hlookup Hbuffer Hstate Hearlier.
  - discriminate.
  - destruct position as [|position]; simpl in Hlookup; simpl.
    + injection Hlookup as ->. by rewrite Hbuffer, Hstate, Nat.add_0_r.
    + destruct (Hearlier 0%nat head ltac:(lia) eq_refl) as (b & -> & ->).
      rewrite (IH (S start) position BufferInfo buffer Hlookup Hbuffer Hstate).
      * do 2 f_equal. lia.
      * intros j earlier Hj Hj_lookup. apply (Hearlier (S j)); [lia|done].
Qed.

(** The search finds nothing when every buffer is mapped. *)
Lemma find_unmapped_none (device : StagingBuffers.DeviceState)
    (infos : list StagingBuffers.StagingBufferSyncInfo) :
  ∀ start : nat,
    (∀ j BufferInfo, infos !! j = Some BufferInfo →
       ∃ b, StagingBuffers.wgpuBuffer BufferInfo = Some b ∧
            StagingBuffers.wgpuBufferGetMapState_is_Unmapped device b = false) →
    StagingBuffers.find_unmapped device infos start = Returned None.
Proof.
  induction infos as [|head rest IH]; intros start Hmapped; [reflexivity|].
  simpl. destruct (Hmapped 0%nat head eq_refl) as (b & -> & ->).
  apply IH. intros j BufferInfo Hj. by apply (Hmapped (S j)).
Qed.

End Staging.

(** X11.  [FindAvailableWriteMemoryBuffer] keeps one staging buffer and
    hands it out again.  On an empty vector it asks the device for a buffer
    for writing that is mapped at creation: when the device gives none, the
    function logs the error and throws, with the vector still empty; when
    the device gives one, the vector has exactly that buffer afterwards,
    with identifier 0, and it is the buffer returned.  On a vector that is
    not empty it returns the last buffer without asking the device and
    without changing anything.  So it never returns [nullptr], it throws
    only on an empty vector when the device gives no buffer, and calling it
    again after it returned gives the same buffer and changes nothing. *)
Theorem FindAvailableWriteMemoryBuffer_reuses_its_buffer
    `{StagingBuffers.WebGPUEnvironment}
    (this : StagingBuffers.BufferWebGPUImpl) (device : StagingBuffers.DeviceState) :
  let first_call := StagingBuffers.FindAvailableWriteMemoryBuffer this device in
  let wgpuBufferDesc :=
    {| StagingBuffers.label := StagingBuffers.Desc_Name this;
       StagingBuffers.size :=
         StagingBuffers.AlignUp (StagingBuffers.Desc_Size this)
           (StagingBuffers.m_Alignment this);
       StagingBuffers.usage :=
         [StagingBuffers.WGPUBufferUsage_MapWrite; StagingBuffers.WGPUBufferUsage_CopySrc];
       StagingBuffers.mappedAtCreation := true |} in
  StagingBuffers.Ended first_call ≠ Returned None ∧
  StagingBuffers.Ended first_call ≠ Undefined ∧
  (∀ device',
      StagingBuffers.m_StagingBufferInfo this = [] →
      StagingBuffers.wgpuDeviceCreateBuffer device wgpuBufferDesc = (None, device') →
      first_call =
      {| StagingBuffers.Ended :=
           Thrown (OtherException (StagingBuffers.creation_failure_message this));
         StagingBuffers.This := this;
         StagingBuffers.Device := device';
         StagingBuffers.Diagnostics :=
           [ErrorMessage (StagingBuffers.creation_failure_message this)] |}) ∧
  (∀ buffer device',
      StagingBuffers.m_StagingBufferInfo this = [] →
      StagingBuffers.wgpuDeviceCreateBuffer device wgpuBufferDesc = (Some buffer, device') →
      StagingBuffers.Ended first_call = Returned (Some 0%nat) ∧
      StagingBuffers.m_StagingBufferInfo (StagingBuffers.This first_call) =
      [{| StagingBuffers.wgpuBuffer := Some buffer;
          StagingBuffers.BufferIdentifier := 0;
          StagingBuffers.pMappedData := 0;
          StagingBuffers.MappedSize := 0;
          StagingBuffers.pSyncPoint := None;
          StagingBuffers.pThis_set := false |}] ∧
      StagingBuffers.Device first_call = device' ∧
      StagingBuffers.Diagnostics first_call = []) ∧
  (StagingBuffers.m_StagingBufferInfo this ≠ [] →
   first_call =
   {| StagingBuffers.Ended :=
        Returned (Some (length (StagingBuffers.m_StagingBufferInfo this) - 1)%nat);
      StagingBuffers.This := this;
      StagingBuffers.Device := device;
      StagingBuffers.Diagnostics := [] |}) ∧
  (∀ e, StagingBuffers.Ended first_call = Thrown e →
        StagingBuffers.m_StagingBufferInfo this = [] ∧
        fst (StagingBuffers.wgpuDeviceCreateBuffer device wgpuBufferDesc) = None ∧
        StagingBuffers.This first_call = this) ∧
  (∀ position,
      StagingBuffers.Ended first_call = Returned (Some position) →
      S position =
      length (StagingBuffers.m_StagingBufferInfo (StagingBuffers.This first_call)) ∧
      StagingBuffers.FindAvailableWriteMemoryBuffer
        (StagingBuffers.This first_call) (StagingBuffers.Device first_call) =
      {| StagingBuffers.Ended := Returned (Some position);
         StagingBuffers.This := StagingBuffers.This first_call;
         StagingBuffers.Device := StagingBuffers.Device first_call;
         StagingBuffers.Diagnostics := [] |}).
Proof.
  destruct this as [name sz use flags align data addr pool capacity].
  destruct pool as [|first rest].
  - unfold StagingBuffers.FindAvailableWriteMemoryBuffer at 1. simpl.
    destruct (StagingBuffers.wgpuDeviceCreateBuffer device _) as [[buffer|] device'];
      simpl.
    + split; [discriminate|]. split; [discriminate|]. split; [discriminate|].
      split; [by intros b d _ [= <- <-]|]. split; [done|]. split; [discriminate|].
      intros position Hposition. injection Hposition as <-.
      split; [done|]. reflexivity.
    + split; [discriminate|]. split; [discriminate|].
      split; [by intros d _ [= <-]|]. split; [discriminate|]. split; [done|].
      split; [done|]. discriminate.
  - simpl. split; [discriminate|]. split; [discriminate|]. split; [discriminate|].
    split; [discriminate|]. split; [by intros _|]. split; [discriminate|].
    intros position Hposition. injection Hposition as <-.
    split; [simpl; lia|].
    unfold StagingBuffers.FindAvailableWriteMemoryBuffer. simpl.
    reflexivity.
Qed.

Lemma FindAvailableWriteMemoryBuffer_reuses_its_buffer_witness :
  @StagingBuffers.FindAvailableWriteMemoryBuffer exhausted_environment
    example_readback_buffer 0%nat =
  @StagingBuffers.Build_CallResult exhausted_environment
    (Thrown (OtherException "Failed to create WebGPU buffer  'readback'"))
    example_readback_buffer 0%nat
    [ErrorMessage "Failed to create WebGPU buffer  'readback'"] ∧
  @StagingBuffers.Ended example_environment
    (@StagingBuffers.FindAvailableWriteMemoryBuffer example_environment
       example_readback_buffer 0%nat) = Returned (Some 0%nat) ∧
  StagingBuffers.m_StagingBufferInfo
    (@StagingBuffers.This example_environment
       (@StagingBuffers.FindAvailableWriteMemoryBuffer example_environment
          example_readback_buffer 0%nat)) =
  [{| StagingBuffers.wgpuBuffer := Some 1%nat;
      StagingBuffers.BufferIdentifier := 0;
      StagingBuffers.pMappedData := 0;
      StagingBuffers.MappedSize := 0;
      StagingBuffers.pSyncPoint := None;
      StagingBuffers.pThis_set := false |}] ∧
  @StagingBuffers.FindAvailableWriteMemoryBuffer example_environment
    example_pending_buffer 2%nat =
  @StagingBuffers.Build_CallResult example_environment
    (Returned (Some 1%nat)) example_pending_buffer 2%nat [].
Proof.
  split; [|split; [|split]].
  - destruct (@FindAvailableWriteMemoryBuffer_reuses_its_buffer exhausted_environment
                example_readback_buffer 0%nat) as (_ & _ & Hthrows & _).
    apply (Hthrows 0%nat); reflexivity.
  - destruct (@FindAvailableWriteMemoryBuffer_reuses_its_buffer example_environment
                example_readback_buffer 0%nat) as (_ & _ & _ & Hcreates & _).
    apply (Hcreates 1%nat 1%nat); reflexivity.
  - destruct (@FindAvailableWriteMemoryBuffer_reuses_its_buffer example_environment
                example_readback_buffer 0%nat) as (_ & _ & _ & Hcreates & _).
    apply (Hcreates 1%nat 1%nat); reflexivity.
  - destruct (@FindAvailableWriteMemoryBuffer_reuses_its_buffer example_environment
                example_pending_buffer 2%nat) as (_ & _ & _ & _ & Hreuses & _).
    apply Hreuses. discriminate.
Defined.

(** X12.  [FindAvailableReadMemoryBuffer] hands out the first staging
    buffer that the device reports as unmapped, after resetting its sync
    point to [false] and without touching the other buffers or the device;
    only when every buffer is mapped does it ask the device for a buffer
    for reading, which it appends with the staging memory's address and
    size, a new sync point and the previous number of buffers as
    identifier.  It returns [nullptr] when every buffer is mapped and the
    device gives no buffer, and only then; the vector is then as it was
    and the error is logged. *)
Theorem FindAvailableReadMemoryBuffer_returns_unmapped_or_new
    `{StagingBuffers.WebGPUEnvironment}
    (this : StagingBuffers.BufferWebGPUImpl) (device : StagingBuffers.DeviceState) :
  let call := StagingBuffers.FindAvailableReadMemoryBuffer this device in
  let pool := StagingBuffers.m_StagingBufferInfo this in
  let wgpuBufferDesc :=
    {| StagingBuffers.label := StagingBuffers.Desc_Name this;
       StagingBuffers.size :=
         StagingBuffers.AlignUp (StagingBuffers.Desc_Size this)
           (StagingBuffers.m_Alignment this);
       StagingBuffers.usage :=
         [StagingBuffers.WGPUBufferUsage_MapRead; StagingBuffers.WGPUBufferUsage_CopyDst];
       StagingBuffers.mappedAtCreation := false |} in
  let all_mapped :=
    ∀ j BufferInfo, pool !! j = Some BufferInfo →
      ∃ b, StagingBuffers.wgpuBuffer BufferInfo = Some b ∧
           StagingBuffers.wgpuBufferGetMapState_is_Unmapped device b = false in
  (∀ position BufferInfo buffer value,
      pool !! position = Some BufferInfo →
      StagingBuffers.wgpuBuffer BufferInfo = Some buffer →
      StagingBuffers.wgpuBufferGetMapState_is_Unmapped device buffer = true →
      (∀ j earlier, (j < position)%nat → pool !! j = Some earlier →
         ∃ b, StagingBuffers.wgpuBuffer earlier = Some b ∧
              StagingBuffers.wgpuBufferGetMapState_is_Unmapped device b = false) →
      StagingBuffers.pSyncPoint BufferInfo = Some value →
      StagingBuffers.Ended call = Returned (Some position) ∧
      StagingBuffers.m_StagingBufferInfo (StagingBuffers.This call) =
      <[position :=
          {| StagingBuffers.wgpuBuffer := Some buffer;
             StagingBuffers.BufferIdentifier := StagingBuffers.BufferIdentifier BufferInfo;
             StagingBuffers.pMappedData := StagingBuffers.pMappedData BufferInfo;
             StagingBuffers.MappedSize := StagingBuffers.MappedSize BufferInfo;
             StagingBuffers.pSyncPoint := Some false;
             StagingBuffers.pThis_set := StagingBuffers.pThis_set BufferInfo |}]> pool ∧
      StagingBuffers.Device call = device ∧
      StagingBuffers.Diagnostics call = []) ∧
  (∀ buffer device',
      all_mapped →
      StagingBuffers.wgpuDeviceCreateBuffer device wgpuBufferDesc = (Some buffer, device') →
      StagingBuffers.Ended call = Returned (Some (length pool)) ∧
      StagingBuffers.m_StagingBufferInfo (StagingBuffers.This call) =
      pool ++
      [{| StagingBuffers.wgpuBuffer := Some buffer;
          StagingBuffers.BufferIdentifier := Z.of_nat (length pool) mod 2 ^ 32;
          StagingBuffers.pMappedData := StagingBuffers.MappedData_data this;
          StagingBuffers.MappedSize := length (StagingBuffers.m_MappedData this);
          StagingBuffers.pSyncPoint := Some StagingBuffers.new_SyncPoint_value;
          StagingBuffers.pThis_set := true |}] ∧
      StagingBuffers.Device call = device' ∧
      StagingBuffers.Diagnostics call =
      VERIFY_EXPR
        (StagingBuffers.StagingBufferInfo_capacity (StagingBuffers.This call)
         <=? StagingBuffers.MaxPendingBuffers)%nat
        "m_StagingBufferInfo.capacity() <= MaxPendingBuffers") ∧
  (∀ device',
      all_mapped →
      StagingBuffers.wgpuDeviceCreateBuffer device wgpuBufferDesc = (None, device') →
      call =
      {| StagingBuffers.Ended := Returned None;
         StagingBuffers.This := this;
         StagingBuffers.Device := device';
         StagingBuffers.Diagnostics :=
           [ErrorMessage (StagingBuffers.creation_failure_message this)] |}) ∧
  (StagingBuffers.Ended call = Returned None →
   all_mapped ∧
   fst (StagingBuffers.wgpuDeviceCreateBuffer device wgpuBufferDesc) = None) ∧
  (∀ position,
      StagingBuffers.Ended call = Returned (Some position) →
      (∃ BufferInfo buffer,
          pool !! position = Some BufferInfo ∧
          StagingBuffers.wgpuBuffer BufferInfo = Some buffer ∧
          StagingBuffers.wgpuBufferGetMapState_is_Unmapped device buffer = true ∧
          ∀ j earlier, (j < position)%nat → pool !! j = Some earlier →
            ∃ b, StagingBuffers.wgpuBuffer earlier = Some b ∧
                 StagingBuffers.wgpuBufferGetMapState_is_Unmapped device b = false) ∨
      (position = length pool ∧ all_mapped ∧
       ∃ buffer,
         fst (StagingBuffers.wgpuDeviceCreateBuffer device wgpuBufferDesc) =
         Some buffer)).
Proof.
  intros call pool wgpuBufferDesc all_mapped. subst call all_mapped.
  unfold StagingBuffers.FindAvailableReadMemoryBuffer. fold pool. fold wgpuBufferDesc.
  split; [|split; [|split; [|split]]].
  - intros position BufferInfo buffer value Hlookup Hbuffer Hstate Hearlier Hsync.
    rewrite (find_unmapped_first device pool 0 position BufferInfo buffer)
      by done.
    simpl. rewrite Hlookup, Hsync. simpl.
    unfold StagingBuffers.SetValue_false. rewrite Hbuffer. done.
  - intros buffer device' Hmapped Hcreate.
    rewrite find_unmapped_none by done. rewrite Hcreate. simpl.
    fold pool. rewrite length_app. simpl.
    split; [do 2 f_equal; lia|]. done.
  - intros device' Hmapped Hcreate.
    rewrite find_unmapped_none by done. by rewrite Hcreate.
  - pose proof (find_unmapped_spec device pool 0) as Hsearch.
    destruct (StagingBuffers.find_unmapped device pool 0) as [[found|]| |].
    + destruct Hsearch as (i & BufferInfo & buffer & -> & Hi & _). simpl. rewrite Hi.
      by destruct (StagingBuffers.pSyncPoint BufferInfo).
    + destruct (StagingBuffers.wgpuDeviceCreateBuffer device wgpuBufferDesc)
        as [[buffer|] device']; simpl; [discriminate|done].
    + done.
    + discriminate.
  - pose proof (find_unmapped_spec device pool 0) as Hsearch.
    destruct (StagingBuffers.find_unmapped device pool 0) as [[found|]| |].
    + destruct Hsearch as (i & BufferInfo & buffer & -> & Hi & Hbuffer & Hstate & Hearlier).
      simpl. rewrite Hi.
      destruct (StagingBuffers.pSyncPoint BufferInfo) as [value|]; simpl;
        [|discriminate].
      intros position Hposition. injection Hposition as <-. left.
      by exists BufferInfo, buffer.
    + destruct (StagingBuffers.wgpuDeviceCreateBuffer device wgpuBufferDesc)
        as [[buffer|] device']; simpl; [|discriminate].
      intros position Hposition. injection Hposition as <-. right.
      fold pool. rewrite length_app. simpl.
      split; [lia|]. split; [done|]. by exists buffer.
    + done.
    + discriminate.
Qed.

Lemma FindAvailableReadMemoryBuffer_returns_unmapped_or_new_witness :
  (@StagingBuffers.Ended example_environment
     (@StagingBuffers.FindAvailableReadMemoryBuffer example_environment
        example_pending_buffer 2%nat) = Returned (Some 1%nat) ∧
   StagingBuffers.m_StagingBufferInfo
     (@StagingBuffers.This example_environment
        (@StagingBuffers.FindAvailableReadMemoryBuffer example_environment
           example_pending_buffer 2%nat)) =
   [pending_StagingBufferSyncInfo 1%nat 0;
    {| StagingBuffers.wgpuBuffer := Some 2%nat;
       StagingBuffers.BufferIdentifier := 1;
       StagingBuffers.pMappedData := 4096;
       StagingBuffers.MappedSize := 4;
       StagingBuffers.pSyncPoint := Some false;
       StagingBuffers.pThis_set := true |}]) ∧
  (@StagingBuffers.Ended example_environment
     (@StagingBuffers.FindAvailableReadMemoryBuffer example_environment
        example_busy_buffer 3%nat) = Returned (Some 2%nat) ∧
   StagingBuffers.m_StagingBufferInfo
     (@StagingBuffers.This example_environment
        (@StagingBuffers.FindAvailableReadMemoryBuffer example_environment
           example_busy_buffer 3%nat)) =
   [pending_StagingBufferSyncInfo 1%nat 0; pending_StagingBufferSyncInfo 3%nat 1;
    {| StagingBuffers.wgpuBuffer := Some 4%nat;
       StagingBuffers.BufferIdentifier := 2;
       StagingBuffers.pMappedData := 4096;
       StagingBuffers.MappedSize := 4;
       StagingBuffers.pSyncPoint := Some false;
       StagingBuffers.pThis_set := true |}]) ∧
  @StagingBuffers.FindAvailableReadMemoryBuffer exhausted_environment
    example_busy_buffer 3%nat =
  @StagingBuffers.Build_CallResult exhausted_environment
    (Returned None) example_busy_buffer 3%nat
    [ErrorMessage "Failed to create WebGPU buffer  'readback'"].
Proof.
  assert (∀ j BufferInfo,
             StagingBuffers.m_StagingBufferInfo example_busy_buffer !! j =
             Some BufferInfo →
             ∃ b, StagingBuffers.wgpuBuffer BufferInfo = Some b ∧ Nat.even b = false)
    as Hbusy.
  { intros [|[|j]] BufferInfo Hj; simpl in Hj; try discriminate;
      injection Hj as <-; by eexists. }
  split; [|split].
  - destruct (@FindAvailableReadMemoryBuffer_returns_unmapped_or_new example_environment
                example_pending_buffer 2%nat) as (Hfound & _).
    destruct (Hfound 1%nat (pending_StagingBufferSyncInfo 2%nat 1) 2%nat true
                eq_refl eq_refl eq_refl) as (Hended & Hpool & _); [|reflexivity|].
    + intros [|j] earlier Hj Hlookup; [|lia].
      injection Hlookup as <-. by exists 1%nat.
    + split; [exact Hended | exact Hpool].
  - destruct (@FindAvailableReadMemoryBuffer_returns_unmapped_or_new example_environment
                example_busy_buffer 3%nat) as (_ & Hnew & _).
    destruct (Hnew 4%nat 4%nat Hbusy eq_refl) as (Hended & Hpool & _).
    split; [exact Hended | exact Hpool].
  - destruct (@FindAvailableReadMemoryBuffer_returns_unmapped_or_new exhausted_environment
                example_busy_buffer 3%nat) as (_ & _ & Hnone & _).
    apply (Hnone 3%nat Hbusy eq_refl).
Defined.

(** X13.  [GetStagingBufferInfo] keeps the identifiers in step with the
    positions: when every staging buffer has its position as
    [BufferIdentifier] and the number of buffers fits 32 bits, the same
    holds after the call, on the read path, on the write path and when
    neither access flag is set; the vector never shrinks. *)
Theorem GetStagingBufferInfo_keeps_identifiers `{StagingBuffers.WebGPUEnvironment}
    (this : StagingBuffers.BufferWebGPUImpl) (device : StagingBuffers.DeviceState) :
  Z.of_nat (length (StagingBuffers.m_StagingBufferInfo this)) < 2 ^ 32 →
  (∀ k BufferInfo,
      StagingBuffers.m_StagingBufferInfo this !! k = Some BufferInfo →
      StagingBuffers.BufferIdentifier BufferInfo = Z.of_nat k) →
  (length (StagingBuffers.m_StagingBufferInfo this) ≤
   length (StagingBuffers.m_StagingBufferInfo
             (StagingBuffers.This (StagingBuffers.GetStagingBufferInfo this device))))%nat ∧
  ∀ k BufferInfo,
    StagingBuffers.m_StagingBufferInfo
      (StagingBuffers.This (StagingBuffers.GetStagingBufferInfo this device)) !! k =
    Some BufferInfo →
    StagingBuffers.BufferIdentifier BufferInfo = Z.of_nat k.
Proof.
  intros Hfit Hids.
  assert (∀ (pool : list StagingBuffers.StagingBufferSyncInfo) new,
             pool = StagingBuffers.m_StagingBufferInfo this →
             StagingBuffers.BufferIdentifier new =
             StaticCast 32 (Z.of_nat (length pool)) →
             ∀ k BufferInfo, (pool ++ [new]) !! k = Some BufferInfo →
                             StagingBuffers.BufferIdentifier BufferInfo = Z.of_nat k)
    as Happended.
  { intros pool new -> Hnew k BufferInfo Hk.
    apply lookup_app_Some in Hk as [Hk|[Hlen Hk]]; [by apply Hids|].
    apply list_lookup_singleton_Some in Hk as [Hzero <-].
    rewrite Hnew. unfold StaticCast. rewrite Z.mod_small by lia. lia. }
  unfold StagingBuffers.GetStagingBufferInfo.
  destruct (negb (Z.land (StagingBuffers.Desc_CPUAccessFlags this)
                    StagingBuffers.CPU_ACCESS_READ =? 0)).
  - simpl. unfold StagingBuffers.FindAvailableReadMemoryBuffer.
    pose proof (find_unmapped_spec device (StagingBuffers.m_StagingBufferInfo this) 0)
      as Hsearch.
    destruct (StagingBuffers.find_unmapped device _ 0) as [[found|]| |]; simpl;
      [| |by split..].
    + destruct Hsearch as (i & info & buffer & -> & Hi & _). simpl. rewrite Hi.
      destruct (StagingBuffers.pSyncPoint info); simpl; [|by split].
      rewrite length_insert. split; [done|].
      intros k BufferInfo Hk.
      destruct (decide (i = k)) as [<-|Hne].
      * rewrite list_lookup_insert_eq in Hk by (by eapply lookup_lt_Some).
        injection Hk as <-. simpl. by apply Hids.
      * rewrite list_lookup_insert_ne in Hk by done. by apply Hids.
    + destruct (StagingBuffers.wgpuDeviceCreateBuffer device _) as [[buffer|] device'];
        simpl; [|by split].
      rewrite length_app. split; [lia|]. by apply Happended.
  - destruct (negb (Z.land (StagingBuffers.Desc_CPUAccessFlags this)
                      StagingBuffers.CPU_ACCESS_WRITE =? 0)); [|by split].
    simpl. unfold StagingBuffers.FindAvailableWriteMemoryBuffer.
    clear Happended.
    destruct this as [name sz use flags align data addr pool capacity]. simpl in *.
    destruct pool as [|first rest]; [|by split].
    destruct (StagingBuffers.wgpuDeviceCreateBuffer device _) as [[buffer|] device'];
      simpl; [|by split].
    split; [lia|].
    intros [|k] BufferInfo Hk; simpl in Hk; [|discriminate].
    by injection Hk as <-.
Qed.

Lemma GetStagingBufferInfo_keeps_identifiers_witness :
  length (StagingBuffers.m_StagingBufferInfo
            (@StagingBuffers.This example_environment
               (@StagingBuffers.GetStagingBufferInfo example_environment
                  example_busy_buffer 3%nat))) = 3%nat ∧
  ∀ k BufferInfo,
    StagingBuffers.m_StagingBufferInfo
      (@StagingBuffers.This example_environment
         (@StagingBuffers.GetStagingBufferInfo example_environment
            example_busy_buffer 3%nat)) !! k = Some BufferInfo →
    StagingBuffers.BufferIdentifier BufferInfo = Z.of_nat k.
Proof.
  split; [reflexivity|].
  apply (@GetStagingBufferInfo_keeps_identifiers example_environment
           example_busy_buffer 3%nat).
  - reflexivity.
  - intros [|[|k]] BufferInfo Hk; simpl in Hk; try discriminate;
      by injection Hk as <-.
Defined.
